(** * Classias: log-linear trainers (logress.h, maxent.h, train/lbfgs/multi.h)
      and the training-file line readers (frontend/train/multi.cpp,
      frontend/train/attribute.cpp).

    The trainers are C++ templates over [value_tmpl]; the development
    instantiates the value type at the real numbers [R], so that [exp] and
    [log] are the mathematical functions and the comparisons of the code are
    the order of [R].  Rounding, overflow and NaN of the IEEE doubles of a
    build with [value_tmpl = double] are outside this model.

    Arrays ([const value_type *x], [value_type *g], the scratch arrays of
    the trainers) are lists updated in place by index; loops are folds over
    the indices or the elements they visit, with the variables they update
    as the accumulator.  A write outside an array is dropped and a read
    outside it yields 0, where the source has undefined behaviour; the
    statements that depend on the size of an array say so.  Dereferencing
    an end iterator is modelled by [None].  What a method writes to its
    output stream is a list of [log_item]. *)

From Stdlib Require Import Reals Lra Lia ZArith String Ascii List.
From stdpp Require Import base decidable option list.

Open Scope R_scope.

(** ** Comparisons of the value type *)

#[global] Instance Rlt_decision (x y : R) : Decision (x < y) := Rlt_dec x y.
#[global] Instance Rle_decision (x y : R) : Decision (x <= y) := Rle_dec x y.
#[global] Instance Req_decision : EqDecision R := Req_dec_T.
#[global] Instance R_inhabited : Inhabited R := populate 0.

(** [static_cast<double>(b)] *)
Definition of_bool (b : bool) : R := if b then 1 else 0.

(** ** linear_binary_instance (logress.h) *)

Module linear_binary_instance.

(** [operator()(key, value)]: [m_score += m_model[key] * value].  A key
    outside the model array is read as 0 here (the source reads out of
    bounds). *)
Definition accumulate (m_model : list R) (m_score : R) (key : nat) (value : R) : R :=
  m_score + (m_model !!! key) * value.

(** [operator bool()] *)
Definition to_bool (m_score : R) : bool := bool_decide (0 < m_score).

(** [logistic_prob()] *)
Definition logistic_prob (m_score : R) : R :=
  if decide (-100 < m_score) then 1 / (1 + exp (- m_score)) else 0.

(** The probability [p] that [logistic_error(bool b, value_type& logp)]
    computes, branch by branch as written. *)
Definition logistic_error_p (m_score : R) : R :=
  if decide (-100 < m_score) then 0
  else if decide (100 < m_score) then 1
  else 1 / (1 + exp (- m_score)).

(** [logistic_error(bool b)] *)
Definition logistic_error1 (m_score : R) (b : bool) : R :=
  let p :=
    if decide (-100 < m_score) then 0
    else if decide (100 < m_score) then 1
    else 1 / (1 + exp (- m_score)) in
  of_bool b - p.

(** [logistic_error(bool b, value_type& logp)]: the returned error and the
    value stored in [logp]. *)
Definition logistic_error (m_score : R) (b : bool) : R * R :=
  if decide (-100 < m_score) then
    let p := 0 in
    let logp := of_bool b * m_score in
    (of_bool b - p, logp)
  else if decide (100 < m_score) then
    let p := 1 in
    let logp := (of_bool b - 1) * m_score in
    (of_bool b - p, logp)
  else
    let p := 1 / (1 + exp (- m_score)) in
    let logp := if b then ln p else ln (1 - p) in
    (of_bool b - p, logp).

End linear_binary_instance.

(** ** Data model *)

(** A feature (or attribute) vector: (identifier, value) pairs in append
    order; duplicates are kept. *)
Definition features_type := list (nat * R).

(** A data set: its instances in order, the start index of the user
    features ([get_user_feature_start()]; the identifiers below it were
    reserved by [@unregularize]) and the number of features. *)
Record data_type (I : Type) : Type := mk_data {
  instances : list I;
  user_feature_start : nat;
  num_features : nat
}.
Arguments mk_data {I} _ _ _.
Arguments instances {I} _.
Arguments user_feature_start {I} _.
Arguments num_features {I} _.

(** Modelled from the spec: the inner product of a weight array with a
    feature vector ([inner_product] of the instance and candidate classes,
    declared in classias/base.h, which is not among the sources):
    duplicate identifiers accumulate. *)
Definition inner_product (x : list R) (fs : features_type) : R :=
  fold_left (fun s '(k, v) => s + (x !!! k) * v) fs 0.

(** Modelled from the spec: [add(array, scale)] of a candidate
    (classias/base.h): [array[k] += scale * value] for each (k, value). *)
Definition add_to (a : list R) (fs : features_type) (scale : R) : list R :=
  fold_left (fun a '(k, v) => <[k := (a !!! k) + scale * v]> a) fs a.

(** ** What the trainers write to their output stream *)

Inductive log_item : Type :=
| LogText (s : string)
| LogIteration (k : Z)
| LogLikelihood (v : R)
| LogFeatureNorm (v : R)
| LogErrorNorm (v : R)
| LogActiveFeatures (num_active n : nat)
| LogLineSearchTrials (ls : Z)
| LogLineSearchStep (v : R)
| LogSeconds (v : R)
| LogFalse (comment : string) (ml : nat) (z : R)
| LogAccuracy (accuracy : R) (num_correct num_total : nat)
| LogMicro (precision recall f1 : R)
| LogEndl.

(** <ctime> is a system header; POSIX fixes this value. *)
Definition CLOCKS_PER_SEC : Z := 1000000.

(** <float.h>: the largest finite double. *)
Definition DBL_MAX : R := (2 - / 2 ^ 52) * 2 ^ 1023.

(** The number of non-zero weights among [x[0..n-1]] (the "active
    features" loop of both progress callbacks). *)
Definition count_active (x : list R) (n : nat) : nat :=
  fold_left (fun num_active i =>
               if decide (x !!! i <> 0) then S num_active else num_active)
            (seq 0 n) 0%nat.

(** The loop of the L2 blocks of the evaluators: for [i] from [start] to
    [n - 1], [g[i] += c2 * x[i]] and [norm += x[i] * x[i]]. *)
Definition l2_loop (c2 : R) (x : list R) (start n : nat) (g : list R)
  : list R * R :=
  fold_left (fun '(g, norm) i =>
               (<[i := (g !!! i) + c2 * (x !!! i)]> g,
                norm + (x !!! i) * (x !!! i)))
            (seq start (n - start)) (g, 0).

(** ** confusion_matrix (classias/evaluation.h is not among the sources) *)

Module confusion_matrix.

(** Modelled from the spec: a confusion matrix over (true, predicted)
    label pairs: [n] labels and one counter per pair, the pair (x, y) at
    index [x * n + y]. *)
Record t : Type := mk { size : nat; cells : list nat }.

(** Modelled from the spec: [confusion_matrix matrix(n)], all counters
    zero. *)
Definition create (n : nat) : t := mk n (replicate (n * n) 0%nat).

(** Modelled from the spec: the counter of the pair (true label [x],
    predicted label [y]). *)
Definition cell (m : t) (x y : nat) : nat := cells m !!! (x * size m + y)%nat.

(** Modelled from the spec: [matrix(rl, ml)++]. *)
Definition incr (m : t) (x y : nat) : t :=
  mk (size m) (<[(x * size m + y)%nat := S (cell m x y)]> (cells m)).

(** Modelled from the spec: the number of tallied instances. *)
Definition num_total (m : t) : nat := sum_list (cells m).

(** Modelled from the spec: the instances on the diagonal. *)
Definition num_correct (m : t) : nat :=
  sum_list (map (fun x => cell m x x) (seq 0 (size m))).

(** Modelled from the spec: accuracy (correct/total). *)
Definition output_accuracy (m : t) : log_item :=
  LogAccuracy (INR (num_correct m) / INR (num_total m))
              (num_correct m) (num_total m).

(** Modelled from the spec: micro-averaged precision, recall and F1 over
    the positive labels: matches are the diagonal cells of the positive
    labels, predictions the cells whose predicted label is positive,
    references the cells whose true label is positive. *)
Definition output_micro (m : t) (positive_labels : list nat) : log_item :=
  let num_match := sum_list (map (fun p => cell m p p) positive_labels) in
  let num_reference :=
    sum_list (map (fun p => sum_list (map (fun y => cell m p y) (seq 0 (size m))))
                 positive_labels) in
  let num_prediction :=
    sum_list (map (fun p => sum_list (map (fun x => cell m x p) (seq 0 (size m))))
                 positive_labels) in
  let precision := INR num_match / INR num_prediction in
  let recall := INR num_match / INR num_reference in
  let f1 := 2 * precision * recall / (precision + recall) in
  LogMicro precision recall f1.

End confusion_matrix.

(** ** trainer_logress (logress.h) *)

Module logress.

(** A binary instance: feature vector, truth flag, group, instance weight
    and comment. *)
Record instance_type : Type := mk_instance {
  features : features_type;
  get_truth : bool;
  get_group : Z;
  get_weight : R;
  get_comment : string
}.

(** The members of [trainer_logress] that the modelled methods read or
    write. *)
Record trainer : Type := mk_trainer {
  m_weights : list R;
  m_data : data_type instance_type;
  m_holdout : Z;
  m_regularization : string;
  m_regularization_sigma : R;
  m_regularization_start : nat;
  m_lbfgs_maxiter : Z;
  m_lbfgs_linesearch : string;
  m_c1 : R;
  m_c2 : R;
  m_clk_prev : Z
}.

Definition set_c1 (t : trainer) (c1 : R) : trainer :=
  mk_trainer (m_weights t) (m_data t) (m_holdout t) (m_regularization t)
    (m_regularization_sigma t) (m_regularization_start t) (m_lbfgs_maxiter t)
    (m_lbfgs_linesearch t) c1 (m_c2 t) (m_clk_prev t).

Definition set_c2 (t : trainer) (c2 : R) : trainer :=
  mk_trainer (m_weights t) (m_data t) (m_holdout t) (m_regularization t)
    (m_regularization_sigma t) (m_regularization_start t) (m_lbfgs_maxiter t)
    (m_lbfgs_linesearch t) (m_c1 t) c2 (m_clk_prev t).

Definition set_data (t : trainer) (d : data_type instance_type) : trainer :=
  mk_trainer (m_weights t) d (m_holdout t) (m_regularization t)
    (m_regularization_sigma t) (m_regularization_start t) (m_lbfgs_maxiter t)
    (m_lbfgs_linesearch t) (m_c1 t) (m_c2 t) (m_clk_prev t).

(** The body of the instance loop of [lbfgs_evaluate] for one instance:
    the loss and the gradient array before and after. *)
Definition evaluate_instance (holdout : Z) (x : list R)
    (acc : R * list R) (iti : instance_type) : R * list R :=
  let '(loss, g) := acc in
  (* Exclude instances for holdout evaluation. *)
  if decide (get_group iti = holdout) then (loss, g)
  else
    let inst :=
      fold_left (fun m_score '(k, v) =>
                   linear_binary_instance.accumulate x m_score k v)
                (features iti) 0 in
    let '(d, logp) :=
      linear_binary_instance.logistic_error inst (get_truth iti) in
    let loss := loss - get_weight iti * logp in
    (* Update the gradients for the weights. *)
    let g :=
      fold_left (fun g '(k, v) => <[k := (g !!! k) - v * d * get_weight iti]> g)
                (features iti) g in
    (loss, g).

(** [lbfgs_evaluate(x, g, n, step)]: the returned loss and the final
    contents of [g]. *)
Definition lbfgs_evaluate (t : trainer) (x g : list R) (n : nat) : R * list R :=
  (* Initialize the gradient of every weight as zero. *)
  let g := fold_left (fun g i => <[i := 0]> g) (seq 0 n) g in
  (* For each instance in the data. *)
  let '(loss, g) :=
    fold_left (evaluate_instance (m_holdout t) x)
              (instances (m_data t)) (0, g) in
  (* L2 regularization. *)
  if decide (m_c2 t <> 0) then
    let '(g, norm) := l2_loop (m_c2 t) x (m_regularization_start t) n g in
    (loss + m_c2 t * norm * 0.5, g)
  else (loss, g).

(** The body of the instance loop of [holdout_evaluation]: the matrix and
    the lines written so far. *)
Definition holdout_instance (holdout : Z) (weights : list R)
    (false_analysis : bool)
    (acc : confusion_matrix.t * list log_item) (iti : instance_type)
  : confusion_matrix.t * list log_item :=
  let '(matrix, os) := acc in
  (* Skip instances for training. *)
  if decide (get_group iti <> holdout) then (matrix, os)
  else
    (* Compute the logit. *)
    let z := inner_product weights (features iti) in
    (* Obtain the label index of the reference and the model. *)
    let rl := if get_truth iti then 1%nat else 0%nat in
    let ml := if decide (z <= 0) then 0%nat else 1%nat in
    let os :=
      if false_analysis then
        if decide (rl <> ml) then os ++ [LogFalse (get_comment iti) ml z]
        else os
      else os in
    (* Classify the instance. *)
    (confusion_matrix.incr matrix rl ml, os).

(** The matrix tallied by [holdout_evaluation]. *)
Definition holdout_matrix (t : trainer) (false_analysis : bool)
  : confusion_matrix.t * list log_item :=
  fold_left (holdout_instance (m_holdout t) (m_weights t) false_analysis)
            (instances (m_data t))
            (confusion_matrix.create 2,
             if false_analysis then [LogText "=== False analysis ==="] else []).

(** [holdout_evaluation(false_analysis)]: the lines written. *)
Definition holdout_evaluation (t : trainer) (false_analysis : bool)
  : list log_item :=
  let positive_labels := [1%nat] in
  let '(matrix, os) := holdout_matrix t false_analysis in
  let os := if false_analysis then os ++ [LogText "==="] else os in
  os ++ [confusion_matrix.output_accuracy matrix;
         confusion_matrix.output_micro matrix positive_labels].

(** [lbfgs_progress(x, g, fx, xnorm, gnorm, step, n, k, ls)] with the
    value [clk] read from [std::clock()]: the trainer afterwards, the lines
    written and the returned value. *)
Definition lbfgs_progress (t : trainer) (clk : Z)
    (x g : list R) (fx xnorm gnorm step : R) (n : nat) (k ls : Z)
  : trainer * list log_item * Z :=
  (* Compute the duration required for this iteration. *)
  let duration := (clk - m_clk_prev t)%Z in
  let t := mk_trainer (m_weights t) (m_data t) (m_holdout t)
             (m_regularization t) (m_regularization_sigma t)
             (m_regularization_start t) (m_lbfgs_maxiter t)
             (m_lbfgs_linesearch t) (m_c1 t) (m_c2 t) clk in
  (* Count the number of active features. *)
  let num_active := count_active x n in
  (* Output the current progress. *)
  let os := [LogIteration k; LogLikelihood (- fx); LogFeatureNorm xnorm;
             LogErrorNorm gnorm; LogActiveFeatures num_active n;
             LogLineSearchTrials ls; LogLineSearchStep step;
             LogSeconds (IZR duration / IZR CLOCKS_PER_SEC)] in
  (* Holdout evaluation if necessary. *)
  let os :=
    if decide (m_holdout t <> (-1)%Z) then os ++ holdout_evaluation t false
    else os in
  (* Output an empty line. *)
  let os := os ++ [LogEndl] in
  (t, os, 0%Z).

(** [train(data, os, holdout, false_analysis)] up to the call of the
    solver: the weights are allocated and zeroed, the holdout group is
    stored, the regularization constants are derived from the parameters
    and the regularization start is read from the data. *)
Definition train_setup (t : trainer) (data : data_type instance_type)
    (holdout : Z) (clk : Z) : trainer :=
  let K := num_features data in
  (* Initialize feature weights. *)
  let weights := replicate K 0 in
  (* Set the internal parameters. *)
  let '(c1, c2, linesearch) :=
    if (String.eqb (m_regularization t) "L1"
        || String.eqb (m_regularization t) "l1")%bool then
      (1.0 / m_regularization_sigma t, 0, "Backtracking"%string)
    else if (String.eqb (m_regularization t) "L2"
             || String.eqb (m_regularization t) "l2")%bool then
      (0, 1.0 / (m_regularization_sigma t * m_regularization_sigma t),
       m_lbfgs_linesearch t)
    else (0, 0, m_lbfgs_linesearch t) in
  mk_trainer weights data holdout (m_regularization t)
    (m_regularization_sigma t) (user_feature_start data) (m_lbfgs_maxiter t)
    linesearch c1 c2 clk.

(** The arguments [maxiter], [c1] and [l1_end] that [train] passes to
    [lbfgs_solve] (lbfgs.h declares the solver; its body is external). *)
Definition solver_arguments (t : trainer) : Z * R * nat :=
  (m_lbfgs_maxiter t, m_c1 t, m_regularization_start t).

End logress.

(** ** atoi (<cstdlib>, used by [trainer_maxent::set]) *)

Definition is_space (c : ascii) : bool :=
  let n := nat_of_ascii c in
  ((n =? 32) || ((9 <=? n) && (n <=? 13)))%nat.

Definition is_digit (c : ascii) : bool :=
  let n := nat_of_ascii c in ((48 <=? n) && (n <=? 57))%nat.

Fixpoint skip_space (s : string) : string :=
  match s with
  | String c r => if is_space c then skip_space r else s
  | EmptyString => s
  end.

Fixpoint digits_value (s : string) (acc : Z) : Z :=
  match s with
  | String c r =>
      if is_digit c
      then digits_value r (acc * 10 + Z.of_nat (nat_of_ascii c - 48))%Z
      else acc
  | EmptyString => acc
  end.

(** The C library function: leading white space, an optional sign, then
    decimal digits up to the first other character (values outside [int]
    are outside this model). *)
Definition atoi (s : string) : Z :=
  match skip_space s with
  | String "-" r => (- digits_value r 0)%Z
  | String "+" r => digits_value r 0
  | r => digits_value r 0
  end.

(** ** trainer_maxent (maxent.h) *)

Module maxent.

(** A candidate of a multi-candidate instance. *)
Record candidate_type : Type := mk_candidate {
  c_features : features_type;
  is_true : bool;
  get_label : nat
}.

Record instance_type : Type := mk_instance {
  candidates : list candidate_type;
  get_group : Z
}.

Record trainer : Type := mk_trainer {
  m_oexps : list R;
  m_mexps : list R;
  m_weights : list R;
  m_scores : list R;
  m_holdout : Z;
  m_maxiter : Z;
  m_epsilon : R;
  m_c1 : R;
  m_c2 : R;
  m_data : data_type instance_type;
  m_clk_prev : Z
}.

Definition set_c1 (t : trainer) (c1 : R) : trainer :=
  mk_trainer (m_oexps t) (m_mexps t) (m_weights t) (m_scores t) (m_holdout t)
    (m_maxiter t) (m_epsilon t) c1 (m_c2 t) (m_data t) (m_clk_prev t).

Definition set_c2 (t : trainer) (c2 : R) : trainer :=
  mk_trainer (m_oexps t) (m_mexps t) (m_weights t) (m_scores t) (m_holdout t)
    (m_maxiter t) (m_epsilon t) (m_c1 t) c2 (m_data t) (m_clk_prev t).

Definition set_maxiter (t : trainer) (i : Z) : trainer :=
  mk_trainer (m_oexps t) (m_mexps t) (m_weights t) (m_scores t) (m_holdout t)
    i (m_epsilon t) (m_c1 t) (m_c2 t) (m_data t) (m_clk_prev t).

Definition set_epsilon (t : trainer) (e : R) : trainer :=
  mk_trainer (m_oexps t) (m_mexps t) (m_weights t) (m_scores t) (m_holdout t)
    (m_maxiter t) e (m_c1 t) (m_c2 t) (m_data t) (m_clk_prev t).

Definition set_scratch (t : trainer) (mexps scores : list R) : trainer :=
  mk_trainer (m_oexps t) mexps (m_weights t) scores (m_holdout t)
    (m_maxiter t) (m_epsilon t) (m_c1 t) (m_c2 t) (m_data t) (m_clk_prev t).

(** The constructor [trainer_maxent()]. *)
Definition create : trainer :=
  mk_trainer [] [] [] [] (-1)%Z 1000%Z 1e-5 0 0 (mk_data [] 0%nat 0%nat) 0%Z.

(** [logsumexp(x, y, flag)] *)
Definition logsumexp (x y : R) (flag : bool) : R :=
  if flag then y
  else if decide (x = y) then x + 0.69314718055   (* log(2) *)
  else
    let '(vmin, vmax) := if decide (x < y) then (x, y) else (y, x) in
    if decide (vmin + 50 < vmax) then vmax
    else vmax + ln (exp (vmin - vmax) + 1.0).

(** [parse_param(param, name, value)]: [Some value] when it returns true. *)
Fixpoint parse_param (param name : string) {struct name} : option string :=
  match name with
  | EmptyString => Some param
  | String c name' =>
      match param with
      | String d param' =>
          if Ascii.eqb c d then parse_param param' name' else None
      | EmptyString => None
      end
  end.

(** [set(param)]: the trainer afterwards and the returned value.  [None]
    marks the path on which control reaches the end of the function
    without a return statement: the behaviour is undefined there, and the
    trainer paired with [None] says nothing about the code. *)
Definition set (t : trainer) (param : string) : trainer * option bool :=
  match parse_param param "regularization.l1=" with
  | Some str =>
      let d := IZR (atoi str) in
      (set_c1 t (if decide (d <= 0) then 0 else 1.0 / d), Some true)
  | None =>
  match parse_param param "regularization.l2=" with
  | Some str =>
      let d := IZR (atoi str) in
      (set_c2 t (if decide (d <= 0) then 0 else 1.0 / d), Some true)
  | None =>
  match parse_param param "lbfgs.maxiter=" with
  | Some str =>
      let i := atoi str in
      (set_maxiter t i, Some true)
  | None =>
  match parse_param param "lbfgs.epsilon=" with
  | Some str => (set_epsilon t (IZR (atoi str)), Some true)
  | None => (t, None)
  end end end end.

(** First candidate loop of [lbfgs_evaluate]: [i], [m_scores], [logp] and
    [norm] before and after one candidate. *)
Definition score_candidate (x : list R)
    (st : nat * list R * R * R) (itc : candidate_type)
  : nat * list R * R * R :=
  let '(i, scores, logp, norm) := st in
  let scores := <[i := inner_product x (c_features itc)]> scores in
  let logp := if is_true itc then scores !!! i else logp in
  let norm := logsumexp norm (scores !!! i) (Nat.eqb i 0) in
  (S i, scores, logp, norm).

(** Second candidate loop: [i] and [m_mexps]. *)
Definition expect_candidate (scores : list R) (norm : R)
    (st : nat * list R) (itc : candidate_type) : nat * list R :=
  let '(i, mexps) := st in
  (S i, add_to mexps (c_features itc) (exp ((scores !!! i) - norm))).

(** The body of the instance loop of [lbfgs_evaluate]: the loss,
    [m_mexps] and [m_scores]. *)
Definition evaluate_instance (holdout : Z) (x : list R)
    (acc : R * list R * list R) (iti : instance_type) : R * list R * list R :=
  let '(loss, mexps, scores) := acc in
  (* Exclude instances for holdout evaluation. *)
  if decide (get_group iti = holdout) then (loss, mexps, scores)
  else
    (* Compute score[i] for each candidate #i. *)
    let '(_, scores, logp, norm) :=
      fold_left (score_candidate x) (candidates iti) (0%nat, scores, 0, 0) in
    (* Accumulate the model expectations of attributes. *)
    let '(_, mexps) :=
      fold_left (expect_candidate scores norm) (candidates iti)
                (0%nat, mexps) in
    (* Accumulate the loss for predicting the instance. *)
    (loss - (logp - norm), mexps, scores).

(** [lbfgs_evaluate(x, g, n, step)]: the trainer afterwards ([m_mexps] and
    [m_scores] are written), the returned loss and the final contents of
    [g]. *)
Definition lbfgs_evaluate (t : trainer) (x g : list R) (n : nat)
  : trainer * (R * list R) :=
  (* Initialize the model expectations as zero. *)
  let mexps := fold_left (fun m i => <[i := 0]> m) (seq 0 n) (m_mexps t) in
  (* For each instance in the data. *)
  let '(loss, mexps, scores) :=
    fold_left (evaluate_instance (m_holdout t) x)
              (instances (m_data t)) (0, mexps, m_scores t) in
  (* Compute the gradients. *)
  let g :=
    fold_left (fun g i => <[i := - ((m_oexps t !!! i) - (mexps !!! i))]> g)
              (seq 0 n) g in
  let t' := mk_trainer (m_oexps t) mexps (m_weights t) scores (m_holdout t)
              (m_maxiter t) (m_epsilon t) (m_c1 t) (m_c2 t) (m_data t)
              (m_clk_prev t) in
  (* Apply L2 regularization if necessary. *)
  if decide (m_c2 t <> 0) then
    let '(g, norm) := l2_loop (m_c2 t) x 0 n g in
    (t', (loss + m_c2 t * norm * 0.5, g))
  else (t', (loss, g)).

(** The candidate loop of [holdout_evaluation]: candidates are addressed
    by their position, the end iterator is the number of candidates.
    State: the position [itc], [score_max] and [itc_max]. *)
Definition max_candidate (weights : list R)
    (st : nat * R * nat) (c : candidate_type) : nat * R * nat :=
  let '(itc, score_max, itc_max) := st in
  let score := inner_product weights (c_features c) in
  (* Store the candidate that yields the maximum score. *)
  if decide (score_max < score) then (S itc, score, itc)
  else (S itc, score_max, itc_max).

(** [itc_max] after the candidate loop. *)
Definition find_max (weights : list R) (cands : list candidate_type) : nat :=
  let '(_, _, itc_max) :=
    fold_left (max_candidate weights) cands
              (0%nat, - DBL_MAX, length cands) in
  itc_max.

(** The body of the instance loop of [holdout_evaluation]; [None] when
    [itc_max] is dereferenced while it is the end iterator. *)
Definition holdout_instance (holdout : Z) (weights : list R)
    (acc : option (nat * nat)) (iti : instance_type) : option (nat * nat) :=
  match acc with
  | None => None
  | Some (num_correct, num_total) =>
      if decide (get_group iti <> holdout) then Some (num_correct, num_total)
      else
        match candidates iti !! find_max weights (candidates iti) with
        | None => None
        | Some c =>
            Some (if is_true c then S num_correct else num_correct,
                  S num_total)
        end
  end.

(** [num_correct] and [num_total] after the instance loop. *)
Definition holdout_counts (t : trainer) : option (nat * nat) :=
  fold_left (holdout_instance (m_holdout t) (m_weights t))
            (instances (m_data t)) (Some (0%nat, 0%nat)).

(** [holdout_evaluation()]: the lines written. *)
Definition holdout_evaluation (t : trainer) : option (list log_item) :=
  match holdout_counts t with
  | None => None
  | Some (num_correct, num_total) =>
      (* Report accuracy, precision, recall, and f1 score. *)
      let accuracy :=
        if decide (0 < num_total)%nat
        then INR num_correct / INR num_total else 0 in
      Some [LogAccuracy accuracy num_correct num_total]
  end.

(** [lbfgs_progress(x, g, fx, xnorm, gnorm, step, n, k, ls)] with the
    value [clk] read from [std::clock()]. *)
Definition lbfgs_progress (t : trainer) (clk : Z)
    (x g : list R) (fx xnorm gnorm step : R) (n : nat) (k ls : Z)
  : option (trainer * list log_item * Z) :=
  (* Compute the duration required for this iteration. *)
  let duration := (clk - m_clk_prev t)%Z in
  let t := mk_trainer (m_oexps t) (m_mexps t) (m_weights t) (m_scores t)
             (m_holdout t) (m_maxiter t) (m_epsilon t) (m_c1 t) (m_c2 t)
             (m_data t) clk in
  (* Count the number of active features. *)
  let num_active := count_active x n in
  (* Output the current progress. *)
  let os := [LogIteration k; LogLikelihood (- fx); LogFeatureNorm xnorm;
             LogErrorNorm gnorm; LogActiveFeatures num_active n;
             LogLineSearchTrials ls; LogLineSearchStep step;
             LogSeconds (IZR duration / IZR CLOCKS_PER_SEC)] in
  (* Holdout evaluation if necessary. *)
  let os :=
    if decide (m_holdout t <> (-1)%Z)
    then match holdout_evaluation t with
         | Some l => Some (os ++ l)
         | None => None
         end
    else Some os in
  match os with
  | None => None
  | Some os =>
      (* Output an empty line. *)
      let os := os ++ [LogEndl] in
      (* Check for the maximum number of iterations. *)
      if decide (m_maxiter t < k)%Z then Some (t, os, 1%Z)
      else Some (t, os, 0%Z)
  end.

(** The instance loop of [train] that computes the observation
    expectations and the largest number of candidates [M]. *)
Definition observe_instance (holdout : Z)
    (acc : list R * nat) (iti : instance_type) : list R * nat :=
  let '(oexps, M) := acc in
  (* Skip instances for holdout evaluation. *)
  if decide (get_group iti = holdout) then (oexps, M)
  else
    let oexps :=
      fold_left (fun o itc =>
                   if is_true itc then add_to o (c_features itc) 1.0 else o)
                (candidates iti) oexps in
    (* Store the maximum number of candidates. *)
    let M := if decide (M < length (candidates iti))%nat
             then length (candidates iti) else M in
    (oexps, M).

(** [train(data, os, holdout)] up to the call of the solver.  [m_scores]
    is allocated without initialization in the source; its cells are
    written before they are read, and are zero here. *)
Definition train_setup (t : trainer) (data : data_type instance_type)
    (holdout : Z) (clk : Z) : trainer :=
  let K := num_features data in
  let '(oexps, M) :=
    fold_left (observe_instance holdout) (instances data)
              (replicate K 0, 0%nat) in
  mk_trainer oexps (replicate K 0) (replicate K 0) (replicate M 0)
    holdout (m_maxiter t) (m_epsilon t) (m_c1 t) (m_c2 t) data clk.

End maxent.

(** ** trainer_lbfgs_multi (train/lbfgs/multi.h) *)

Module lbfgs_multi.

(** An attribute instance: attribute vector, gold label, group. *)
Record instance_type : Type := mk_instance {
  attributes : features_type;
  get_label : nat;
  get_group : Z
}.

Record data : Type := mk_data {
  instances : list instance_type;
  num_labels : nat
}.

(** [m_oexps] and [m_data] of the class and [m_holdout] of its base
    [lbfgs_base]. *)
Record trainer : Type := mk_trainer {
  m_oexps : list R;
  m_data : data;
  m_holdout : Z
}.

Section classifier.

(** The classifier [classify::linear_multi_logistic] and the feature
    generator of the data are declared in headers that are not among the
    sources; [loss_and_gradient] is modelled over their operations. *)
Variable classifier_type : Type.
(** [classifier_type cls(x, feature_generator)] *)
Variable cls_create : list R -> classifier_type.
Variable cls_resize : classifier_type -> nat -> classifier_type.
(** [cls.inner_product(i, first, last, label)] *)
Variable cls_inner_product :
  classifier_type -> nat -> features_type -> nat -> classifier_type.
Variable cls_finalize : classifier_type -> classifier_type.
Variable cls_prob : classifier_type -> nat -> R.
(** [feature_generator.add_to(g, first, last, label, scale)] *)
Variable fgen_add_to : list R -> features_type -> nat -> R -> list R.

(** The body of the instance loop of [loss_and_gradient]. *)
Definition evaluate_instance (holdout : Z) (L : nat)
    (acc : R * list R * classifier_type) (inst : instance_type)
  : R * list R * classifier_type :=
  let '(loss, g, cls) := acc in
  (* Exclude instances for holdout evaluation. *)
  if decide (get_group inst = holdout) then (loss, g, cls)
  else
    (* Compute the probability prob[i] for each label #i. *)
    let cls :=
      fold_left (fun cls i => cls_inner_product cls i (attributes inst) i)
                (seq 0 L) cls in
    let cls := cls_finalize cls in
    (* Accumulate the model expectations of features. *)
    let g :=
      fold_left (fun g i => fgen_add_to g (attributes inst) i (cls_prob cls i))
                (seq 0 L) g in
    (* Accumulate the loss for predicting the instance. *)
    (loss - ln (cls_prob cls (get_label inst)), g, cls).

(** [loss_and_gradient(x, g, n)]: the returned loss and the final
    contents of [g]. *)
Definition loss_and_gradient (t : trainer) (x g : list R) (n : nat)
  : R * list R :=
  let L := num_labels (m_data t) in
  let cls := cls_create x in
  (* The number of labels is constant; reserve the work space. *)
  let cls := cls_resize cls L in
  (* Initialize the gradients with (the negative of) observation
     expexcations. *)
  let g := fold_left (fun g i => <[i := - (m_oexps t !!! i)]> g) (seq 0 n) g in
  (* For each instance in the data. *)
  let '(loss, g, _) :=
    fold_left (evaluate_instance (m_holdout t) L)
              (instances (m_data t)) (0, g, cls) in
  (loss, g).

End classifier.

End lbfgs_multi.

(** ** Symbol dictionary (quark) *)

Module quark.

(** Modelled from the spec: the symbol dictionary (the quark classes are
    declared in classias/classias.h, which is not among the sources): a
    mapping from names to identifiers assigned in first-seen order from 0. *)
Abbreviation t := (list string).

(** Modelled from the spec: the identifier of [name], counting from [i]
    at the head of [q]. *)
Fixpoint find_from (q : t) (name : string) (i : nat) : option nat :=
  match q with
  | [] => None
  | s :: q' => if String.eqb s name then Some i else find_from q' name (S i)
  end.

(** Modelled from the spec: [q(name)], intern or fetch. *)
Definition intern (q : t) (name : string) : nat * t :=
  match find_from q name 0 with
  | Some i => (i, q)
  | None => (length q, q ++ [name])
  end.

(** Modelled from the spec: [q.to_item(id)], the backward lookup. *)
Definition to_item (q : t) (id : nat) : option string := q !! id.

End quark.

(** ** Exceptions of the readers *)

(** [invalid_data(message, lines)] *)
Record invalid_data : Type := mk_invalid_data {
  message : string;
  lineno : Z
}.

Inductive result (A : Type) : Type :=
| Return (a : A)
| Throw (e : invalid_data).
Arguments Return {A} _.
Arguments Throw {A} _.

(** A computation over a mutable state [S] that returns or throws; the
    state at the throw is kept, as the objects passed by reference are. *)
Definition M (S A : Type) : Type := S -> result A * S.

Definition ret {S A : Type} (a : A) : M S A := fun s => (Return a, s).

Definition throw {S A : Type} (e : invalid_data) : M S A :=
  fun s => (Throw e, s).

Definition bind {S A B : Type} (c : M S A) (k : A -> M S B) : M S B :=
  fun s =>
    match c s with
    | (Return a, s') => k a s'
    | (Throw e, s') => (Throw e, s')
    end.

Notation "'do' x <- c ; k" := (bind c (fun x => k))
  (at level 10, x name, c at level 100, k at level 200).
Notation "c ;; k" := (bind c (fun _ => k))
  (at level 100, k at level 200, right associativity).

(** [itv->compare(0, 1, c) == 0] for a one-character string [c]. *)
Definition begins_with (s c : string) : bool :=
  String.eqb (substring 0 1 s) c.

(** [itv->empty()] *)
Definition is_empty (s : string) : bool := String.eqb s "".

(** The tab character. *)
Definition TAB : ascii := ascii_of_nat 9.

(** ** frontend/train/multi.cpp *)

Module train_multi.

(** What [read_line] reaches through its reference arguments: the instance
    under construction and the two dictionaries. *)
Record state : Type := mk_state {
  instance : list maxent.candidate_type;
  features : quark.t;
  labels : quark.t
}.

Section reader.

(** [tokenizer] (tokenize.h) and [get_name_value] are not among the
    sources: the fields of a line, and the name and the value of a field. *)
Variable tokenizer : string -> ascii -> list string.
Variable get_name_value : string -> string * R.

(** [labels(label)] *)
Definition intern_label (name : string) : M state nat :=
  fun s =>
    let '(id, q) := quark.intern (labels s) name in
    (Return id, mk_state (instance s) (features s) q).

(** [features(name)] *)
Definition intern_feature (name : string) : M state nat :=
  fun s =>
    let '(id, q) := quark.intern (features s) name in
    (Return id, mk_state (instance s) q (labels s)).

(** [instance.new_element()] followed by the writes through the returned
    reference: the candidate becomes the last element. *)
Definition append_candidate (c : maxent.candidate_type) : M state unit :=
  fun s => (Return tt, mk_state (instance s ++ [c]) (features s) (labels s)).

(** The loop over the fields after the first: the features appended to
    the candidate. *)
Fixpoint read_features (fields : list string) (acc : features_type)
  : M state features_type :=
  match fields with
  | [] => ret acc
  | f :: rest =>
      if negb (is_empty f) then
        let '(name, value) := get_name_value f in
        do id <- intern_feature name;
        read_features rest (acc ++ [(id, value)])
      else read_features rest acc
  end.

(** [read_line(line, instance, features, labels, opt, lines)] *)
Definition read_line (line : string) (lines : Z) : M state unit :=
  (* Split the line with tab characters. *)
  match tokenizer line TAB with
  | [] => throw (mk_invalid_data "no field found in the line" lines)
  | itv :: rest =>
      (* Make sure that the first token (class) is not empty. *)
      if is_empty itv then
        throw (mk_invalid_data "an empty label found" lines)
      else
        (* Set the truth value for this candidate. *)
        do truth <-
          (if begins_with itv "T" then ret true
           else if begins_with itv "F" then ret false
           else throw (mk_invalid_data
                  "a class label must begins with either 'T' or 'F'" lines));
        (* Obtain the label. *)
        let label := itv in
        do lid <- intern_label label;
        (* Set featuress for the instance. *)
        do fs <- read_features rest [];
        append_candidate (maxent.mk_candidate fs truth lid)
  end.

End reader.

End train_multi.

(** ** frontend/train/attribute.cpp *)

Module train_attribute.

(** The instance filled by [read_line]: its label once set and its
    attribute vector. *)
Record instance_type : Type := mk_instance {
  get_label : option nat;
  attributes : features_type
}.

Record state : Type := mk_state {
  instance : instance_type;
  attrs : quark.t;
  labels : quark.t
}.

Section reader.

Variable tokenizer : string -> ascii -> list string.
Variable get_name_value : string -> string * R.

(** [instance.set_label(labels( *itv ))] *)
Definition set_label (name : string) : M state unit :=
  fun s =>
    let '(id, q) := quark.intern (labels s) name in
    (Return tt,
     mk_state (mk_instance (Some id) (attributes (instance s))) (attrs s) q).

(** [instance.attributes.append(attributes(name), value)] *)
Definition append_attribute (name : string) (value : R) : M state unit :=
  fun s =>
    let '(id, q) := quark.intern (attrs s) name in
    (Return tt,
     mk_state (mk_instance (get_label (instance s))
                 (attributes (instance s) ++ [(id, value)])) q (labels s)).

(** The loop over the fields after the first. *)
Fixpoint read_attributes (fields : list string) : M state unit :=
  match fields with
  | [] => ret tt
  | f :: rest =>
      if negb (is_empty f) then
        let '(name, value) := get_name_value f in
        append_attribute name value ;;
        read_attributes rest
      else read_attributes rest
  end.

(** [read_line(line, instance, attributes, labels, opt, lines)] *)
Definition read_line (line : string) (lines : Z) : M state unit :=
  (* Split the line with tab characters. *)
  match tokenizer line TAB with
  | [] => throw (mk_invalid_data "no field found in the line" lines)
  | itv :: rest =>
      (* Make sure that the first token (class) is not empty. *)
      if is_empty itv then
        throw (mk_invalid_data "an empty label found" lines)
      else
        (* Set the instance label. *)
        set_label itv ;;
        (* Set attributes for the instance. *)
        read_attributes rest
  end.

End reader.

End train_attribute.

(** * Definitions used by the statements *)

(** The saturated logistic as the specification words it. *)
Definition saturated_logistic_spec (score : R) : R :=
  if decide (score < -100) then 0
  else if decide (100 < score) then 1
  else 1 / (1 + exp (- score)).

(** One true instance with one feature of value 1, in group 0. *)
Definition c1_instance : logress.instance_type :=
  logress.mk_instance [(0%nat, 1)] true 0%Z 1 "".

(** A trainer over that instance: no holdout group, no regularization. *)
Definition c1_trainer : logress.trainer :=
  logress.mk_trainer [0] (mk_data [c1_instance] 0%nat 1%nat) (-1)%Z ""
    5 0%nat 1000%Z "MoreThuente" 0 0 0%Z.

(** The sum of [x[i]^2] over [start <= i < n]. *)
Definition sum_squares (x : list R) (start n : nat) : R :=
  fold_right (fun i s => (x !!! i) * (x !!! i) + s) 0 (seq start (n - start)).

(** The L2 policy as the specification words it, applied to an
    unregularized loss and gradient: [c2 * x[i]] is added to [gradient[i]]
    for the penalized indices [start <= i < n] and to no other, and
    [0.5 * c2 * (sum of x[i]^2)] over the penalized indices is added to
    the loss. *)
Definition l2_penalty_spec (c2 : R) (start n : nat) (x : list R)
    (r : R * list R) : R * list R :=
  (fst r + 0.5 * c2 * sum_squares x start n,
   imap (fun i gi =>
           if decide (start <= i < n)%nat then gi + c2 * (x !!! i) else gi)
        (snd r)).

(** A candidate that is true and has feature 0 with value 1. *)
Definition c2_candidate : maxent.candidate_type :=
  maxent.mk_candidate [(0%nat, 1)] true 0%nat.

(** A data set of one instance with that candidate, in which feature 0 was
    reserved by [@unregularize]: the user features start at 1. *)
Definition c2_data : data_type maxent.instance_type :=
  mk_data [maxent.mk_instance [c2_candidate] 0%Z] 1%nat 1%nat.

(** The maxent trainer set up on that data, with [c2 = 1]. *)
Definition c2_trainer : maxent.trainer :=
  maxent.train_setup (maxent.set_c2 maxent.create 1) c2_data (-1)%Z 0%Z.

(** A logress trainer with [c2 = 1] and regularization start 1 over no
    instance. *)
Definition c2_logress_trainer : logress.trainer :=
  logress.mk_trainer [0; 0] (mk_data [] 1%nat 2%nat) (-1)%Z "L2"
    1 1%nat 1000%Z "MoreThuente" 0 1 0%Z.






(** The combiner as the specification words it. *)
Definition logsumexp_spec (a b : R) : R :=
  if decide (a = b) then a + ln 2
  else Rmax a b + ln (1 + exp (Rmin a b - Rmax a b)).

(** Fixed-point numbers with 30 decimal digits, squared with rounding
    towards zero. *)
Definition fx_scale : Z := (10 ^ 30)%Z.

Definition fx_square (u : Z) : Z := (u * u / fx_scale)%Z.

Fixpoint fx_square_iter (n : nat) (u : Z) : Z :=
  match n with
  | O => u
  | S n' => fx_square_iter n' (fx_square u)
  end.

(** A lower bound, in fixed point, of 1 - c / 2^40 for
    c = 0.69314718055. *)
Definition fx_start : Z :=
  (fx_scale - fx_scale * 69314718055 / (10 ^ 11 * 2 ^ 40) - 1)%Z.

(** The score of a candidate under the weights. *)
Definition candidate_score (w : list R) (c : maxent.candidate_type) : R :=
  inner_product w (maxent.c_features c).

(** Position [k] holds the first candidate of maximal score. *)
Definition first_argmax (w : list R) (cands : list maxent.candidate_type)
    (k : nat) : Prop :=
  exists c,
    cands !! k = Some c
    /\ (forall c', c' ∈ cands -> candidate_score w c' <= candidate_score w c)
    /\ (forall j c', (j < k)%nat -> cands !! j = Some c' ->
                     candidate_score w c' < candidate_score w c).

(** A holdout instance with one candidate, whose only feature has the
    value [-DBL_MAX]. *)
Definition c10_instance : maxent.instance_type :=
  maxent.mk_instance [maxent.mk_candidate [(0%nat, - DBL_MAX)] true 0%nat] 1%Z.

(** A trainer with weight 1 for that feature and holdout group 1. *)
Definition c10_trainer : maxent.trainer :=
  maxent.mk_trainer [0] [0] [1] [0] 1%Z 1000%Z 1e-5 0 0
    (mk_data [c10_instance] 0%nat 1%nat) 0%Z.

(** Two candidates of equal score 0, the second one true. *)
Definition c10_tie : list maxent.candidate_type :=
  [maxent.mk_candidate [] false 0%nat; maxent.mk_candidate [] true 1%nat].

(** The number of instances of the group [holdout]. *)
Definition count_group {I : Type} (get_group : I -> Z) (holdout : Z)
    (l : list I) : nat :=
  length (filter (fun iti => get_group iti = holdout) l).

(** Every instance of the holdout group has a candidate that scores above
    [-DBL_MAX]. *)
Definition holdout_scores_valid (t : maxent.trainer) : Prop :=
  forall iti, iti ∈ instances (maxent.m_data t) ->
    maxent.get_group iti = maxent.m_holdout t ->
    exists c, c ∈ maxent.candidates iti
              /\ - DBL_MAX < candidate_score (maxent.m_weights t) c.

(** A binary data set: two training instances (group 0) around one
    holdout instance (group 1). *)
Definition c5_train1 : logress.instance_type :=
  logress.mk_instance [(0%nat, 1)] true 0%Z 1 "a".

Definition c5_held : logress.instance_type :=
  logress.mk_instance [(0%nat, 1); (1%nat, 1)] false 1%Z 1 "b".

Definition c5_train2 : logress.instance_type :=
  logress.mk_instance [(1%nat, 1)] false 0%Z 1 "c".

Definition c5_logress_trainer : logress.trainer :=
  logress.mk_trainer [0; 0] (mk_data [c5_train1; c5_held; c5_train2] 0%nat 2%nat)
    1%Z "" 5 0%nat 1000%Z "MoreThuente" 0 0 0%Z.

(** A multi-candidate holdout instance (group 1) with two candidates. *)
Definition c5_maxent_held : maxent.instance_type :=
  maxent.mk_instance
    [maxent.mk_candidate [(0%nat, 1)] true 0%nat;
     maxent.mk_candidate [(1%nat, 1)] false 1%nat] 1%Z.

Definition c5_maxent_trainer : maxent.trainer :=
  maxent.mk_trainer [0; 0] [0; 0] [0; 0] [0; 0] 1%Z 1000%Z 1e-5 0 0
    (mk_data [c5_maxent_held] 0%nat 2%nat) 0%Z.

(** An attribute data set for [trainer_lbfgs_multi]: two labels, one
    training instance. *)
Definition c9_multi_trainer : lbfgs_multi.trainer :=
  lbfgs_multi.mk_trainer [1; 0]
    (lbfgs_multi.mk_data [lbfgs_multi.mk_instance [(0%nat, 1)] 0%nat 0%Z] 2%nat)
    (-1)%Z.

(** [m_scores] of length [L] has room for the candidates of every
    instance outside the holdout group. *)
Definition scores_capacity (holdout : Z) (l : list maxent.instance_type)
    (L : nat) : Prop :=
  forall iti, iti ∈ l -> maxent.get_group iti <> holdout ->
    (length (maxent.candidates iti) <= L)%nat.

(** The stop signal as the specification words it: non-zero when the
    iteration count [k] exceeds the maximum, zero otherwise. *)
Definition stop_signal_spec (maxiter k r : Z) : Prop :=
  ((maxiter < k)%Z -> r <> 0%Z) /\ (~ (maxiter < k)%Z -> r = 0%Z).

(** A logress trainer limited to 5 iterations, without holdout group. *)
Definition c7_logress_trainer : logress.trainer :=
  logress.mk_trainer [0] (mk_data [] 0%nat 1%nat) (-1)%Z "L2"
    5 0%nat 5%Z "MoreThuente" 0 (1 / 25) 0%Z.

(** A maxent trainer limited to 5 iterations, without holdout group. *)
Definition c7_maxent_trainer : maxent.trainer :=
  maxent.set_maxiter maxent.create 5%Z.

(** A binary trainer with weights [1; 0] whose only holdout instance
    (group 1) is positive and has feature 0. *)
Definition c6_logress_trainer : logress.trainer :=
  logress.mk_trainer [1; 0]
    (mk_data [logress.mk_instance [(0%nat, 1)] true 1%Z 1 "x"] 0%nat 2%nat)
    1%Z "" 5 0%nat 1000%Z "MoreThuente" 0 0 0%Z.

Definition is_throw {A : Type} (r : result A) : Prop :=
  match r with
  | Throw _ => True
  | Return _ => False
  end.

(** The class token begins neither with 'T' nor with 'F'. *)
Definition bad_class (itv : string) : Prop :=
  begins_with itv "T" = false /\ begins_with itv "F" = false.

(** The names and values of the non-empty fields, in input order. *)
Definition parsed_fields (get_name_value : string -> string * R)
    (fields : list string) : list (option string * R) :=
  map (fun f => (Some (fst (get_name_value f)), snd (get_name_value f)))
      (List.filter (fun f => negb (is_empty f)) fields).

(** A feature vector read back through the dictionary. *)
Definition decode (q : quark.t) (fs : features_type)
  : list (option string * R) :=
  map (fun kv => (quark.to_item q (fst kv), snd kv)) fs.

(** A tokenizer for the examples: the fields between the separators. *)
Fixpoint split_fields (s : string) (sep : ascii) (cur : string)
  : list string :=
  match s with
  | EmptyString => [cur]
  | String c r =>
      if Ascii.eqb c sep then cur :: split_fields r sep ""
      else split_fields r sep (cur ++ String c "")
  end.

Definition example_tokenizer (line : string) (sep : ascii) : list string :=
  match line with
  | EmptyString => []
  | _ => split_fields line sep ""
  end.

(** A field reader for the examples: the whole field is the name, the
    value is 1. *)
Definition example_name_value (f : string) : string * R := (f, 1).

(** Modelled from the spec: "aborting the load with no partial instance
    appended from that line": the instances of the data after the
    exception are the instances before the line. *)
Definition no_instance_appended {I : Type} (before after : list I) : Prop :=
  after = before.

(** Every instance outside the holdout group has a candidate flagged
    true. *)
Definition has_true_candidates (holdout : Z)
    (l : list maxent.instance_type) : Prop :=
  forall iti, iti ∈ l -> maxent.get_group iti <> holdout ->
    exists c, c ∈ maxent.candidates iti /\ maxent.is_true c = true.

(** Feature [i] occurs in no instance outside the holdout group. *)
Definition feature_unused (holdout : Z) (l : list logress.instance_type)
    (i : nat) : Prop :=
  forall iti v, iti ∈ l -> logress.get_group iti <> holdout ->
    (i, v) ∉ logress.features iti.

(** Every feature identifier of every instance outside the holdout group
    is below [n], the number of cells of the weight and gradient arrays:
    the accesses [m_model[key]] and [g[k]] of the evaluator stay within
    the arrays. *)
Definition features_in_range (holdout : Z) (l : list logress.instance_type)
    (n : nat) : Prop :=
  Forall (fun iti =>
            logress.get_group iti <> holdout ->
            Forall (fun kv : nat * R => (fst kv < n)%nat)
              (logress.features iti)) l.

(** The constant [c2] that [train] computes is a number: when L2
    regularization is selected, the divisor [sigma * sigma] of
    [1.0 / (sigma * sigma)] is not zero. *)
Definition l2_constant_defined (t : logress.trainer) : Prop :=
  (String.eqb (logress.m_regularization t) "L2"
   || String.eqb (logress.m_regularization t) "l2")%bool = true ->
  logress.m_regularization_sigma t * logress.m_regularization_sigma t <> 0.

(** The instance is in the holdout group and its reference label differs
    from the label of the model, which is positive only for a score above
    0. *)
Definition misclassified (holdout : Z) (weights : list R)
    (iti : logress.instance_type) : bool :=
  bool_decide (logress.get_group iti = holdout)
  && (if decide (inner_product weights (logress.features iti) <= 0)
      then logress.get_truth iti
      else negb (logress.get_truth iti)).

(** The two lines written for a misclassified instance: its comment, then
    the label of the model and the score. *)
Definition false_line (weights : list R) (iti : logress.instance_type)
  : log_item :=
  let z := inner_product weights (logress.features iti) in
  LogFalse (logress.get_comment iti)
    (if decide (z <= 0) then 0%nat else 1%nat) z.

(** ** frontend/multi.cpp *)

Module frontend_multi.

Section reader.

(** [tokenizer] (tokenize.h) and [get_name_value] are not among the
    sources.  In this file the tokenizer is advanced with [next()]; the
    fields it yields are the list. *)
Variable tokenizer : string -> ascii -> list string.
Variable get_name_value : string -> string * R.

(** [std::string(str, pos)]: the characters of [str] from position [pos]
    on. *)
Definition from_pos (str : string) (pos : nat) : string :=
  substring pos (String.length str - pos) str.

(** [( *field)[0] != '-'] *)
Definition not_minus (field : string) : bool :=
  match field with
  | String c _ => negb (Ascii.eqb c "-")
  | EmptyString => true
  end.

(** The label of a non-empty first field: what follows its first space
    and, when that is empty or there is no space, the field itself. *)
Definition label_of (field : string) : string :=
  (* Extract the label in the first token if any. *)
  let label :=
    match index 0 " " field with
    | Some pos => from_pos field (pos + 1)
    | None => ""%string
    end in
  (* Set the label. *)
  if is_empty label then field else label.

(** [read_line(line, instance, features, labels, opt, lines)]; the loop
    over the remaining fields is the one of frontend/train/multi.cpp. *)
Definition read_line (line : string) (lines : Z) : M train_multi.state unit :=
  (* Split the line with tab characters. *)
  match tokenizer line TAB with
  | [] => throw (mk_invalid_data "no field found in the line" lines)
  | field :: rest =>
      (* Make sure that the first token (class) is not empty. *)
      if is_empty field then
        throw (mk_invalid_data "an empty label found" lines)
      else
        let label := label_of field in
        (* Set the binary class. *)
        let truth := not_minus field in
        (* Create a new candidate. *)
        do lid <- train_multi.intern_label label;
        (* Set featuress for the instance. *)
        do fs <- train_multi.read_features get_name_value rest [];
        train_multi.append_candidate (maxent.mk_candidate fs truth lid)
  end.

End reader.

End frontend_multi.

(** ** frontend/multi_select.cpp *)

Module multi_select.

(** The instance filled by [read_line]: gold label, candidate labels,
    attribute vector and group. *)
Record instance_type : Type := mk_instance {
  label : nat;
  candidates : list nat;
  attributes : features_type;
  get_group : Z
}.

Record state : Type := mk_state {
  instance : instance_type;
  attrs : quark.t;
  labels : quark.t
}.

Section reader.

Variable tokenizer : string -> ascii -> list string.
Variable get_name_value : string -> string * R.

(** [labels( *label )] *)
Definition intern_label (name : string) : M state nat :=
  fun s =>
    let '(id, q) := quark.intern (labels s) name in
    (Return id, mk_state (instance s) (attrs s) q).

(** [instance.label = lid] *)
Definition set_label (lid : nat) : M state unit :=
  fun s =>
    (Return tt,
     mk_state (mk_instance lid (candidates (instance s))
                 (attributes (instance s)) (get_group (instance s)))
              (attrs s) (labels s)).

(** [instance.candidates.append(lid)] *)
Definition append_candidate (lid : nat) : M state unit :=
  fun s =>
    (Return tt,
     mk_state (mk_instance (label (instance s))
                 (candidates (instance s) ++ [lid])
                 (attributes (instance s)) (get_group (instance s)))
              (attrs s) (labels s)).

(** [instance.label] *)
Definition get_label : M state nat :=
  fun s => (Return (label (instance s)), s).

(** [instance.attributes.append(attrs(name), value)] *)
Definition append_attribute (name : string) (value : R) : M state unit :=
  fun s =>
    let '(id, q) := quark.intern (attrs s) name in
    (Return tt,
     mk_state (mk_instance (label (instance s)) (candidates (instance s))
                 (attributes (instance s) ++ [(id, value)])
                 (get_group (instance s)))
              q (labels s)).

(** Loop for other candidate labels. *)
Fixpoint read_labels (tokens : list string) : M state unit :=
  match tokens with
  | [] => ret tt
  | l :: rest =>
      if negb (is_empty l) then
        do lid <- intern_label l;
        do gold <- get_label;
        (if negb (Nat.eqb lid gold) then append_candidate lid else ret tt) ;;
        read_labels rest
      else read_labels rest
  end.

(** Loop over attributes. *)
Fixpoint read_attributes (fields : list string) : M state unit :=
  match fields with
  | [] => ret tt
  | f :: rest =>
      if negb (is_empty f) then
        let '(name, value) := get_name_value f in
        append_attribute name value ;;
        read_attributes rest
      else read_attributes rest
  end.

(** [read_line(line, instance, attrs, labels, lines)] *)
Definition read_line (line : string) (lines : Z) : M state unit :=
  (* Split the line with tab characters. *)
  match tokenizer line TAB with
  | [] => throw (mk_invalid_data "no field in the line" lines)
  | field :: rest =>
      (* Make sure that the first token (label) is not empty. *)
      if is_empty field then
        throw (mk_invalid_data "an empty label found" lines)
      else
        (* Set the correct label of the instance. *)
        match tokenizer field " "%char with
        | [] => throw (mk_invalid_data "an empty label found" lines)
        | l :: others =>
            do lid <- intern_label l;
            set_label lid ;;
            append_candidate lid ;;
            (* Loop for other candidate labels. *)
            read_labels others ;;
            (* Loop over attributes. *)
            read_attributes rest
        end
  end.

End reader.

End multi_select.

(** ** Reading a stream line by line *)

(** The newline character. *)
Definition NL : ascii := ascii_of_nat 10.

(** [line.compare(0, n, c) == 0]: the first [n] characters of the line
    (fewer when the line is shorter) are the string [c]. *)
Definition compare0 (line : string) (n : nat) (c : string) : bool :=
  String.eqb (substring 0 n line) c.

(** The text of a [std::istream] as the loop
    [for (;;) { std::getline(is, line); if (is.eof()) break; ... }] sees
    it: the lines ended by a newline, which [std::getline] delivers with
    the end-of-file bit clear, and the text after the last newline, at
    which [std::getline] sets the bit. *)
Fixpoint getlines (input : string) : list string * string :=
  match input with
  | EmptyString => ([], EmptyString)
  | String c rest =>
      let '(ls, last) := getlines rest in
      if Ascii.eqb c NL then (EmptyString :: ls, last)
      else match ls with
           | [] => ([], String c last)
           | l :: ls' => (String c l :: ls', last)
           end
  end.

(** The text holds no newline. *)
Fixpoint no_newline (s : string) : Prop :=
  match s with
  | EmptyString => True
  | String c r => Ascii.eqb c NL = false /\ no_newline r
  end.

(** How a reader ends: it returns, it throws [invalid_data] with the data
    as they are at the throw, or it runs into undefined behaviour. *)
Inductive outcome (S : Type) : Type :=
| Done (s : S)
| Raised (e : invalid_data) (s : S)
| Undefined.
Arguments Done {S} _.
Arguments Raised {S} _ _.
Arguments Undefined {S}.

Definition run {S : Type} (c : M S unit) (s : S) : outcome S :=
  match c s with
  | (Return _, s') => Done s'
  | (Throw e, s') => Raised e s'
  end.

Section line_loop.

Context {S : Type}.

(** What a [read_stream] does with a line that is neither empty nor a
    comment. *)
Variable body : string -> Z -> S -> outcome S.

(** The loop of the [read_stream] functions over the lines read, [lines]
    being the counter before the line is read. *)
Fixpoint read_lines (ls : list string) (lines : Z) (s : S) : outcome S :=
  match ls with
  | [] => Done s
  | line :: ls' =>
      let lines := (lines + 1)%Z in
      (* Skip an empty line. *)
      if is_empty line then read_lines ls' lines s
      (* Skip a comment line. *)
      else if compare0 line 1 "#" then read_lines ls' lines s
      else
        match body line lines s with
        | Done s' => read_lines ls' lines s'
        | o => o
        end
  end.

End line_loop.

(** A line that [read_stream] hands on: neither empty nor a comment. *)
Definition data_line (line : string) : bool :=
  negb (is_empty line) && negb (compare0 line 1 "#").

Module train_attribute_data.

(** The data set filled by [read_stream]: the instances and the two
    dictionaries [data.features] and [data.labels]. *)
Record data : Type := mk_data {
  instances : list train_attribute.instance_type;
  features : quark.t;
  labels : quark.t
}.

(** The element that [data.new_element()] appends: no label set, no
    attribute. *)
Definition new_instance : train_attribute.instance_type :=
  train_attribute.mk_instance None [].

Section reader.

Variable tokenizer : string -> ascii -> list string.
Variable get_name_value : string -> string * R.

(** [read_line(line, data.new_element(), data.features, data.labels, opt,
    lines)]: the new element is at the back of the data whether
    [read_line] returns or throws. *)
Definition read_new_line (line : string) (lines : Z) : M data unit :=
  fun d =>
    let '(r, s) :=
      train_attribute.read_line tokenizer get_name_value line lines
        (train_attribute.mk_state new_instance (features d) (labels d)) in
    (r, mk_data (instances d ++ [train_attribute.instance s])
          (train_attribute.attrs s) (train_attribute.labels s)).

(** [read_stream(is, data, opt, group)]; [group] is not used. *)
Definition read_stream (input : string) (group : Z) (d : data) : outcome data :=
  read_lines (fun line lines => run (read_new_line line lines))
    (fst (getlines input)) 0 d.

End reader.

End train_attribute_data.

(** The first field of the line is there and is not empty. *)
Definition has_label (tokenizer : string -> ascii -> list string)
    (line : string) : bool :=
  match tokenizer line TAB with
  | itv :: _ => negb (is_empty itv)
  | [] => false
  end.

(** The instance holds what the line says: its label is the first field
    and its attributes are the (name, value) pairs of the other non-empty
    fields in order, read back through the dictionaries. *)
Definition attribute_reads_as (tokenizer : string -> ascii -> list string)
    (get_name_value : string -> string * R) (attrs labels : quark.t)
    (line : string) (inst : train_attribute.instance_type) : Prop :=
  exists itv rest lid,
    tokenizer line TAB = itv :: rest
    /\ train_attribute.get_label inst = Some lid
    /\ quark.to_item labels lid = Some itv
    /\ decode attrs (train_attribute.attributes inst)
       = parsed_fields get_name_value rest.
(** The dictionaries of the attribute data only grow. *)
Definition attribute_data_grows (d d' : train_attribute_data.data) : Prop :=
  train_attribute_data.features d `prefix_of` train_attribute_data.features d'
  /\ train_attribute_data.labels d
     `prefix_of` train_attribute_data.labels d'.

Module multi_select_data.

(** The data set filled by [read_stream]: the instances and the two
    dictionaries [data.attributes] and [data.labels]. *)
Record data : Type := mk_data {
  instances : list multi_select.instance_type;
  attributes : quark.t;
  labels : quark.t
}.

Section reader.

Variable tokenizer : string -> ascii -> list string.
Variable get_name_value : string -> string * R.

(** The label of the element that [data.new_element()] appends (the
    constructor of the instance is not among the sources). *)
Variable default_label : nat.

(** [instance_type& inst = data.new_element(); inst.set_group(group);
    read_line(line, inst, data.attributes, data.labels, lines)]: the new
    element is at the back of the data whether [read_line] returns or
    throws. *)
Definition read_new_line (group : Z) (line : string) (lines : Z)
  : M data unit :=
  fun d =>
    let inst := multi_select.mk_instance default_label [] [] group in
    let '(r, s) :=
      multi_select.read_line tokenizer get_name_value line lines
        (multi_select.mk_state inst (attributes d) (labels d)) in
    (r, mk_data (instances d ++ [multi_select.instance s])
          (multi_select.attrs s) (multi_select.labels s)).

(** [read_stream(is, data, group)] *)
Definition read_stream (input : string) (group : Z) (d : data)
  : outcome data :=
  read_lines (fun line lines => run (read_new_line group line lines))
    (fst (getlines input)) 0 d.

End reader.

End multi_select_data.

(** The first field of the line is there, is not empty and yields a
    label. *)
Definition has_gold_label (tokenizer : string -> ascii -> list string)
    (line : string) : bool :=
  match tokenizer line TAB with
  | field :: _ =>
      negb (is_empty field)
      && match tokenizer field " "%char with
         | [] => false
         | _ :: _ => true
         end
  | [] => false
  end.

(** The instance holds what the line says: the gold label is the first
    label of the first field and the first candidate, no other candidate
    is the gold label, the attributes are the (name, value) pairs of the
    other non-empty fields in order, and the group is [group]. *)
Definition select_reads_as (tokenizer : string -> ascii -> list string)
    (get_name_value : string -> string * R) (attrs labels : quark.t)
    (group : Z) (line : string) (inst : multi_select.instance_type) : Prop :=
  exists field rest l others extra,
    tokenizer line TAB = field :: rest
    /\ tokenizer field " "%char = l :: others
    /\ quark.to_item labels (multi_select.label inst) = Some l
    /\ multi_select.candidates inst = multi_select.label inst :: extra
    /\ (multi_select.label inst ∉ extra)
    /\ decode attrs (multi_select.attributes inst)
       = parsed_fields get_name_value rest
    /\ multi_select.get_group inst = group.

(** The dictionaries of the data only grow. *)
Definition select_data_grows (d d' : multi_select_data.data) : Prop :=
  multi_select_data.attributes d `prefix_of` multi_select_data.attributes d'
  /\ multi_select_data.labels d `prefix_of` multi_select_data.labels d'.

Module train_multi_data.

(** The data set filled by [read_stream]: the instances, the two
    dictionaries [data.features] and [data.labels], the start index of
    the user features and the positive labels. *)
Record data : Type := mk_data {
  instances : list maxent.instance_type;
  features : quark.t;
  labels : quark.t;
  user_feature_start : nat;
  positive_labels : list nat
}.

(** ["@unregularize\t"] *)
Definition UNREGULARIZE : string := "@unregularize" ++ String TAB "".

Section reader.

Variable tokenizer : string -> ascii -> list string.
Variable get_name_value : string -> string * R.

(** [opt.generate_bias] *)
Variable generate_bias : bool.

(** [for (++itv; itv != values.end(); ++itv) data.features( *itv )] *)
Definition reserve_features (names : list string) (q : quark.t) : quark.t :=
  fold_left (fun q name => snd (quark.intern q name)) names q.

(** [read_line(line, data.back(), data.features, data.labels, opt, lines)]:
    the candidates are appended to the last instance of the data;
    [data.back()] of an empty vector is undefined. *)
Definition read_back_line (line : string) (lines : Z) (d : data)
  : outcome data :=
  match last (instances d) with
  | None => Undefined
  | Some inst =>
      let '(r, s) :=
        train_multi.read_line tokenizer get_name_value line lines
          (train_multi.mk_state (maxent.candidates inst) (features d)
             (labels d)) in
      let d' :=
        mk_data
          (<[Nat.pred (length (instances d)) :=
               maxent.mk_instance (train_multi.instance s)
                 (maxent.get_group inst)]> (instances d))
          (train_multi.features s) (train_multi.labels s)
          (user_feature_start d) (positive_labels d) in
      match r with
      | Return _ => Done d'
      | Throw e => Raised e d'
      end
  end.

(** The body of the loop of [read_stream] for a line that is neither empty
    nor a comment. *)
Definition read_stream_body (group : Z) (line : string) (lines : Z)
    (d : data) : outcome data :=
  (* Read features that should not be regularized. *)
  if compare0 line 14 UNREGULARIZE then
    if (0 <? length (features d))%nat then
      Raised (mk_invalid_data
                "Declarative @unregularize must precede an instance" lines) d
    else
      (* Feature names separated by TAB characters. *)
      match tokenizer line TAB with
      | [] => Undefined
      | _ :: names =>
          (* Reserve early feature identifiers. *)
          let q := reserve_features names (features d) in
          (* Set the start index of the user features. *)
          Done (mk_data (instances d) q (labels d) (length q)
                  (positive_labels d))
      end
  else if compare0 line 4 "@boi" then
    (* Start of a new instance. *)
    Done (mk_data (instances d ++ [maxent.mk_instance [] group])
            (features d) (labels d) (user_feature_start d)
            (positive_labels d))
  else if compare0 line 4 "@eoi" then Done d
  else if compare0 line 9 "@negative" then Done d
  else
    (* A new candidate. *)
    read_back_line line lines d.

(** The bias loop over the candidates of an instance:
    [itc->append(data.features("@bias@" + data.labels.to_item(
    itc->get_label())), 1.0)]; a label that the dictionary does not hold
    has no name. *)
Fixpoint bias_candidates (labels : quark.t)
    (cs : list maxent.candidate_type) (q : quark.t)
  : option (list maxent.candidate_type * quark.t) :=
  match cs with
  | [] => Some ([], q)
  | c :: cs' =>
      match quark.to_item labels (maxent.get_label c) with
      | None => None
      | Some l =>
          let '(id, q1) := quark.intern q ("@bias@" ++ l) in
          match bias_candidates labels cs' q1 with
          | Some (cs'', q2) =>
              Some (maxent.mk_candidate (maxent.c_features c ++ [(id, 1)])
                      (maxent.is_true c) (maxent.get_label c) :: cs'', q2)
          | None => None
          end
      end
  end.

(** The bias loop over the instances of the data. *)
Fixpoint bias_instances (labels : quark.t)
    (insts : list maxent.instance_type) (q : quark.t)
  : option (list maxent.instance_type * quark.t) :=
  match insts with
  | [] => Some ([], q)
  | inst :: insts' =>
      match bias_candidates labels (maxent.candidates inst) q with
      | None => None
      | Some (cs, q1) =>
          match bias_instances labels insts' q1 with
          | Some (insts'', q2) =>
              Some (maxent.mk_instance cs (maxent.get_group inst) :: insts'',
                    q2)
          | None => None
          end
      end
  end.

(** [read_stream(is, data, opt, group)] *)
Definition read_stream (input : string) (group : Z) (d : data)
  : outcome data :=
  match read_lines (read_stream_body group) (fst (getlines input)) 0 d with
  | Done d1 =>
      (* data.append_positive_label(data.labels("TP")) *)
      let '(tp, ls) := quark.intern (labels d1) "TP" in
      let d2 :=
        mk_data (instances d1) (features d1) ls (user_feature_start d1)
          (positive_labels d1 ++ [tp]) in
      (* Generate a bias feature if necessary. *)
      if generate_bias then
        match bias_instances ls (instances d2) (features d2) with
        | Some (insts, q) =>
            Done (mk_data insts q ls (user_feature_start d2)
                    (positive_labels d2))
        | None => Undefined
        end
      else Done d2
  | o => o
  end.

End reader.

End train_multi_data.

(** What [read_stream] of frontend/train/multi.cpp takes a line for. *)
Inductive directive : Type :=
| Unregularize
| Boi
| Ignored
| Candidate.

Definition directive_of (line : string) : directive :=
  if negb (data_line line) then Ignored
  else if compare0 line 14 train_multi_data.UNREGULARIZE then Unregularize
  else if compare0 line 4 "@boi" then Boi
  else if compare0 line 4 "@eoi" then Ignored
  else if compare0 line 9 "@negative" then Ignored
  else Candidate.

(** The candidate lines before the first line that opens an instance, and
    the candidate lines that follow each line that opens one, [kind]
    telling what a line is taken for. *)
Fixpoint split_instances (kind : string -> directive) (ls : list string)
  : list string * list (list string) :=
  match ls with
  | [] => ([], [])
  | l :: ls' =>
      let '(head, blocks) := split_instances kind ls' in
      match kind l with
      | Boi => ([], head :: blocks)
      | Candidate => (l :: head, blocks)
      | _ => (head, blocks)
      end
  end.

(** The first field of a candidate line is there, is not empty and begins
    with 'T' or 'F'. *)
Definition has_class (tokenizer : string -> ascii -> list string)
    (line : string) : bool :=
  match tokenizer line TAB with
  | itv :: _ =>
      negb (is_empty itv) && (begins_with itv "T" || begins_with itv "F")
  | [] => false
  end.

(** The candidate holds what the line says. *)
Definition candidate_reads_as (tokenizer : string -> ascii -> list string)
    (get_name_value : string -> string * R) (features labels : quark.t)
    (line : string) (c : maxent.candidate_type) : Prop :=
  exists itv rest,
    tokenizer line TAB = itv :: rest
    /\ maxent.is_true c = begins_with itv "T"
    /\ quark.to_item labels (maxent.get_label c) = Some itv
    /\ decode features (maxent.c_features c)
       = parsed_fields get_name_value rest.

(** The candidates [cs] appended to the last instance. *)
Definition extend_back (insts : list maxent.instance_type)
    (cs : list maxent.candidate_type) : list maxent.instance_type :=
  match last insts with
  | Some inst =>
      <[Nat.pred (length insts) :=
          maxent.mk_instance (maxent.candidates inst ++ cs)
            (maxent.get_group inst)]> insts
  | None => insts
  end.

(** The instance has the group of the call and holds the candidates of
    the lines of its block, in order. *)
Definition instance_reads_as (tokenizer : string -> ascii -> list string)
    (get_name_value : string -> string * R) (features labels : quark.t)
    (group : Z) (block : list string) (inst : maxent.instance_type) : Prop :=
  maxent.get_group inst = group
  /\ Forall2 (candidate_reads_as tokenizer get_name_value features labels)
       block (maxent.candidates inst).

(** What reading lines keeps of the data: the dictionaries only grow,
    the start index of the user features and the positive labels stay. *)
Definition multi_data_grows (d d' : train_multi_data.data) : Prop :=
  train_multi_data.features d `prefix_of` train_multi_data.features d'
  /\ train_multi_data.labels d `prefix_of` train_multi_data.labels d'
  /\ train_multi_data.user_feature_start d'
     = train_multi_data.user_feature_start d
  /\ train_multi_data.positive_labels d'
     = train_multi_data.positive_labels d.

(** The candidate with a bias feature: one more feature at the end, of
    value 1 and named after the label of the candidate. *)
Definition biased (features labels : quark.t)
    (c c' : maxent.candidate_type) : Prop :=
  exists id l,
    maxent.c_features c' = maxent.c_features c ++ [(id, 1)]
    /\ maxent.is_true c' = maxent.is_true c
    /\ maxent.get_label c' = maxent.get_label c
    /\ quark.to_item labels (maxent.get_label c) = Some l
    /\ quark.to_item features id = Some ("@bias@" ++ l)%string.

Module frontend_multi_data.

(** The data set filled by [read_stream]: the instances, the two
    dictionaries [data.features] and [data.labels] and the end index of
    the user features. *)
Record data : Type := mk_data {
  instances : list maxent.instance_type;
  features : quark.t;
  labels : quark.t;
  user_feature_end : nat
}.

Section reader.

Variable tokenizer : string -> ascii -> list string.
Variable get_name_value : string -> string * R.

(** [opt.generate_bias] *)
Variable generate_bias : bool.

(** The group of the element that [data.new_element()] appends (the
    constructor of the instance is not among the sources). *)
Variable default_group : Z.

(** [read_line(line, data.back(), data.features, data.labels, opt, lines)]:
    the candidates are appended to the last instance of the data;
    [data.back()] of an empty vector is undefined. *)
Definition read_back_line (line : string) (lines : Z) (d : data)
  : outcome data :=
  match last (instances d) with
  | None => Undefined
  | Some inst =>
      let '(r, s) :=
        frontend_multi.read_line tokenizer get_name_value line lines
          (train_multi.mk_state (maxent.candidates inst) (features d)
             (labels d)) in
      let d' :=
        mk_data
          (<[Nat.pred (length (instances d)) :=
               maxent.mk_instance (train_multi.instance s)
                 (maxent.get_group inst)]> (instances d))
          (train_multi.features s) (train_multi.labels s)
          (user_feature_end d) in
      match r with
      | Return _ => Done d'
      | Throw e => Raised e d'
      end
  end.

(** The body of the loop of [read_stream] for a line that is neither empty
    nor a comment. *)
Definition read_stream_body (line : string) (lines : Z) (d : data)
  : outcome data :=
  if compare0 line 4 "@BOI" then
    (* Start of a new instance. *)
    Done (mk_data (instances d ++ [maxent.mk_instance [] default_group])
            (features d) (labels d) (user_feature_end d))
  else if compare0 line 4 "@EOI" then
    (* End of a new instance. *)
    Done d
  else
    (* A new candidate. *)
    read_back_line line lines d.

(** [read_stream(is, data, opt, group)]; [group] is not used. *)
Definition read_stream (input : string) (group : Z) (d : data)
  : outcome data :=
  match read_lines read_stream_body (fst (getlines input)) 0 d with
  | Done d1 =>
      (* Set the end index of the user features. *)
      let d2 :=
        mk_data (instances d1) (features d1) (labels d1)
          (length (features d1)) in
      (* Generate a bias feature if necessary. *)
      if generate_bias then
        match train_multi_data.bias_instances (labels d2) (instances d2)
                (features d2) with
        | Some (insts, q) =>
            Done (mk_data insts q (labels d2) (user_feature_end d2))
        | None => Undefined
        end
      else Done d2
  | o => o
  end.

End reader.

End frontend_multi_data.

(** What [read_stream] of frontend/multi.cpp takes a line for. *)
Definition frontend_directive_of (line : string) : directive :=
  if negb (data_line line) then Ignored
  else if compare0 line 4 "@BOI" then Boi
  else if compare0 line 4 "@EOI" then Ignored
  else Candidate.

(** The candidate holds what the line says, in the dialect of
    frontend/multi.cpp: it is false when the first field begins with '-',
    and its label is what follows the first space of that field, or the
    field. *)
Definition frontend_candidate_reads_as
    (tokenizer : string -> ascii -> list string)
    (get_name_value : string -> string * R) (features labels : quark.t)
    (line : string) (c : maxent.candidate_type) : Prop :=
  exists field rest,
    tokenizer line TAB = field :: rest
    /\ maxent.is_true c = frontend_multi.not_minus field
    /\ quark.to_item labels (maxent.get_label c)
       = Some (frontend_multi.label_of field)
    /\ decode features (maxent.c_features c)
       = parsed_fields get_name_value rest.

(** What reading lines keeps of the data: the dictionaries only grow and
    the end index of the user features stays. *)
Definition frontend_data_grows (d d' : frontend_multi_data.data) : Prop :=
  frontend_multi_data.features d `prefix_of` frontend_multi_data.features d'
  /\ frontend_multi_data.labels d `prefix_of` frontend_multi_data.labels d'
  /\ frontend_multi_data.user_feature_end d'
     = frontend_multi_data.user_feature_end d.

(** What [output_model] writes to the model file, line by line. *)
Inductive model_item : Type :=
| ModelType (name : string)
| ModelWeight (w : R) (feature : string).

Module train_multi_model.

(** The body of the loop of [output_model]: [weights[i]] is read, and
    written with the name of the feature when it is not zero; past the end
    of the weight array there is nothing to read. *)
Definition output_weight (features : quark.t) (weights : list R)
    (os : option (list model_item)) (i : nat) : option (list model_item) :=
  match os, weights !! i, quark.to_item features i with
  | Some os, Some w, Some name =>
      Some (if decide (w <> 0) then os ++ [ModelWeight w name] else os)
  | _, _, _ => None
  end.

(** [output_model(data, weights, opt)] *)
Definition output_model (features : quark.t) (weights : list R)
  : option (list model_item) :=
  fold_left (output_weight features weights) (seq 0 (length features))
    (Some [ModelType "multi"]).

End train_multi_model.

(** * Theorems *)

(** ** C1: the saturated logistic of the binary evaluator *)

Lemma saturated_logistic_spec_0 : saturated_logistic_spec 0 = 1 / 2.
Proof.
  unfold saturated_logistic_spec.
  rewrite decide_False by lra. rewrite decide_False by lra.
  rewrite Ropp_0, exp_0. lra.
Qed.

Lemma logistic_prob_0 : linear_binary_instance.logistic_prob 0 = 1 / 2.
Proof.
  unfold linear_binary_instance.logistic_prob.
  rewrite decide_True by lra. rewrite Ropp_0, exp_0. lra.
Qed.

Lemma logistic_error_above (s : R) (b : bool) :
  -100 < s ->
  linear_binary_instance.logistic_error s b = (of_bool b, of_bool b * s).
Proof.
  intros Hs. unfold linear_binary_instance.logistic_error.
  rewrite decide_True by exact Hs. cbn. f_equal. lra.
Qed.

(** C1 (the code at score 0): [logistic_error] tests [-100 < m_score]
    first, so at score 0 the probability it uses is 0: for a true
    instance the error is 1 and [logp] is 0, and the evaluator at the zero
    weight vector returns loss 0 and gradient -1 for the instance's
    feature.  The saturated logistic of the specification is 1/2 there,
    as [logistic_prob] is. *)
Theorem C1_logistic_error_at_zero :
  linear_binary_instance.logistic_error 0 true = (1, 0)
  /\ linear_binary_instance.logistic_error_p 0 = 0
  /\ saturated_logistic_spec 0 = 1 / 2
  /\ linear_binary_instance.logistic_prob 0 = 1 / 2
  /\ logress.lbfgs_evaluate c1_trainer [0] [0] 1 = (0, [-1]).
Proof.
  split; [|split; [|split; [|split]]].
  - rewrite logistic_error_above by lra. cbn. f_equal. lra.
  - unfold linear_binary_instance.logistic_error_p.
    rewrite decide_True by lra. reflexivity.
  - apply saturated_logistic_spec_0.
  - apply logistic_prob_0.
  - unfold logress.lbfgs_evaluate, c1_trainer. cbn.
    rewrite decide_False by discriminate.
    unfold linear_binary_instance.accumulate.
    cbn. rewrite logistic_error_above by lra.
    rewrite decide_False by (intros H; apply H; reflexivity).
    cbn. f_equal; [lra | f_equal; lra].
Qed.

(** ** C2: L2 regularization and the regularization start *)

Lemma imap_insert_penalty (c2 : R) (x g : list R) (start k : nat) :
  imap (fun i gi =>
          if decide (S start <= i < S start + k)%nat
          then gi + c2 * (x !!! i) else gi)
       (<[start := (g !!! start) + c2 * (x !!! start)]> g)
  = imap (fun i gi =>
            if decide (start <= i < start + S k)%nat
            then gi + c2 * (x !!! i) else gi) g.
Proof.
  apply list_eq. intros i. rewrite !list_lookup_imap.
  destruct (decide (i = start)) as [->|Hne].
  - destruct (g !! start) as [v|] eqn:Hv.
    + rewrite list_lookup_insert_eq by (eapply lookup_lt_Some; exact Hv).
      rewrite (list_lookup_total_correct _ _ _ Hv). cbn.
      rewrite decide_False by lia. rewrite decide_True by lia. reflexivity.
    + rewrite list_insert_ge by (apply lookup_ge_None; exact Hv).
      rewrite Hv. reflexivity.
  - rewrite list_lookup_insert_ne by congruence.
    destruct (g !! i) as [v|]; [|reflexivity]. cbn.
    repeat case_decide; try reflexivity; lia.
Qed.

Lemma l2_loop_fold (c2 : R) (x : list R) (k : nat) :
  forall (start : nat) (g : list R) (norm : R),
    fold_left (fun '(g, norm) i =>
                 (<[i := (g !!! i) + c2 * (x !!! i)]> g,
                  norm + (x !!! i) * (x !!! i)))
              (seq start k) (g, norm)
    = (imap (fun i gi =>
               if decide (start <= i < start + k)%nat
               then gi + c2 * (x !!! i) else gi) g,
       norm + fold_right (fun i s => (x !!! i) * (x !!! i) + s) 0 (seq start k)).
Proof.
  induction k as [|k IH]; intros start g norm.
  - cbn. f_equal; [|lra].
    apply list_eq. intros i. rewrite list_lookup_imap.
    destruct (g !! i) as [v|]; [|reflexivity]. cbn.
    rewrite decide_False by lia. reflexivity.
  - cbn [seq fold_left fold_right]. rewrite IH.
    rewrite imap_insert_penalty. f_equal. lra.
Qed.

(** The source loop computes the penalty of the specification from
    [start]. *)
Lemma l2_loop_spec (c2 : R) (x g : list R) (start n : nat) :
  l2_loop c2 x start n g
  = (imap (fun i gi =>
             if decide (start <= i < n)%nat then gi + c2 * (x !!! i) else gi) g,
     sum_squares x start n).
Proof.
  unfold l2_loop, sum_squares. rewrite l2_loop_fold. f_equal; [|lra].
  apply imap_ext. intros i v _.
  destruct (decide (start <= i < start + (n - start))%nat);
    destruct (decide (start <= i < n)%nat); try reflexivity; lia.
Qed.

Lemma logress_evaluate_l2 (t : logress.trainer) (x g : list R) (n : nat) :
  logress.m_c2 t <> 0 ->
  logress.lbfgs_evaluate t x g n
  = l2_penalty_spec (logress.m_c2 t) (logress.m_regularization_start t) n x
      (logress.lbfgs_evaluate (logress.set_c2 t 0) x g n).
Proof.
  intros Hc2. unfold logress.lbfgs_evaluate. cbn [logress.set_c2
    logress.m_c2 logress.m_holdout logress.m_data
    logress.m_regularization_start].
  destruct (fold_left _ (instances (logress.m_data t)) _) as [loss g'].
  rewrite decide_True by exact Hc2.
  rewrite (decide_False (P := 0 <> 0)) by (intros H; apply H; reflexivity).
  rewrite l2_loop_spec. unfold l2_penalty_spec. cbn [fst snd].
  f_equal. lra.
Qed.

Lemma maxent_evaluate_l2 (t : maxent.trainer) (x g : list R) (n : nat) :
  maxent.m_c2 t <> 0 ->
  snd (maxent.lbfgs_evaluate t x g n)
  = l2_penalty_spec (maxent.m_c2 t) 0 n x
      (snd (maxent.lbfgs_evaluate (maxent.set_c2 t 0) x g n)).
Proof.
  intros Hc2. unfold maxent.lbfgs_evaluate. cbn [maxent.set_c2
    maxent.m_c2 maxent.m_holdout maxent.m_data maxent.m_mexps
    maxent.m_oexps maxent.m_scores].
  destruct (fold_left _ (instances (maxent.m_data t)) _) as [[loss mexps] sc].
  rewrite decide_True by exact Hc2.
  rewrite (decide_False (P := 0 <> 0)) by (intros H; apply H; reflexivity).
  rewrite l2_loop_spec. unfold l2_penalty_spec. cbn [fst snd].
  f_equal. lra.
Qed.

Lemma c2_trainer_value :
  c2_trainer
  = maxent.mk_trainer [1] [0] [0] [0] (-1)%Z 1000%Z 1e-5 0 1 c2_data 0%Z.
Proof.
  unfold c2_trainer, maxent.train_setup. cbn.
  rewrite decide_False by discriminate.
  unfold add_to, maxent.create. cbn.
  do 2 f_equal. lra.
Qed.

(** The maxent evaluator on the example: with [c2 = 1] the loss is 0.5 and
    the gradient of the reserved feature 0 is 1; without regularization
    both are 0. *)
Lemma c2_trainer_evaluate :
  snd (maxent.lbfgs_evaluate c2_trainer [1] [0] 1) = (0.5, [1])
  /\ snd (maxent.lbfgs_evaluate (maxent.set_c2 c2_trainer 0) [1] [0] 1)
     = (0, [0]).
Proof.
  rewrite c2_trainer_value. unfold maxent.lbfgs_evaluate. cbn.
  rewrite !(decide_False (P := 0%Z = (-1)%Z)) by discriminate.
  unfold maxent.score_candidate, maxent.expect_candidate,
    inner_product, add_to. cbn.
  rewrite decide_True by lra.
  rewrite (decide_False (P := 0 <> 0)) by (intros H; apply H; reflexivity).
  cbn [snd].
  replace (0 + 1 * 1 - (0 + 1 * 1)) with 0 by lra. rewrite exp_0.
  split; (f_equal; [lra | f_equal; lra]).
Qed.

(** C2 (the claim fails): on a data set whose user features start at 1,
    the maxent evaluator with [c2 = 1] penalizes the reserved feature 0:
    its result is not the unregularized result with the penalty applied
    from the regularization start. *)
Lemma C2_l2_counterexample :
  snd (maxent.lbfgs_evaluate c2_trainer [1] [0] 1)
  <> l2_penalty_spec (maxent.m_c2 c2_trainer)
       (user_feature_start (maxent.m_data c2_trainer)) 1 [1]
       (snd (maxent.lbfgs_evaluate (maxent.set_c2 c2_trainer 0) [1] [0] 1)).
Proof.
  destruct c2_trainer_evaluate as [-> ->].
  rewrite c2_trainer_value. unfold l2_penalty_spec, sum_squares. cbn.
  intros H. injection H as H _. lra.
Qed.

(** C2 (amended): with [c2 <> 0], the binary logistic evaluator returns
    the unregularized loss and gradient with [c2 * x[i]] added to
    [gradient[i]] exactly for [m_regularization_start <= i < n] and
    [0.5 * c2 * (sum of x[i]^2)] over those indices added to the loss;
    the maxent evaluator has no regularization start and applies the same
    penalty to every index [0 <= i < n]. *)
Theorem C2_l2_regularization
    (lt : logress.trainer) (x g : list R) (n : nat)
    (mt : maxent.trainer) (x' g' : list R) (n' : nat) :
  logress.m_c2 lt <> 0 ->
  maxent.m_c2 mt <> 0 ->
  logress.lbfgs_evaluate lt x g n
  = l2_penalty_spec (logress.m_c2 lt) (logress.m_regularization_start lt) n x
      (logress.lbfgs_evaluate (logress.set_c2 lt 0) x g n)
  /\ snd (maxent.lbfgs_evaluate mt x' g' n')
     = l2_penalty_spec (maxent.m_c2 mt) 0 n' x'
         (snd (maxent.lbfgs_evaluate (maxent.set_c2 mt 0) x' g' n')).
Proof.
  intros Hl Hm. split.
  - apply logress_evaluate_l2, Hl.
  - apply maxent_evaluate_l2, Hm.
Qed.

Lemma C2_l2_regularization_witness :
  logress.lbfgs_evaluate c2_logress_trainer [3; 2] [7; 7] 2
  = l2_penalty_spec 1 1 2 [3; 2]
      (logress.lbfgs_evaluate (logress.set_c2 c2_logress_trainer 0)
         [3; 2] [7; 7] 2)
  /\ snd (maxent.lbfgs_evaluate c2_trainer [1] [0] 1)
     = l2_penalty_spec (maxent.m_c2 c2_trainer) 0 1 [1]
         (snd (maxent.lbfgs_evaluate (maxent.set_c2 c2_trainer 0) [1] [0] 1)).
Proof.
  apply (C2_l2_regularization c2_logress_trainer [3; 2] [7; 7] 2
           c2_trainer [1] [0] 1).
  - cbn. lra.
  - rewrite c2_trainer_value. cbn. lra.
Defined.

(** ** C3: the regularization constants *)













(** ** C4: the pairwise log-sum-exp *)

Lemma logsumexp_eq (a : R) :
  maxent.logsumexp a a false = a + 0.69314718055.
Proof.
  unfold maxent.logsumexp. rewrite decide_True by reflexivity. reflexivity.
Qed.

Lemma logsumexp_far (a b : R) :
  a <> b -> Rmin a b + 50 < Rmax a b ->
  maxent.logsumexp a b false = Rmax a b.
Proof.
  intros Hne Hfar. unfold maxent.logsumexp.
  rewrite decide_False by exact Hne.
  destruct (decide (a < b)) as [Hlt|Hge].
  - rewrite Rmin_left, Rmax_right in Hfar by lra.
    rewrite decide_True by exact Hfar. rewrite Rmax_right by lra. reflexivity.
  - rewrite Rmin_right, Rmax_left in Hfar by lra.
    rewrite decide_True by exact Hfar. rewrite Rmax_left by lra. reflexivity.
Qed.

Lemma logsumexp_near (a b : R) :
  a <> b -> ~ (Rmin a b + 50 < Rmax a b) ->
  maxent.logsumexp a b false
  = Rmax a b + ln (1 + exp (Rmin a b - Rmax a b)).
Proof.
  intros Hne Hnear. unfold maxent.logsumexp.
  rewrite decide_False by exact Hne.
  destruct (decide (a < b)) as [Hlt|Hge].
  - rewrite Rmin_left, Rmax_right in Hnear by lra.
    rewrite decide_False by exact Hnear.
    rewrite Rmin_left, Rmax_right by lra.
    do 2 f_equal. lra.
  - rewrite Rmin_right, Rmax_left in Hnear by lra.
    rewrite decide_False by exact Hnear.
    rewrite Rmin_right, Rmax_left by lra.
    do 2 f_equal. lra.
Qed.

Lemma logsumexp_comm (a b : R) :
  maxent.logsumexp a b false = maxent.logsumexp b a false.
Proof.
  destruct (decide (a = b)) as [->|Hne]; [reflexivity|].
  destruct (decide (Rmin a b + 50 < Rmax a b)) as [Hfar|Hnear].
  - rewrite (logsumexp_far a b) by assumption.
    rewrite (logsumexp_far b a); [apply Rmax_comm|congruence|].
    rewrite Rmin_comm, Rmax_comm. exact Hfar.
  - rewrite (logsumexp_near a b) by assumption.
    rewrite (logsumexp_near b a); [|congruence|].
    + rewrite (Rmin_comm b a), (Rmax_comm b a). reflexivity.
    + rewrite Rmin_comm, Rmax_comm. exact Hnear.
Qed.

Lemma logsumexp_0_m1000 : maxent.logsumexp 0 (-1000) false = 0.
Proof.
  rewrite logsumexp_far.
  - apply Rmax_left. lra.
  - lra.
  - rewrite Rmin_right, Rmax_left by lra. lra.
Qed.

Lemma ln_1_plus_exp_pos (d : R) : 0 < ln (1 + exp d).
Proof.
  pose proof (exp_pos d) as Hd.
  rewrite <- ln_1. apply ln_increasing; lra.
Qed.

(** *** The constant of [logsumexp] is below [ln 2] *)

Lemma fx_square_nonneg (u : Z) : (0 <= u)%Z -> (0 <= fx_square u)%Z.
Proof.
  intros Hu. unfold fx_square. apply Z.div_pos; [nia | reflexivity].
Qed.

Lemma fx_square_below (u : Z) (y : R) :
  (0 <= u)%Z -> IZR u / IZR fx_scale <= y ->
  IZR (fx_square u) / IZR fx_scale <= y * y.
Proof.
  intros Hu Hy.
  assert (HS : 0 < IZR fx_scale) by (apply IZR_lt; reflexivity).
  assert (Hu' : 0 <= IZR u) by (apply IZR_le; exact Hu).
  assert (Hdiv : IZR (fx_square u) * IZR fx_scale <= IZR u * IZR u).
  { rewrite <- !mult_IZR. apply IZR_le. unfold fx_square.
    rewrite Z.mul_comm. apply Z.mul_div_le. reflexivity. }
  assert (Hq : 0 <= IZR u / IZR fx_scale).
  { apply Rmult_le_pos; [exact Hu'|]. left. apply Rinv_0_lt_compat, HS. }
  apply Rle_trans with ((IZR u / IZR fx_scale) * (IZR u / IZR fx_scale)).
  - apply Rmult_le_reg_r with (IZR fx_scale); [exact HS|].
    apply Rmult_le_reg_r with (IZR fx_scale); [exact HS|].
    replace (IZR (fx_square u) / IZR fx_scale * IZR fx_scale * IZR fx_scale)
      with (IZR (fx_square u) * IZR fx_scale) by (field; lra).
    replace (IZR u / IZR fx_scale * (IZR u / IZR fx_scale)
             * IZR fx_scale * IZR fx_scale)
      with (IZR u * IZR u) by (field; lra).
    exact Hdiv.
  - apply Rmult_le_compat; assumption.
Qed.

Lemma fx_square_iter_below (n : nat) :
  forall (u : Z) (x : R),
    (0 <= u)%Z -> IZR u / IZR fx_scale <= exp x ->
    IZR (fx_square_iter n u) / IZR fx_scale <= exp (2 ^ n * x).
Proof.
  induction n as [|n IH]; intros u x Hu Hx.
  - cbn [fx_square_iter pow]. rewrite Rmult_1_l. exact Hx.
  - cbn [fx_square_iter].
    replace (2 ^ S n * x) with (2 ^ n * (x + x)) by (cbn [pow]; ring).
    apply IH; [apply fx_square_nonneg, Hu|].
    rewrite exp_plus. apply fx_square_below; assumption.
Qed.

Lemma log2_constant_frac : 0.69314718055 = 69314718055 / 100000000000.
Proof. lra. Qed.

Lemma fx_start_below :
  IZR fx_start / IZR fx_scale
  <= exp (- (69314718055 / 100000000000) / 2 ^ 40).
Proof.
  apply Rle_trans with (1 + - (69314718055 / 100000000000) / 2 ^ 40);
    [|apply exp_ineq1_le].
  assert (HS : 0 < IZR fx_scale) by (apply IZR_lt; reflexivity).
  assert (HP : 0 < 2 ^ 40) by (apply pow_lt; lra).
  assert (H2 : 2 ^ 40 = IZR (2 ^ 40)).
  { rewrite pow_IZR. apply IZR_eq. reflexivity. }
  apply Rmult_le_reg_r with (IZR fx_scale * (100000000000 * 2 ^ 40)).
  { apply Rmult_lt_0_compat; [exact HS|].
    apply Rmult_lt_0_compat; [lra | exact HP]. }
  replace (IZR fx_start / IZR fx_scale
           * (IZR fx_scale * (100000000000 * 2 ^ 40)))
    with (IZR fx_start * (100000000000 * 2 ^ 40)) by (field; lra).
  replace ((1 + - (69314718055 / 100000000000) / 2 ^ 40)
           * (IZR fx_scale * (100000000000 * 2 ^ 40)))
    with (IZR fx_scale * (100000000000 * 2 ^ 40 - 69314718055))
    by (field; lra).
  rewrite H2. rewrite <- !mult_IZR, <- minus_IZR, <- mult_IZR.
  apply IZR_le. vm_compute. discriminate.
Qed.

Lemma exp_log2_constant : / 2 < exp (- (69314718055 / 100000000000)).
Proof.
  pose proof (fx_square_iter_below 40 fx_start
                (- (69314718055 / 100000000000) / 2 ^ 40)) as H.
  assert (HP : 0 < 2 ^ 40) by (apply pow_lt; lra).
  replace (2 ^ 40 * (- (69314718055 / 100000000000) / 2 ^ 40))
    with (- (69314718055 / 100000000000)) in H by (field; lra).
  eapply Rlt_le_trans; [|apply H].
  - assert (HS : 0 < IZR fx_scale) by (apply IZR_lt; reflexivity).
    apply Rmult_lt_reg_r with (IZR fx_scale * 2); [lra|].
    replace (/ 2 * (IZR fx_scale * 2)) with (IZR fx_scale) by field.
    replace (IZR (fx_square_iter 40 fx_start) / IZR fx_scale
             * (IZR fx_scale * 2))
      with (IZR (fx_square_iter 40 fx_start) * 2) by (field; lra).
    rewrite <- mult_IZR. apply IZR_lt. vm_compute. reflexivity.
  - vm_compute. discriminate.
  - apply fx_start_below.
Qed.

(** The decimal constant that [logsumexp] adds for equal arguments is
    strictly below [ln 2]. *)
Lemma log2_constant_below : 0.69314718055 < ln 2.
Proof.
  rewrite log2_constant_frac.
  apply exp_lt_inv. rewrite exp_ln by lra.
  pose proof exp_log2_constant as H. rewrite exp_Ropp in H.
  pose proof (exp_pos (69314718055 / 100000000000)) as Hp.
  destruct (Rlt_le_dec (exp (69314718055 / 100000000000)) 2) as [Hlt|Hge];
    [exact Hlt|].
  apply Rinv_le_contravar in Hge; lra.
Qed.

(** C4 (the claim fails): at a = b = 0 the code returns 0.69314718055,
    which is not ln 2; at a = 0, b = -1000 it returns 0, the larger
    argument, and not max + ln (1 + e^(min - max)), which is strictly
    larger. *)
Lemma C4_logsumexp_counterexample :
  maxent.logsumexp 0 0 false <> logsumexp_spec 0 0
  /\ maxent.logsumexp 0 (-1000) false <> logsumexp_spec 0 (-1000).
Proof.
  split.
  - rewrite logsumexp_eq. unfold logsumexp_spec.
    rewrite decide_True by reflexivity.
    pose proof log2_constant_below. lra.
  - rewrite logsumexp_0_m1000. unfold logsumexp_spec.
    rewrite decide_False by lra.
    rewrite Rmin_right, Rmax_left by lra.
    pose proof (ln_1_plus_exp_pos (-1000 - 0)). lra.
Qed.

(** C4 (amended): with the flag clear, equal arguments give
    a + 0.69314718055 (the code's decimal constant for log 2); different
    arguments more than 50 apart give the larger one; different arguments
    at most 50 apart give max + ln (1 + e^(min - max)); the combiner is
    commutative, and at a = 0, b = -1000 the result is a. *)
Theorem C4_logsumexp (a b : R) :
  (a = b -> maxent.logsumexp a b false = a + 0.69314718055)
  /\ (a <> b -> Rmin a b + 50 < Rmax a b ->
      maxent.logsumexp a b false = Rmax a b)
  /\ (a <> b -> ~ (Rmin a b + 50 < Rmax a b) ->
      maxent.logsumexp a b false
      = Rmax a b + ln (1 + exp (Rmin a b - Rmax a b)))
  /\ maxent.logsumexp a b false = maxent.logsumexp b a false
  /\ maxent.logsumexp 0 (-1000) false = 0.
Proof.
  repeat split.
  - intros ->. apply logsumexp_eq.
  - apply logsumexp_far.
  - apply logsumexp_near.
  - apply logsumexp_comm.
  - apply logsumexp_0_m1000.
Qed.

Lemma C4_logsumexp_witness :
  maxent.logsumexp 1 1 false = 1 + 0.69314718055
  /\ maxent.logsumexp 1 2 false = Rmax 1 2 + ln (1 + exp (Rmin 1 2 - Rmax 1 2)).
Proof.
  destruct (C4_logsumexp 1 1) as [H _].
  destruct (C4_logsumexp 1 2) as (_ & _ & H' & _).
  split; [apply H; reflexivity|].
  apply H'; [lra|].
  rewrite Rmin_left, Rmax_right by lra. lra.
Defined.

(** ** C10: the candidate chosen by the maxent holdout evaluation *)

Lemma DBL_MAX_pos : 0 < DBL_MAX.
Proof.
  unfold DBL_MAX. apply Rmult_lt_0_compat; [|apply pow_lt; lra].
  assert (H1 : 1 < 2 ^ 52) by (apply Rlt_pow_R1; [lra | lia]).
  assert (H2 : / 2 ^ 52 < / 1) by (apply Rinv_lt_contravar; lra).
  rewrite Rinv_1 in H2. lra.
Qed.

(** The candidate loop from any state: either no candidate beats the
    running maximum and the state is kept, or the loop ends on the first
    position of the largest score. *)
Lemma max_candidate_fold (w : list R) (l : list maxent.candidate_type) :
  forall (i0 : nat) (m0 : R) (k0 : nat),
  exists m k,
    fold_left (maxent.max_candidate w) l (i0, m0, k0)
    = ((i0 + length l)%nat, m, k)
    /\ (forall c, c ∈ l -> candidate_score w c <= m)
    /\ ((m = m0 /\ k = k0)
        \/ (m0 < m
            /\ exists j c,
                k = (i0 + j)%nat /\ l !! j = Some c
                /\ candidate_score w c = m
                /\ forall j' c', (j' < j)%nat -> l !! j' = Some c' ->
                                 candidate_score w c' < m)).
Proof.
  induction l as [|c l IH]; intros i0 m0 k0.
  - exists m0, k0. cbn. rewrite Nat.add_0_r.
    split; [reflexivity|]. split; [|left; split; reflexivity].
    intros c Hc. apply elem_of_nil in Hc. contradiction.
  - cbn [fold_left]. unfold maxent.max_candidate at 2.
    fold (candidate_score w c).
    destruct (decide (m0 < candidate_score w c)) as [Hlt|Hge].
    + destruct (IH (S i0) (candidate_score w c) i0)
        as (m & k & Hfold & Hall & Hcase).
      exists m, k. rewrite Hfold. cbn [length].
      split; [f_equal; f_equal; lia|].
      assert (Hcm : candidate_score w c <= m).
      { destruct Hcase as [[-> _]|[Hlt' _]]; lra. }
      split.
      * intros c' Hc'. apply elem_of_cons in Hc' as [->|Hc'];
          [exact Hcm | apply Hall, Hc'].
      * right. split; [lra|].
        destruct Hcase as [[-> ->]|(Hlt' & j & c' & -> & Hj & Hsc & Hbefore)].
        -- exists 0%nat, c. rewrite Nat.add_0_r.
           repeat split; try reflexivity. intros j' c' Hj'. lia.
        -- exists (S j), c'. repeat split; [lia|exact Hj|exact Hsc|].
           intros [|j'] c'' Hj' Hc''.
           ++ cbn in Hc''. injection Hc'' as <-. lra.
           ++ cbn in Hc''. apply (Hbefore j'); [lia|exact Hc''].
    + destruct (IH (S i0) m0 k0) as (m & k & Hfold & Hall & Hcase).
      exists m, k. rewrite Hfold. cbn [length].
      split; [f_equal; f_equal; lia|].
      assert (Hm : m0 <= m).
      { destruct Hcase as [[-> _]|[Hlt' _]]; lra. }
      split.
      * intros c' Hc'. apply elem_of_cons in Hc' as [->|Hc'];
          [lra | apply Hall, Hc'].
      * destruct Hcase as [[-> ->]|(Hlt' & j & c' & -> & Hj & Hsc & Hbefore)];
          [left; split; reflexivity|].
        right. split; [exact Hlt'|].
        exists (S j), c'. repeat split; [lia|exact Hj|exact Hsc|].
        intros [|j'] c'' Hj' Hc''.
        -- cbn in Hc''. injection Hc'' as <-. lra.
        -- cbn in Hc''. apply (Hbefore j'); [lia|exact Hc''].
Qed.

(** When some candidate scores above [-DBL_MAX], [find_max] is the first
    position of the maximal score. *)
Lemma find_max_first_argmax (w : list R) (cands : list maxent.candidate_type) :
  (exists c, c ∈ cands /\ - DBL_MAX < candidate_score w c) ->
  first_argmax w cands (maxent.find_max w cands).
Proof.
  intros (c0 & Hc0 & Hs0). unfold maxent.find_max.
  destruct (max_candidate_fold w cands 0 (- DBL_MAX) (length cands))
    as (m & k & Hfold & Hall & Hcase).
  rewrite Hfold.
  destruct Hcase as [[-> ->]|(Hlt & j & c & -> & Hj & Hsc & Hbefore)].
  - specialize (Hall c0 Hc0). lra.
  - cbn [Nat.add]. exists c. split; [exact Hj|]. rewrite Hsc.
    split; [exact Hall | exact Hbefore].
Qed.

(** When no candidate scores above [-DBL_MAX] (in particular when there
    is no candidate), [find_max] is the end iterator. *)
Lemma find_max_end (w : list R) (cands : list maxent.candidate_type) :
  (forall c, c ∈ cands -> candidate_score w c <= - DBL_MAX) ->
  maxent.find_max w cands = length cands.
Proof.
  intros Hlow. unfold maxent.find_max.
  destruct (max_candidate_fold w cands 0 (- DBL_MAX) (length cands))
    as (m & k & Hfold & Hall & Hcase).
  rewrite Hfold.
  destruct Hcase as [[_ ->]|(Hlt & j & c & -> & Hj & Hsc & Hbefore)];
    [reflexivity|].
  assert (Hc : c ∈ cands) by (eapply list_elem_of_lookup_2; exact Hj).
  specialize (Hlow c Hc). lra.
Qed.

Lemma holdout_instance_valid (holdout : Z) (w : list R)
    (iti : maxent.instance_type) (nc nt : nat) :
  maxent.get_group iti = holdout ->
  (exists c, c ∈ maxent.candidates iti /\ - DBL_MAX < candidate_score w c) ->
  exists c,
    maxent.candidates iti !! maxent.find_max w (maxent.candidates iti) = Some c
    /\ maxent.holdout_instance holdout w (Some (nc, nt)) iti
       = Some (if maxent.is_true c then S nc else nc, S nt).
Proof.
  intros Hg Hex.
  destruct (find_max_first_argmax w _ Hex) as (c & Hc & _).
  exists c. split; [exact Hc|].
  unfold maxent.holdout_instance.
  rewrite decide_False by (intros H; apply H; exact Hg).
  rewrite Hc. reflexivity.
Qed.

Lemma holdout_instance_invalid (holdout : Z) (w : list R)
    (iti : maxent.instance_type) (nc nt : nat) :
  maxent.get_group iti = holdout ->
  (forall c, c ∈ maxent.candidates iti -> candidate_score w c <= - DBL_MAX) ->
  maxent.find_max w (maxent.candidates iti) = length (maxent.candidates iti)
  /\ maxent.holdout_instance holdout w (Some (nc, nt)) iti = None.
Proof.
  intros Hg Hlow. pose proof (find_max_end w _ Hlow) as Hend.
  split; [exact Hend|].
  unfold maxent.holdout_instance.
  rewrite decide_False by (intros H; apply H; exact Hg).
  rewrite Hend. rewrite (proj2 (lookup_ge_None _ _)) by lia. reflexivity.
Qed.

(** Of two candidates of equal score the first one is chosen. *)
Lemma c10_tie_first : maxent.find_max [] c10_tie = 0%nat.
Proof.
  pose proof DBL_MAX_pos as Hpos.
  unfold maxent.find_max, c10_tie. cbn.
  case_decide; [|lra]. unfold maxent.max_candidate. cbn.
  case_decide; [lra|]. reflexivity.
Qed.

(** C10 (the claim fails): a holdout instance with one candidate whose
    score is exactly [-DBL_MAX] never updates the running maximum, and the
    end iterator is dereferenced although the instance has a candidate. *)
Lemma C10_first_maximum_counterexample :
  maxent.get_group c10_instance = maxent.m_holdout c10_trainer
  /\ length (maxent.candidates c10_instance) = 1%nat
  /\ maxent.find_max (maxent.m_weights c10_trainer)
       (maxent.candidates c10_instance)
     = length (maxent.candidates c10_instance)
  /\ maxent.holdout_evaluation c10_trainer = None.
Proof.
  assert (Hlow : forall c, c ∈ maxent.candidates c10_instance ->
                   candidate_score [1] c <= - DBL_MAX).
  { intros c Hc. cbn in Hc. apply list_elem_of_singleton in Hc as ->.
    unfold candidate_score, inner_product. cbn. lra. }
  destruct (holdout_instance_invalid 1%Z [1] c10_instance 0 0 eq_refl Hlow)
    as [Hend Hnone].
  split; [reflexivity|]. split; [reflexivity|]. split; [exact Hend|].
  unfold maxent.holdout_evaluation, maxent.holdout_counts.
  cbn [c10_trainer maxent.m_data maxent.m_holdout maxent.m_weights
       instances fold_left].
  rewrite Hnone. reflexivity.
Qed.

(** C10 (amended): for a holdout instance, if some candidate scores
    strictly above [-DBL_MAX], the candidate loop ends on the first
    candidate of maximal score (the running maximum is updated on strict
    increase only), that candidate is dereferenced and the instance is
    counted; if no candidate scores above [-DBL_MAX], in particular if the
    instance has no candidate, [itc_max] is still the end iterator when
    it is dereferenced. *)
Theorem C10_first_maximum (w : list R) (holdout : Z)
    (iti : maxent.instance_type) (nc nt : nat) :
  maxent.get_group iti = holdout ->
  ((exists c, c ∈ maxent.candidates iti /\ - DBL_MAX < candidate_score w c) ->
   first_argmax w (maxent.candidates iti)
     (maxent.find_max w (maxent.candidates iti))
   /\ exists c,
        maxent.candidates iti !! maxent.find_max w (maxent.candidates iti)
        = Some c
        /\ maxent.holdout_instance holdout w (Some (nc, nt)) iti
           = Some (if maxent.is_true c then S nc else nc, S nt))
  /\ ((forall c, c ∈ maxent.candidates iti ->
                 candidate_score w c <= - DBL_MAX) ->
      maxent.find_max w (maxent.candidates iti)
      = length (maxent.candidates iti)
      /\ maxent.holdout_instance holdout w (Some (nc, nt)) iti = None).
Proof.
  intros Hg. split.
  - intros Hex. split.
    + apply find_max_first_argmax, Hex.
    + apply holdout_instance_valid; assumption.
  - apply holdout_instance_invalid, Hg.
Qed.

Lemma C10_first_maximum_witness :
  first_argmax [] c10_tie (maxent.find_max [] c10_tie).
Proof.
  destruct (C10_first_maximum [] 1%Z (maxent.mk_instance c10_tie 1%Z)
              0%nat 0%nat eq_refl) as [H _].
  apply H. exists (maxent.mk_candidate [] false 0%nat). split.
  - apply list_elem_of_here.
  - unfold candidate_score, inner_product. cbn.
    pose proof DBL_MAX_pos. lra.
Defined.

(** ** C5: the holdout group *)

Lemma logress_evaluate_instance_holdout (holdout : Z) (x : list R)
    (acc : R * list R) (iti : logress.instance_type) :
  logress.get_group iti = holdout ->
  logress.evaluate_instance holdout x acc iti = acc.
Proof.
  intros Hg. unfold logress.evaluate_instance. destruct acc as [loss g].
  rewrite decide_True by exact Hg. reflexivity.
Qed.

Lemma logress_evaluate_skip (t : logress.trainer)
    (d1 d2 : list logress.instance_type) (iti : logress.instance_type)
    (start K : nat) (x g : list R) (n : nat) :
  logress.get_group iti = logress.m_holdout t ->
  logress.lbfgs_evaluate
    (logress.set_data t (mk_data (d1 ++ iti :: d2) start K)) x g n
  = logress.lbfgs_evaluate
      (logress.set_data t (mk_data (d1 ++ d2) start K)) x g n.
Proof.
  intros Hg. unfold logress.lbfgs_evaluate.
  cbn [logress.set_data logress.m_data logress.m_holdout logress.m_c2
       logress.m_regularization_start instances].
  rewrite !fold_left_app. cbn [fold_left].
  rewrite (logress_evaluate_instance_holdout _ _ _ _ Hg). reflexivity.
Qed.

Lemma maxent_evaluate_instance_holdout (holdout : Z) (x : list R)
    (acc : R * list R * list R) (iti : maxent.instance_type) :
  maxent.get_group iti = holdout ->
  maxent.evaluate_instance holdout x acc iti = acc.
Proof.
  intros Hg. unfold maxent.evaluate_instance. destruct acc as [[loss m] s].
  rewrite decide_True by exact Hg. reflexivity.
Qed.

Lemma maxent_observe_instance_holdout (holdout : Z)
    (acc : list R * nat) (iti : maxent.instance_type) :
  maxent.get_group iti = holdout ->
  maxent.observe_instance holdout acc iti = acc.
Proof.
  intros Hg. unfold maxent.observe_instance. destruct acc as [o M].
  rewrite decide_True by exact Hg. reflexivity.
Qed.

(** Setting up the maxent trainer and evaluating: a holdout instance
    changes neither the observation expectations nor the loss and
    gradient. *)
Lemma maxent_evaluate_skip (t : maxent.trainer)
    (d1 d2 : list maxent.instance_type) (iti : maxent.instance_type)
    (start K : nat) (holdout clk : Z) (x g : list R) (n : nat) :
  maxent.get_group iti = holdout ->
  maxent.m_oexps
    (maxent.train_setup t (mk_data (d1 ++ iti :: d2) start K) holdout clk)
  = maxent.m_oexps
      (maxent.train_setup t (mk_data (d1 ++ d2) start K) holdout clk)
  /\ snd (maxent.lbfgs_evaluate
            (maxent.train_setup t (mk_data (d1 ++ iti :: d2) start K)
               holdout clk) x g n)
     = snd (maxent.lbfgs_evaluate
              (maxent.train_setup t (mk_data (d1 ++ d2) start K)
                 holdout clk) x g n).
Proof.
  intros Hg. unfold maxent.train_setup. cbn [instances num_features].
  rewrite !fold_left_app. cbn [fold_left].
  rewrite (maxent_observe_instance_holdout _ _ _ Hg).
  destruct (fold_left (maxent.observe_instance holdout) d2 _) as [oexps M].
  split; [reflexivity|].
  unfold maxent.lbfgs_evaluate.
  cbn [maxent.m_data maxent.m_holdout maxent.m_c2 maxent.m_mexps
       maxent.m_oexps maxent.m_scores instances].
  rewrite !fold_left_app. cbn [fold_left].
  rewrite (maxent_evaluate_instance_holdout _ _ _ _ Hg).
  destruct (fold_left (maxent.evaluate_instance holdout x) d2 _)
    as [[loss mexps] sc].
  case_decide; [destruct (l2_loop _ _ _ _ _)|]; reflexivity.
Qed.

Lemma sum_list_insert_S (l : list nat) :
  forall i, (i < length l)%nat ->
    sum_list (<[i := S (l !!! i)]> l) = S (sum_list l).
Proof.
  induction l as [|a l IH]; intros i Hi; [cbn in Hi; lia|].
  destruct i as [|i]; cbn in *.
  - reflexivity.
  - rewrite IH by lia. lia.
Qed.

Lemma logress_holdout_instance_other (holdout : Z) (w : list R) (fa : bool)
    (acc : confusion_matrix.t * list log_item) (iti : logress.instance_type) :
  logress.get_group iti <> holdout ->
  logress.holdout_instance holdout w fa acc iti = acc.
Proof.
  intros Hne. unfold logress.holdout_instance. destruct acc as [m os].
  rewrite decide_True by exact Hne. reflexivity.
Qed.

Lemma logress_holdout_instance_held (holdout : Z) (w : list R) (fa : bool)
    (m : confusion_matrix.t) (os : list log_item)
    (iti : logress.instance_type) :
  logress.get_group iti = holdout ->
  exists rl ml os',
    (rl < 2)%nat /\ (ml < 2)%nat
    /\ logress.holdout_instance holdout w fa (m, os) iti
       = (confusion_matrix.incr m rl ml, os').
Proof.
  intros Hg. unfold logress.holdout_instance.
  rewrite decide_False by (intros H; apply H; exact Hg).
  eexists _, _, _. split; [|split; [|reflexivity]].
  - destruct (logress.get_truth iti); lia.
  - case_decide; lia.
Qed.

(** The 2x2 matrix keeps its shape, and every classified instance adds
    one to the total. *)
Lemma logress_holdout_fold (holdout : Z) (w : list R) (fa : bool)
    (l : list logress.instance_type) :
  forall (m : confusion_matrix.t) (os : list log_item),
    confusion_matrix.size m = 2%nat ->
    length (confusion_matrix.cells m) = 4%nat ->
    confusion_matrix.num_total
      (fst (fold_left (logress.holdout_instance holdout w fa) l (m, os)))
    = (confusion_matrix.num_total m
       + count_group logress.get_group holdout l)%nat.
Proof.
  unfold count_group.
  induction l as [|iti l IH]; intros m os Hsize Hlen.
  - cbn. lia.
  - cbn [fold_left].
    destruct (decide (logress.get_group iti = holdout)) as [Hg|Hne].
    + destruct (logress_holdout_instance_held holdout w fa m os iti Hg)
        as (rl & ml & os' & Hrl & Hml & ->).
      rewrite filter_cons_True by exact Hg.
      rewrite IH.
      * unfold confusion_matrix.num_total, confusion_matrix.incr,
          confusion_matrix.cell. cbn [confusion_matrix.cells].
        rewrite sum_list_insert_S by (rewrite Hsize, Hlen; lia).
        cbn [length]. lia.
      * exact Hsize.
      * cbn. rewrite length_insert. exact Hlen.
    + rewrite logress_holdout_instance_other by exact Hne.
      rewrite filter_cons_False by exact Hne. apply IH; assumption.
Qed.

Lemma logress_holdout_total (t : logress.trainer) (fa : bool) :
  confusion_matrix.num_total (fst (logress.holdout_matrix t fa))
  = count_group logress.get_group (logress.m_holdout t)
      (instances (logress.m_data t)).
Proof.
  unfold logress.holdout_matrix.
  rewrite logress_holdout_fold by reflexivity. reflexivity.
Qed.

Lemma maxent_holdout_fold (holdout : Z) (w : list R)
    (l : list maxent.instance_type) :
  (forall iti, iti ∈ l -> maxent.get_group iti = holdout ->
     exists c, c ∈ maxent.candidates iti /\ - DBL_MAX < candidate_score w c) ->
  forall nc nt,
  exists nc',
    fold_left (maxent.holdout_instance holdout w) l (Some (nc, nt))
    = Some (nc', (nt + count_group maxent.get_group holdout l)%nat).
Proof.
  unfold count_group.
  induction l as [|iti l IH]; intros Hvalid nc nt.
  - exists nc. cbn. f_equal. f_equal. lia.
  - cbn [fold_left].
    assert (Hl : forall iti', iti' ∈ l -> maxent.get_group iti' = holdout ->
              exists c, c ∈ maxent.candidates iti'
                        /\ - DBL_MAX < candidate_score w c).
    { intros iti' Hin. apply Hvalid. apply list_elem_of_further, Hin. }
    destruct (decide (maxent.get_group iti = holdout)) as [Hg|Hne].
    + destruct (holdout_instance_valid holdout w iti nc nt Hg)
        as (c & _ & ->).
      { apply Hvalid; [apply list_elem_of_here | exact Hg]. }
      rewrite filter_cons_True by exact Hg.
      destruct (IH Hl (if maxent.is_true c then S nc else nc) (S nt))
        as (nc' & ->).
      exists nc'. cbn [length]. do 2 f_equal. lia.
    + unfold maxent.holdout_instance at 2.
      rewrite decide_True by exact Hne.
      rewrite filter_cons_False by exact Hne.
      apply IH, Hl.
Qed.

Lemma maxent_holdout_total (t : maxent.trainer) :
  holdout_scores_valid t ->
  exists nc,
    maxent.holdout_counts t
    = Some (nc, count_group maxent.get_group (maxent.m_holdout t)
                  (instances (maxent.m_data t))).
Proof.
  intros Hvalid. unfold maxent.holdout_counts.
  destruct (maxent_holdout_fold (maxent.m_holdout t) (maxent.m_weights t)
              (instances (maxent.m_data t)) Hvalid 0%nat 0%nat) as (nc & H).
  exists nc. exact H.
Qed.

Lemma maxent_holdout_fold_None (holdout : Z) (w : list R)
    (l : list maxent.instance_type) :
  fold_left (maxent.holdout_instance holdout w) l None = None.
Proof. induction l as [|iti l IH]; [reflexivity | exact IH]. Qed.

(** Whenever the instance loop completes, it has counted the holdout
    instances and no other. *)
Lemma maxent_holdout_fold_counts (holdout : Z) (w : list R)
    (l : list maxent.instance_type) :
  forall nc nt nc' nt',
    fold_left (maxent.holdout_instance holdout w) l (Some (nc, nt))
    = Some (nc', nt') ->
    nt' = (nt + count_group maxent.get_group holdout l)%nat.
Proof.
  unfold count_group.
  induction l as [|iti l IH]; intros nc nt nc' nt' H.
  - cbn in H. injection H as _ <-. cbn. lia.
  - cbn [fold_left] in H.
    destruct (decide (maxent.get_group iti = holdout)) as [Hg|Hne].
    + rewrite filter_cons_True by exact Hg.
      unfold maxent.holdout_instance at 2 in H.
      rewrite decide_False in H by (intros Hc; apply Hc; exact Hg).
      destruct (maxent.candidates iti !! _) as [c|].
      * apply IH in H. cbn [length]. lia.
      * rewrite maxent_holdout_fold_None in H. discriminate.
    + rewrite filter_cons_False by exact Hne.
      unfold maxent.holdout_instance at 2 in H.
      rewrite decide_True in H by exact Hne.
      apply IH in H. exact H.
Qed.

(** C5: an instance of the holdout group contributes nothing to the loss
    and the gradient of the binary logistic evaluator, nor to the
    observation expectations, the loss and the gradient of the maxent
    trainer: removing it from the data leaves them unchanged.  The holdout
    evaluation of the binary trainer tallies as many instances as the
    data has in the holdout group, and so does the one of the maxent
    trainer whenever each holdout instance has a candidate scoring above
    [-DBL_MAX]. *)
Theorem C5_holdout_exclusion
    (lt : logress.trainer) (d1 d2 : list logress.instance_type)
    (iti : logress.instance_type) (start K : nat)
    (x g : list R) (n : nat) (fa : bool)
    (mt : maxent.trainer) (e1 e2 : list maxent.instance_type)
    (itm : maxent.instance_type) (start' K' : nat) (holdout clk : Z)
    (x' g' : list R) (n' : nat) :
  logress.get_group iti = logress.m_holdout lt ->
  maxent.get_group itm = holdout ->
  logress.lbfgs_evaluate
    (logress.set_data lt (mk_data (d1 ++ iti :: d2) start K)) x g n
  = logress.lbfgs_evaluate
      (logress.set_data lt (mk_data (d1 ++ d2) start K)) x g n
  /\ maxent.m_oexps
       (maxent.train_setup mt (mk_data (e1 ++ itm :: e2) start' K')
          holdout clk)
     = maxent.m_oexps
         (maxent.train_setup mt (mk_data (e1 ++ e2) start' K') holdout clk)
  /\ snd (maxent.lbfgs_evaluate
            (maxent.train_setup mt (mk_data (e1 ++ itm :: e2) start' K')
               holdout clk) x' g' n')
     = snd (maxent.lbfgs_evaluate
              (maxent.train_setup mt (mk_data (e1 ++ e2) start' K')
                 holdout clk) x' g' n')
  /\ confusion_matrix.num_total (fst (logress.holdout_matrix lt fa))
     = count_group logress.get_group (logress.m_holdout lt)
         (instances (logress.m_data lt))
  /\ (forall nc nt,
        maxent.holdout_counts mt = Some (nc, nt) ->
        nt = count_group maxent.get_group (maxent.m_holdout mt)
               (instances (maxent.m_data mt)))
  /\ (holdout_scores_valid mt ->
      exists nc,
        maxent.holdout_counts mt
        = Some (nc, count_group maxent.get_group (maxent.m_holdout mt)
                      (instances (maxent.m_data mt)))).
Proof.
  intros Hl Hm.
  split; [apply logress_evaluate_skip, Hl|].
  destruct (maxent_evaluate_skip mt e1 e2 itm start' K' holdout clk x' g' n'
              Hm) as [Ho He].
  split; [exact Ho|]. split; [exact He|].
  split; [apply logress_holdout_total|].
  split; [|apply maxent_holdout_total].
  intros nc nt H. unfold maxent.holdout_counts in H.
  apply maxent_holdout_fold_counts in H. exact H.
Qed.

Lemma c5_maxent_valid : holdout_scores_valid c5_maxent_trainer.
Proof.
  intros iti Hin _. cbn in Hin. apply list_elem_of_singleton in Hin as ->.
  exists (maxent.mk_candidate [(0%nat, 1)] true 0%nat).
  split; [apply list_elem_of_here|].
  unfold candidate_score, inner_product. cbn.
  pose proof DBL_MAX_pos. lra.
Qed.

Lemma C5_holdout_exclusion_witness :
  logress.lbfgs_evaluate c5_logress_trainer [0; 0] [0; 0] 2
  = logress.lbfgs_evaluate
      (logress.set_data c5_logress_trainer
         (mk_data [c5_train1; c5_train2] 0%nat 2%nat)) [0; 0] [0; 0] 2
  /\ confusion_matrix.num_total
       (fst (logress.holdout_matrix c5_logress_trainer false)) = 1%nat
  /\ exists nc, maxent.holdout_counts c5_maxent_trainer = Some (nc, 1%nat).
Proof.
  destruct (C5_holdout_exclusion c5_logress_trainer [c5_train1] [c5_train2]
              c5_held 0%nat 2%nat [0; 0] [0; 0] 2%nat false
              c5_maxent_trainer [] [] c5_maxent_held 0%nat 2%nat 1%Z 0%Z
              [0; 0] [0; 0] 2%nat eq_refl eq_refl)
    as (H1 & _ & _ & H4 & _ & H5).
  split; [exact H1|]. split; [exact H4|]. exact (H5 c5_maxent_valid).
Defined.

(** ** C9: the gradient buffer is overwritten *)

(** A loop that stores [f i] in [g[i]] for [i] from 0 to [k - 1]
    overwrites the first [k] entries and keeps the others. *)
Lemma overwrite_loop_prefix {A : Type} (f : nat -> A) (g : list A) (k : nat) :
  (k <= length g)%nat ->
  fold_left (fun g i => <[i := f i]> g) (seq 0 k) g
  = (f <$> seq 0 k) ++ drop k g.
Proof.
  induction k as [|k IH]; intros Hk.
  - cbn. rewrite drop_0. reflexivity.
  - rewrite seq_S, fold_left_app, fmap_app. cbn [fold_left fmap list_fmap Nat.add].
    rewrite IH by lia.
    assert (Hlen : length (f <$> seq 0 k) = k)
      by (rewrite length_fmap, length_seq; reflexivity).
    rewrite insert_app_r_alt by lia. rewrite Hlen, Nat.sub_diag.
    destruct (drop k g) as [|a r] eqn:Hd.
    + apply (f_equal length) in Hd. rewrite length_drop in Hd. cbn in Hd. lia.
    + cbn. rewrite <- app_assoc. cbn. do 2 f_equal.
      replace (S k) with (k + 1)%nat by lia.
      rewrite <- drop_drop, Hd. reflexivity.
Qed.

(** On a buffer of length [n] the loop leaves nothing of the previous
    contents. *)
Lemma overwrite_loop {A : Type} (f : nat -> A) (g : list A) (n : nat) :
  length g = n ->
  fold_left (fun g i => <[i := f i]> g) (seq 0 n) g = f <$> seq 0 n.
Proof.
  intros Hn. rewrite overwrite_loop_prefix by lia.
  rewrite drop_ge by lia. apply app_nil_r.
Qed.

Lemma logress_evaluate_buffer (t : logress.trainer) (x g1 g2 : list R)
    (n : nat) :
  length g1 = n -> length g2 = n ->
  logress.lbfgs_evaluate t x g1 n = logress.lbfgs_evaluate t x g2 n.
Proof.
  intros H1 H2. unfold logress.lbfgs_evaluate.
  rewrite (overwrite_loop (fun _ => 0) g1 n H1).
  rewrite (overwrite_loop (fun _ => 0) g2 n H2). reflexivity.
Qed.

Lemma maxent_evaluate_buffer (t : maxent.trainer) (x g1 g2 : list R)
    (n : nat) :
  length g1 = n -> length g2 = n ->
  maxent.lbfgs_evaluate t x g1 n = maxent.lbfgs_evaluate t x g2 n.
Proof.
  intros H1 H2. unfold maxent.lbfgs_evaluate.
  destruct (fold_left _ (instances (maxent.m_data t)) _) as [[loss mexps] sc].
  rewrite (overwrite_loop
             (fun i => - ((maxent.m_oexps t !!! i) - (mexps !!! i))) g1 n H1).
  rewrite (overwrite_loop
             (fun i => - ((maxent.m_oexps t !!! i) - (mexps !!! i))) g2 n H2).
  reflexivity.
Qed.

Section multi_buffer.

Variable classifier_type : Type.
Variable cls_create : list R -> classifier_type.
Variable cls_resize : classifier_type -> nat -> classifier_type.
Variable cls_inner_product :
  classifier_type -> nat -> features_type -> nat -> classifier_type.
Variable cls_finalize : classifier_type -> classifier_type.
Variable cls_prob : classifier_type -> nat -> R.
Variable fgen_add_to : list R -> features_type -> nat -> R -> list R.

Lemma multi_loss_and_gradient_buffer (t : lbfgs_multi.trainer)
    (x g1 g2 : list R) (n : nat) :
  length g1 = n -> length g2 = n ->
  lbfgs_multi.loss_and_gradient classifier_type cls_create cls_resize
    cls_inner_product cls_finalize cls_prob fgen_add_to t x g1 n
  = lbfgs_multi.loss_and_gradient classifier_type cls_create cls_resize
      cls_inner_product cls_finalize cls_prob fgen_add_to t x g2 n.
Proof.
  intros H1 H2. unfold lbfgs_multi.loss_and_gradient.
  rewrite (overwrite_loop (fun i => - (lbfgs_multi.m_oexps t !!! i)) g1 n H1).
  rewrite (overwrite_loop (fun i => - (lbfgs_multi.m_oexps t !!! i)) g2 n H2).
  reflexivity.
Qed.

End multi_buffer.

(** *** The scratch arrays of [trainer_maxent] *)

Lemma lookup_total_take_eq (s1 s2 : list R) (k i : nat) :
  take k s1 = take k s2 -> (i < k)%nat -> s1 !!! i = s2 !!! i.
Proof.
  intros Ht Hi. rewrite !list_lookup_total_alt.
  rewrite <- (lookup_take_lt s1 k i Hi), <- (lookup_take_lt s2 k i Hi), Ht.
  reflexivity.
Qed.

(** The first candidate loop on two score arrays of the same length that
    agree below [i0]: the same [logp] and [norm], and arrays that agree
    below the final index. *)
Lemma score_candidates_scratch (x : list R)
    (cands : list maxent.candidate_type) :
  forall (i0 : nat) (s1 s2 : list R) (logp norm : R),
    length s1 = length s2 ->
    (i0 + length cands <= length s1)%nat ->
    take i0 s1 = take i0 s2 ->
    exists s1' s2' logp' norm',
      fold_left (maxent.score_candidate x) cands (i0, s1, logp, norm)
      = ((i0 + length cands)%nat, s1', logp', norm')
      /\ fold_left (maxent.score_candidate x) cands (i0, s2, logp, norm)
         = ((i0 + length cands)%nat, s2', logp', norm')
      /\ length s1' = length s1 /\ length s2' = length s2
      /\ take (i0 + length cands) s1' = take (i0 + length cands) s2'.
Proof.
  induction cands as [|c cands IH]; intros i0 s1 s2 logp norm Hlen Hcap Htake.
  - exists s1, s2, logp, norm. cbn. rewrite Nat.add_0_r.
    repeat split; assumption.
  - cbn [fold_left length] in *. unfold maxent.score_candidate at 2 4.
    set (v := inner_product x (maxent.c_features c)).
    assert (H1 : <[i0 := v]> s1 !!! i0 = v)
      by (apply list_lookup_total_insert_eq; lia).
    assert (H2 : <[i0 := v]> s2 !!! i0 = v)
      by (apply list_lookup_total_insert_eq; lia).
    rewrite H1, H2.
    destruct (IH (S i0) (<[i0 := v]> s1) (<[i0 := v]> s2)
                (if maxent.is_true c then v else logp)
                (maxent.logsumexp norm v (Nat.eqb i0 0)))
      as (s1' & s2' & logp' & norm' & Hf1 & Hf2 & Hl1 & Hl2 & Ht).
    + rewrite !length_insert. exact Hlen.
    + rewrite length_insert. lia.
    + apply list_eq. intros j.
      destruct (decide (j < S i0)%nat) as [Hj|Hj].
      * rewrite !lookup_take_lt by exact Hj.
        destruct (decide (j = i0)) as [->|Hne].
        -- rewrite !list_lookup_insert_eq by lia. reflexivity.
        -- rewrite !list_lookup_insert_ne by congruence.
           rewrite <- (lookup_take_lt s1 i0 j) by lia.
           rewrite <- (lookup_take_lt s2 i0 j) by lia.
           rewrite Htake. reflexivity.
      * rewrite !lookup_take_ge by lia. reflexivity.
    + exists s1', s2', logp', norm'.
      replace (i0 + S (length cands))%nat with (S i0 + length cands)%nat by lia.
      rewrite Hf1, Hf2. rewrite length_insert in Hl1, Hl2.
      repeat split; assumption.
Qed.

Lemma expect_candidates_scratch (norm : R) (s1 s2 : list R) (k : nat)
    (cands : list maxent.candidate_type) :
  take k s1 = take k s2 ->
  forall (i0 : nat) (mexps : list R),
    (i0 + length cands <= k)%nat ->
    fold_left (maxent.expect_candidate s1 norm) cands (i0, mexps)
    = fold_left (maxent.expect_candidate s2 norm) cands (i0, mexps).
Proof.
  intros Ht. induction cands as [|c cands IH]; intros i0 mexps Hk;
    [reflexivity|].
  cbn [fold_left length] in *. unfold maxent.expect_candidate at 2 4.
  rewrite (lookup_total_take_eq s1 s2 k i0 Ht) by lia.
  apply IH. lia.
Qed.

Lemma evaluate_instances_scratch (holdout : Z) (x : list R)
    (l : list maxent.instance_type) :
  forall (loss : R) (mexps s1 s2 : list R),
    length s1 = length s2 ->
    scores_capacity holdout l (length s1) ->
    exists loss' mexps' s1' s2',
      fold_left (maxent.evaluate_instance holdout x) l (loss, mexps, s1)
      = (loss', mexps', s1')
      /\ fold_left (maxent.evaluate_instance holdout x) l (loss, mexps, s2)
         = (loss', mexps', s2').
Proof.
  induction l as [|iti l IH]; intros loss mexps s1 s2 Hlen Hcap.
  - exists loss, mexps, s1, s2. split; reflexivity.
  - cbn [fold_left].
    assert (Hcap' : scores_capacity holdout l (length s1)).
    { intros i Hi. apply Hcap. apply list_elem_of_further, Hi. }
    unfold maxent.evaluate_instance at 2 4.
    destruct (decide (maxent.get_group iti = holdout)) as [Hg|Hg].
    + apply IH; assumption.
    + assert (Hfit : (length (maxent.candidates iti) <= length s1)%nat).
      { apply Hcap; [apply list_elem_of_here | exact Hg]. }
      destruct (score_candidates_scratch x (maxent.candidates iti) 0 s1 s2
                  0 0 Hlen Hfit eq_refl)
        as (s1' & s2' & logp' & norm' & -> & -> & Hl1 & Hl2 & Ht).
      cbn [Nat.add] in Ht.
      rewrite (expect_candidates_scratch norm' s1' s2' _ _ Ht 0%nat mexps)
        by (cbn; lia).
      destruct (fold_left (maxent.expect_candidate s2' norm') _ _)
        as [i' mexps'].
      apply IH; [congruence|]. rewrite Hl1. exact Hcap'.
Qed.

(** The loss and the gradient do not depend on what [m_mexps] and
    [m_scores] held before the call, when [m_mexps] has [n] cells and
    [m_scores] has room for the candidates of every training instance. *)
Lemma maxent_evaluate_scratch (t : maxent.trainer) (mexps scores : list R)
    (x g : list R) (n : nat) :
  length (maxent.m_mexps t) = n -> length mexps = n ->
  length scores = length (maxent.m_scores t) ->
  scores_capacity (maxent.m_holdout t) (instances (maxent.m_data t))
    (length (maxent.m_scores t)) ->
  snd (maxent.lbfgs_evaluate (maxent.set_scratch t mexps scores) x g n)
  = snd (maxent.lbfgs_evaluate t x g n).
Proof.
  intros Hm1 Hm2 Hs Hcap. unfold maxent.lbfgs_evaluate.
  cbn [maxent.set_scratch maxent.m_mexps maxent.m_scores maxent.m_holdout
       maxent.m_data maxent.m_oexps maxent.m_c2].
  rewrite (overwrite_loop (fun _ => 0) mexps n Hm2).
  rewrite (overwrite_loop (fun _ => 0) (maxent.m_mexps t) n Hm1).
  destruct (evaluate_instances_scratch (maxent.m_holdout t) x
              (instances (maxent.m_data t)) 0 ((fun _ => 0) <$> seq 0 n)
              scores (maxent.m_scores t) Hs)
    as (loss' & mexps' & s1' & s2' & -> & ->).
  { rewrite Hs. exact Hcap. }
  case_decide; [destruct (l2_loop _ _ _ _ _)|]; reflexivity.
Qed.

(** [train] allocates the scratch arrays with these sizes. *)
Lemma observe_instances_capacity (holdout : Z)
    (l : list maxent.instance_type) :
  forall (oexps : list R) (M : nat),
    (M <= snd (fold_left (maxent.observe_instance holdout) l (oexps, M)))%nat
    /\ scores_capacity holdout l
         (snd (fold_left (maxent.observe_instance holdout) l (oexps, M))).
Proof.
  induction l as [|iti l IH]; intros oexps M.
  - cbn. split; [lia|]. intros i Hi. apply elem_of_nil in Hi. contradiction.
  - cbn [fold_left]. unfold maxent.observe_instance at 2 4.
    destruct (decide (maxent.get_group iti = holdout)) as [Hg|Hg].
    + destruct (IH oexps M) as [Hle Hcap]. split; [exact Hle|].
      intros i Hi Hgi. apply elem_of_cons in Hi as [->|Hi];
        [contradiction | apply Hcap; assumption].
    + match goal with
      | |- context [fold_left _ l (?o, ?M')] =>
          destruct (IH o M') as [Hle Hcap];
          assert (HM : (M <= M')%nat /\ (length (maxent.candidates iti) <= M')%nat)
            by (case_decide; lia)
      end.
      split; [lia|].
      intros i Hi Hgi. apply elem_of_cons in Hi as [->|Hi];
        [lia | apply Hcap; assumption].
Qed.

Lemma train_setup_scratch (t : maxent.trainer)
    (data : data_type maxent.instance_type) (holdout clk : Z) :
  length (maxent.m_mexps (maxent.train_setup t data holdout clk))
  = num_features data
  /\ scores_capacity holdout (instances data)
       (length (maxent.m_scores (maxent.train_setup t data holdout clk))).
Proof.
  unfold maxent.train_setup.
  pose proof (observe_instances_capacity holdout (instances data)
                (replicate (num_features data) 0) 0) as [_ Hcap].
  destruct (fold_left (maxent.observe_instance holdout) (instances data) _)
    as [oexps M].
  cbn [maxent.m_mexps maxent.m_scores snd] in *.
  rewrite !length_replicate. split; [reflexivity | exact Hcap].
Qed.

(** C9: on a gradient buffer of length [n], the evaluators overwrite
    every entry before accumulating (with zero in [trainer_logress], with
    the negated observation expectations in [trainer_lbfgs_multi], with
    observation minus model expectations in [trainer_maxent]): for any two
    initial contents of the buffer they return the same loss and leave
    the same gradient.  In [trainer_maxent] the same holds of the scratch
    arrays [m_mexps] and [m_scores] when they have the sizes that [train]
    allocates. *)
Theorem C9_gradient_buffer
    (lt : logress.trainer) (mt : maxent.trainer) (ut : lbfgs_multi.trainer)
    (classifier_type : Type) (cls_create : list R -> classifier_type)
    (cls_resize : classifier_type -> nat -> classifier_type)
    (cls_inner_product :
       classifier_type -> nat -> features_type -> nat -> classifier_type)
    (cls_finalize : classifier_type -> classifier_type)
    (cls_prob : classifier_type -> nat -> R)
    (fgen_add_to : list R -> features_type -> nat -> R -> list R)
    (x g1 g2 : list R) (n : nat) :
  length g1 = n -> length g2 = n ->
  fold_left (fun g i => <[i := 0]> g) (seq 0 n) g1 = (fun _ => 0) <$> seq 0 n
  /\ fold_left (fun g i => <[i := - (lbfgs_multi.m_oexps ut !!! i)]> g)
       (seq 0 n) g1
     = (fun i => - (lbfgs_multi.m_oexps ut !!! i)) <$> seq 0 n
  /\ logress.lbfgs_evaluate lt x g1 n = logress.lbfgs_evaluate lt x g2 n
  /\ maxent.lbfgs_evaluate mt x g1 n = maxent.lbfgs_evaluate mt x g2 n
  /\ (forall mexps scores,
        length (maxent.m_mexps mt) = n -> length mexps = n ->
        length scores = length (maxent.m_scores mt) ->
        scores_capacity (maxent.m_holdout mt) (instances (maxent.m_data mt))
          (length (maxent.m_scores mt)) ->
        snd (maxent.lbfgs_evaluate (maxent.set_scratch mt mexps scores)
               x g1 n)
        = snd (maxent.lbfgs_evaluate mt x g2 n))
  /\ lbfgs_multi.loss_and_gradient classifier_type cls_create cls_resize
       cls_inner_product cls_finalize cls_prob fgen_add_to ut x g1 n
     = lbfgs_multi.loss_and_gradient classifier_type cls_create cls_resize
         cls_inner_product cls_finalize cls_prob fgen_add_to ut x g2 n.
Proof.
  intros H1 H2.
  split; [apply (overwrite_loop (fun _ => 0)), H1|].
  split; [apply (overwrite_loop (fun i => - (lbfgs_multi.m_oexps ut !!! i))),
          H1|].
  split; [apply logress_evaluate_buffer; assumption|].
  split; [apply maxent_evaluate_buffer; assumption|].
  split; [|apply multi_loss_and_gradient_buffer; assumption].
  intros mexps scores Hm1 Hm2 Hs Hcap.
  rewrite (maxent_evaluate_scratch mt mexps scores x g1 n Hm1 Hm2 Hs Hcap).
  rewrite (maxent_evaluate_buffer mt x g1 g2 n H1 H2). reflexivity.
Qed.

Lemma C9_gradient_buffer_witness :
  logress.lbfgs_evaluate c5_logress_trainer [0; 0] [1; 2] 2
  = logress.lbfgs_evaluate c5_logress_trainer [0; 0] [3; 4] 2
  /\ maxent.lbfgs_evaluate c5_maxent_trainer [0; 0] [1; 2] 2
     = maxent.lbfgs_evaluate c5_maxent_trainer [0; 0] [3; 4] 2.
Proof.
  destruct (C9_gradient_buffer c5_logress_trainer c5_maxent_trainer
              c9_multi_trainer unit (fun _ => tt) (fun c _ => c)
              (fun c _ _ _ => c) (fun c => c) (fun _ _ => 1 / 2)
              (fun g _ _ _ => g) [0; 0] [1; 2] [3; 4] 2%nat eq_refl eq_refl)
    as (_ & _ & H3 & H4 & _ & _).
  split; [exact H3 | exact H4].
Defined.

(** ** C7: the return value of the progress callbacks *)

Lemma logress_progress_returns_0 (t : logress.trainer) (clk : Z)
    (x g : list R) (fx xnorm gnorm step : R) (n : nat) (k ls : Z) :
  snd (logress.lbfgs_progress t clk x g fx xnorm gnorm step n k ls) = 0%Z.
Proof. reflexivity. Qed.

Lemma maxent_progress_signal (t : maxent.trainer) (clk : Z)
    (x g : list R) (fx xnorm gnorm step : R) (n : nat) (k ls : Z)
    (t' : maxent.trainer) (os : list log_item) (r : Z) :
  maxent.lbfgs_progress t clk x g fx xnorm gnorm step n k ls
  = Some (t', os, r) ->
  r = (if decide (maxent.m_maxiter t < k)%Z then 1%Z else 0%Z).
Proof.
  unfold maxent.lbfgs_progress. cbn [maxent.m_holdout maxent.m_maxiter].
  destruct (if decide (maxent.m_holdout t <> (-1)%Z) then _ else _)
    as [os'|]; [|discriminate].
  case_decide; intros Hr; injection Hr as _ _ <-; reflexivity.
Qed.

Lemma maxent_progress_returns (t : maxent.trainer) (clk : Z)
    (x g : list R) (fx xnorm gnorm step : R) (n : nat) (k ls : Z) :
  maxent.m_holdout t = (-1)%Z \/ holdout_scores_valid t ->
  exists t' os r,
    maxent.lbfgs_progress t clk x g fx xnorm gnorm step n k ls
    = Some (t', os, r).
Proof.
  intros Hok. unfold maxent.lbfgs_progress. cbn [maxent.m_holdout maxent.m_maxiter].
  destruct (decide (maxent.m_holdout t <> (-1)%Z)) as [Hh|Hh].
  - destruct Hok as [Hno|Hvalid]; [contradiction|].
    unfold maxent.holdout_evaluation.
    set (t1 := maxent.mk_trainer _ _ _ _ _ _ _ _ _ _ clk).
    assert (Hv1 : holdout_scores_valid t1) by exact Hvalid.
    destruct (maxent_holdout_total t1 Hv1) as (nc & ->).
    case_decide; eexists _, _, _; reflexivity.
  - case_decide; eexists _, _, _; reflexivity.
Qed.

Lemma stop_signal_spec_maxent (maxiter k : Z) :
  stop_signal_spec maxiter k (if decide (maxiter < k)%Z then 1%Z else 0%Z).
Proof.
  unfold stop_signal_spec. case_decide; split; intros; try lia; tauto.
Qed.

(** C7 (the claim fails): [trainer_logress::lbfgs_progress] returns 0 at
    iteration 6 of a trainer whose maximum is 5. *)
Lemma C7_progress_counterexample :
  ~ stop_signal_spec (logress.m_lbfgs_maxiter c7_logress_trainer) 6
      (snd (logress.lbfgs_progress c7_logress_trainer 0%Z [0] [0] 0 0 0 0
              1%nat 6%Z 1%Z)).
Proof.
  rewrite logress_progress_returns_0. unfold stop_signal_spec.
  intros [H _]. apply H; [cbn; lia | reflexivity].
Qed.

(** C7 (amended): [trainer_maxent::lbfgs_progress] returns 1 when the
    iteration count exceeds [m_maxiter] and 0 otherwise (and it does
    return when there is no holdout group, or the holdout evaluation it
    runs is defined).  [trainer_logress::lbfgs_progress] always returns 0:
    that trainer passes its maximum to the solver instead. *)
Theorem C7_progress (mt : maxent.trainer) (lt : logress.trainer) (clk : Z)
    (x g : list R) (fx xnorm gnorm step : R) (n : nat) (k ls : Z) :
  (maxent.m_holdout mt = (-1)%Z \/ holdout_scores_valid mt ->
   exists t' os r,
     maxent.lbfgs_progress mt clk x g fx xnorm gnorm step n k ls
     = Some (t', os, r)
     /\ r = (if decide (maxent.m_maxiter mt < k)%Z then 1%Z else 0%Z)
     /\ stop_signal_spec (maxent.m_maxiter mt) k r)
  /\ snd (logress.lbfgs_progress lt clk x g fx xnorm gnorm step n k ls) = 0%Z
  /\ fst (fst (logress.solver_arguments lt)) = logress.m_lbfgs_maxiter lt.
Proof.
  split; [|split; reflexivity].
  intros Hok.
  destruct (maxent_progress_returns mt clk x g fx xnorm gnorm step n k ls Hok)
    as (t' & os & r & H).
  exists t', os, r. split; [exact H|].
  apply maxent_progress_signal in H. subst r.
  split; [reflexivity | apply stop_signal_spec_maxent].
Qed.

Lemma C7_progress_witness :
  exists t' os,
    maxent.lbfgs_progress c7_maxent_trainer 0%Z [0] [0] 0 0 0 0 1%nat 6%Z 1%Z
    = Some (t', os, 1%Z).
Proof.
  destruct (C7_progress c7_maxent_trainer c7_logress_trainer 0%Z [0] [0]
              0 0 0 0 1%nat 6%Z 1%Z) as [H _].
  destruct (H (or_introl eq_refl)) as (t' & os & r & Hp & Hr & _).
  exists t', os. rewrite Hp, Hr. reflexivity.
Defined.

(** ** C6: what the holdout evaluations report *)

(** The score that [lbfgs_evaluate] accumulates feature by feature is the
    inner product used by [holdout_evaluation]. *)
Lemma logress_score_inner_product (x : list R) (fs : features_type) :
  fold_left (fun m_score '(k, v) =>
               linear_binary_instance.accumulate x m_score k v) fs 0
  = inner_product x fs.
Proof. reflexivity. Qed.

(** The predicted label of the binary holdout evaluation is 1 exactly
    when the score is positive: a score of 0 gives label 0. *)
Lemma logress_holdout_sign (holdout : Z) (w : list R) (fa : bool)
    (m : confusion_matrix.t) (os : list log_item)
    (iti : logress.instance_type) :
  logress.get_group iti = holdout ->
  fst (logress.holdout_instance holdout w fa (m, os) iti)
  = confusion_matrix.incr m
      (if logress.get_truth iti then 1%nat else 0%nat)
      (if decide (0 < inner_product w (logress.features iti))
       then 1%nat else 0%nat).
Proof.
  intros Hg. unfold logress.holdout_instance.
  rewrite decide_False by (intros H; apply H; exact Hg). cbn [fst].
  f_equal. repeat case_decide; try reflexivity; lra.
Qed.

(** Whatever the data, the maxent holdout evaluation writes one accuracy
    line and nothing else. *)
Lemma maxent_holdout_accuracy_only (t : maxent.trainer) (os : list log_item) :
  maxent.holdout_evaluation t = Some os ->
  exists accuracy num_correct num_total,
    os = [LogAccuracy accuracy num_correct num_total].
Proof.
  unfold maxent.holdout_evaluation.
  destruct (maxent.holdout_counts t) as [[nc nt]|]; [|discriminate].
  intros H. injection H as <-. eexists _, _, _. reflexivity.
Qed.

Lemma c5_maxent_holdout_counts :
  maxent.holdout_counts c5_maxent_trainer = Some (1%nat, 1%nat).
Proof.
  pose proof DBL_MAX_pos as Hpos.
  unfold maxent.holdout_counts, c5_maxent_trainer, c5_maxent_held.
  cbn [maxent.m_data maxent.m_holdout maxent.m_weights instances fold_left].
  unfold maxent.holdout_instance.
  cbn [maxent.get_group maxent.candidates].
  rewrite decide_False by (intros H; apply H; reflexivity).
  unfold maxent.find_max. cbn [fold_left length].
  unfold maxent.max_candidate, inner_product. cbn.
  case_decide; [|lra]. case_decide; [lra|]. reflexivity.
Qed.

(** C6 (the code on a holdout instance): the maxent holdout evaluation of
    a trainer with one holdout instance writes the accuracy line alone:
    no matrix over (true, predicted) labels is tallied and no precision,
    recall or F1 is reported, where the binary holdout evaluation writes
    the accuracy and the micro-averaged line from its matrix. *)
Theorem C6_maxent_holdout_report :
  maxent.holdout_evaluation c5_maxent_trainer = Some [LogAccuracy 1 1 1]
  /\ (forall t os,
        maxent.holdout_evaluation t = Some os ->
        exists accuracy num_correct num_total,
          os = [LogAccuracy accuracy num_correct num_total])
  /\ logress.holdout_evaluation c6_logress_trainer false
     = [LogAccuracy 1 1 1; LogMicro 1 1 1].
Proof.
  split; [|split; [apply maxent_holdout_accuracy_only|]].
  - unfold maxent.holdout_evaluation. rewrite c5_maxent_holdout_counts.
    rewrite decide_True by lia. do 3 f_equal. cbn. lra.
  - unfold logress.holdout_evaluation, logress.holdout_matrix,
      c6_logress_trainer.
    cbn [logress.m_data logress.m_holdout logress.m_weights instances
         fold_left].
    unfold logress.holdout_instance. cbn [logress.get_group].
    rewrite decide_False by (intros H; apply H; reflexivity).
    unfold inner_product. cbn.
    rewrite decide_False by lra.
    unfold confusion_matrix.output_accuracy, confusion_matrix.output_micro,
      confusion_matrix.num_correct, confusion_matrix.num_total. cbn.
    f_equal; [|f_equal]; f_equal; lra.
Qed.

(** ** C8: the line readers *)

Lemma is_empty_spec (s : string) : is_empty s = true <-> s = ""%string.
Proof. unfold is_empty. apply String.eqb_eq. Qed.

(** *** The dictionary *)

Lemma quark_find_from_lookup (q : quark.t) (name : string) :
  forall i j, quark.find_from q name i = Some j ->
    (i <= j)%nat /\ q !! (j - i)%nat = Some name.
Proof.
  induction q as [|s q IH]; intros i j H; [discriminate|].
  cbn in H. destruct (String.eqb_spec s name) as [->|Hne].
  - injection H as <-. split; [lia|]. rewrite Nat.sub_diag. reflexivity.
  - apply IH in H as [Hle Hl]. split; [lia|].
    replace (j - i)%nat with (S (j - S i)) by lia. exact Hl.
Qed.

(** Interning extends the dictionary at its end and returns an
    identifier of the name. *)
Lemma quark_intern_spec (q : quark.t) (name : string) :
  q `prefix_of` snd (quark.intern q name)
  /\ quark.to_item (snd (quark.intern q name)) (fst (quark.intern q name))
     = Some name.
Proof.
  unfold quark.intern, quark.to_item.
  destruct (quark.find_from q name 0) as [j|] eqn:Hf; cbn [fst snd].
  - split; [reflexivity|].
    apply quark_find_from_lookup in Hf as [_ Hl].
    rewrite Nat.sub_0_r in Hl. exact Hl.
  - split; [apply prefix_app_r; reflexivity|].
    rewrite lookup_app_r by lia. rewrite Nat.sub_diag. reflexivity.
Qed.

Lemma quark_to_item_prefix (q q' : quark.t) (id : nat) (name : string) :
  q `prefix_of` q' ->
  quark.to_item q id = Some name -> quark.to_item q' id = Some name.
Proof.
  unfold quark.to_item. intros Hp Hl. eapply prefix_lookup_Some; eassumption.
Qed.

Lemma parsed_fields_cons (get_name_value : string -> string * R)
    (f : string) (fields : list string) :
  parsed_fields get_name_value (f :: fields)
  = if negb (is_empty f)
    then (Some (fst (get_name_value f)), snd (get_name_value f))
           :: parsed_fields get_name_value fields
    else parsed_fields get_name_value fields.
Proof.
  unfold parsed_fields. cbn [List.filter].
  destruct (negb (is_empty f)); reflexivity.
Qed.

(** *** frontend/train/multi.cpp *)

(** The field loop never throws; it extends the feature dictionary and
    returns the features of the non-empty fields in input order. *)
Lemma multi_read_features_spec (get_name_value : string -> string * R)
    (fields : list string) :
  forall (acc : features_type) (s : train_multi.state),
  exists fs s',
    train_multi.read_features get_name_value fields acc s
    = (Return (acc ++ fs), s')
    /\ train_multi.instance s' = train_multi.instance s
    /\ train_multi.labels s' = train_multi.labels s
    /\ train_multi.features s `prefix_of` train_multi.features s'
    /\ decode (train_multi.features s') fs
       = parsed_fields get_name_value fields.
Proof.
  induction fields as [|f rest IH]; intros acc s.
  - exists [], s. cbn. rewrite app_nil_r. repeat split; reflexivity.
  - rewrite parsed_fields_cons. cbn [train_multi.read_features].
    destruct (negb (is_empty f)).
    + destruct (get_name_value f) as [name value] eqn:Hnv. cbn [fst snd].
      unfold bind, train_multi.intern_feature.
      pose proof (quark_intern_spec (train_multi.features s) name)
        as [Hpre Hitem].
      destruct (quark.intern (train_multi.features s) name) as [id q1].
      cbn [fst snd] in Hpre, Hitem.
      destruct (IH (acc ++ [(id, value)])
                  (train_multi.mk_state (train_multi.instance s) q1
                     (train_multi.labels s)))
        as (fs & s' & Hrun & Hinst & Hlab & Hpre' & Hdec).
      cbn [train_multi.instance train_multi.labels train_multi.features]
        in Hinst, Hlab, Hpre'.
      exists ((id, value) :: fs), s'. rewrite Hrun.
      split; [rewrite <- app_assoc; reflexivity|].
      split; [exact Hinst|]. split; [exact Hlab|].
      split; [etransitivity; eassumption|].
      unfold decode. cbn [map fst snd]. f_equal; [|exact Hdec].
      f_equal. eapply quark_to_item_prefix; eassumption.
    + apply IH.
Qed.

(** What [read_line] of the multi-candidate dialect does on each shape
    of line. *)
Lemma multi_read_line_cases (tokenizer : string -> ascii -> list string)
    (get_name_value : string -> string * R) (line : string) (lines : Z)
    (s : train_multi.state) :
  match tokenizer line TAB with
  | [] =>
      train_multi.read_line tokenizer get_name_value line lines s
      = (Throw (mk_invalid_data "no field found in the line" lines), s)
  | itv :: rest =>
      if is_empty itv then
        train_multi.read_line tokenizer get_name_value line lines s
        = (Throw (mk_invalid_data "an empty label found" lines), s)
      else if (begins_with itv "T" || begins_with itv "F")%bool then
        exists s' c,
          train_multi.read_line tokenizer get_name_value line lines s
          = (Return tt, s')
          /\ train_multi.instance s' = train_multi.instance s ++ [c]
          /\ maxent.is_true c = begins_with itv "T"
          /\ quark.to_item (train_multi.labels s') (maxent.get_label c)
             = Some itv
          /\ decode (train_multi.features s') (maxent.c_features c)
             = parsed_fields get_name_value rest
      else
        train_multi.read_line tokenizer get_name_value line lines s
        = (Throw (mk_invalid_data
                    "a class label must begins with either 'T' or 'F'" lines),
           s)
  end.
Proof.
  unfold train_multi.read_line.
  destruct (tokenizer line TAB) as [|itv rest]; [reflexivity|].
  destruct (is_empty itv); [reflexivity|].
  assert (Hok : forall truth : bool,
    exists s' c,
      bind (train_multi.intern_label itv)
        (fun lid =>
           bind (train_multi.read_features get_name_value rest [])
             (fun fs =>
                train_multi.append_candidate
                  (maxent.mk_candidate fs truth lid))) s
      = (Return tt, s')
      /\ train_multi.instance s' = train_multi.instance s ++ [c]
      /\ maxent.is_true c = truth
      /\ quark.to_item (train_multi.labels s') (maxent.get_label c) = Some itv
      /\ decode (train_multi.features s') (maxent.c_features c)
         = parsed_fields get_name_value rest).
  { intros truth. unfold bind at 1. unfold train_multi.intern_label.
    pose proof (quark_intern_spec (train_multi.labels s) itv) as [_ Hitem].
    destruct (quark.intern (train_multi.labels s) itv) as [lid q1].
    cbn [fst snd] in Hitem. unfold bind.
    destruct (multi_read_features_spec get_name_value rest []
                (train_multi.mk_state (train_multi.instance s)
                   (train_multi.features s) q1))
      as (fs & s1 & Hrun & Hinst & Hlab & _ & Hdec).
    cbn [train_multi.instance train_multi.labels] in Hinst, Hlab.
    rewrite Hrun. cbn [app]. unfold train_multi.append_candidate.
    eexists _, _. split; [reflexivity|].
    cbn [train_multi.instance train_multi.labels train_multi.features
         maxent.is_true maxent.get_label maxent.c_features].
    rewrite Hinst, Hlab. repeat split; assumption. }
  destruct (begins_with itv "T") eqn:HT; cbn [orb].
  - unfold bind at 1. unfold ret at 1. apply Hok.
  - destruct (begins_with itv "F") eqn:HF.
    + unfold bind at 1. unfold ret at 1. apply Hok.
    + reflexivity.
Qed.

(** *** frontend/train/attribute.cpp *)

Lemma attribute_read_attributes_spec (get_name_value : string -> string * R)
    (fields : list string) :
  forall s : train_attribute.state,
  exists fs s',
    train_attribute.read_attributes get_name_value fields s = (Return tt, s')
    /\ train_attribute.get_label (train_attribute.instance s')
       = train_attribute.get_label (train_attribute.instance s)
    /\ train_attribute.attributes (train_attribute.instance s')
       = train_attribute.attributes (train_attribute.instance s) ++ fs
    /\ train_attribute.labels s' = train_attribute.labels s
    /\ train_attribute.attrs s `prefix_of` train_attribute.attrs s'
    /\ decode (train_attribute.attrs s') fs
       = parsed_fields get_name_value fields.
Proof.
  induction fields as [|f rest IH]; intros s.
  - exists [], s. cbn. rewrite app_nil_r. repeat split; reflexivity.
  - rewrite parsed_fields_cons. cbn [train_attribute.read_attributes].
    destruct (negb (is_empty f)).
    + destruct (get_name_value f) as [name value] eqn:Hnv. cbn [fst snd].
      unfold bind, train_attribute.append_attribute.
      pose proof (quark_intern_spec (train_attribute.attrs s) name)
        as [Hpre Hitem].
      destruct (quark.intern (train_attribute.attrs s) name) as [id q1].
      cbn [fst snd] in Hpre, Hitem.
      match goal with
      | |- context [train_attribute.read_attributes _ rest ?s1] =>
          destruct (IH s1)
            as (fs & s' & Hrun & Hlabel & Hattr & Hlab & Hpre' & Hdec)
      end.
      cbn [train_attribute.instance train_attribute.labels
           train_attribute.attrs train_attribute.get_label
           train_attribute.attributes] in Hlabel, Hattr, Hlab, Hpre'.
      exists ((id, value) :: fs), s'. rewrite Hrun.
      split; [reflexivity|]. split; [exact Hlabel|].
      split; [rewrite Hattr, <- app_assoc; reflexivity|].
      split; [exact Hlab|].
      split; [etransitivity; eassumption|].
      unfold decode. cbn [map fst snd]. f_equal; [|exact Hdec].
      f_equal. eapply quark_to_item_prefix; eassumption.
    + apply IH.
Qed.

(** What [read_line] of the attribute dialect does on each shape of
    line. *)
Lemma attribute_read_line_cases (tokenizer : string -> ascii -> list string)
    (get_name_value : string -> string * R) (line : string) (lines : Z)
    (s : train_attribute.state) :
  match tokenizer line TAB with
  | [] =>
      train_attribute.read_line tokenizer get_name_value line lines s
      = (Throw (mk_invalid_data "no field found in the line" lines), s)
  | itv :: rest =>
      if is_empty itv then
        train_attribute.read_line tokenizer get_name_value line lines s
        = (Throw (mk_invalid_data "an empty label found" lines), s)
      else
        exists s' lid fs,
          train_attribute.read_line tokenizer get_name_value line lines s
          = (Return tt, s')
          /\ train_attribute.get_label (train_attribute.instance s')
             = Some lid
          /\ quark.to_item (train_attribute.labels s') lid = Some itv
          /\ train_attribute.attributes (train_attribute.instance s')
             = train_attribute.attributes (train_attribute.instance s) ++ fs
          /\ decode (train_attribute.attrs s') fs
             = parsed_fields get_name_value rest
  end.
Proof.
  unfold train_attribute.read_line.
  destruct (tokenizer line TAB) as [|itv rest]; [reflexivity|].
  destruct (is_empty itv); [reflexivity|].
  unfold bind at 1. unfold train_attribute.set_label.
  pose proof (quark_intern_spec (train_attribute.labels s) itv) as [_ Hitem].
  destruct (quark.intern (train_attribute.labels s) itv) as [lid q1].
  cbn [fst snd] in Hitem.
  match goal with
  | |- context [train_attribute.read_attributes _ rest ?s1] =>
      destruct (attribute_read_attributes_spec get_name_value rest s1)
        as (fs & s' & Hrun & Hlabel & Hattr & Hlab & _ & Hdec)
  end.
  cbn [train_attribute.instance train_attribute.labels
       train_attribute.get_label train_attribute.attributes]
    in Hlabel, Hattr, Hlab.
  exists s', lid, fs. rewrite Hrun.
  split; [reflexivity|]. split; [exact Hlabel|].
  split; [rewrite Hlab; exact Hitem|]. split; [exact Hattr | exact Hdec].
Qed.

(** What [read_line] does in both dialects: it throws [invalid_data]
    exactly when the line has no tab-separated field, or its first field
    is empty, or, in the multi-candidate dialect, the first field begins
    neither with 'T' nor with 'F'; when it throws it has changed neither
    the instance it was given nor the dictionaries.  On every other line
    it returns, having recorded the truth flag (multi-candidate dialect),
    an identifier of the label and the (name, value) pairs of the
    non-empty fields in input order. *)
Lemma read_line_outcomes (tokenizer : string -> ascii -> list string)
    (get_name_value : string -> string * R) (line : string) (lines : Z)
    (s : train_multi.state) (a : train_attribute.state) :
  let fields := tokenizer line TAB in
  let rm := train_multi.read_line tokenizer get_name_value line lines s in
  let ra := train_attribute.read_line tokenizer get_name_value line lines a in
  (is_throw (fst rm) <->
   fields = [] \/ (exists rest, fields = ""%string :: rest)
   \/ (exists itv rest, fields = itv :: rest /\ bad_class itv))
  /\ (is_throw (fst ra) <->
      fields = [] \/ (exists rest, fields = ""%string :: rest))
  /\ (is_throw (fst rm) -> snd rm = s)
  /\ (is_throw (fst ra) -> snd ra = a)
  /\ (forall itv rest,
        fields = itv :: rest -> itv <> ""%string -> ~ bad_class itv ->
        exists c,
          fst rm = Return tt
          /\ train_multi.instance (snd rm) = train_multi.instance s ++ [c]
          /\ maxent.is_true c = begins_with itv "T"
          /\ quark.to_item (train_multi.labels (snd rm)) (maxent.get_label c)
             = Some itv
          /\ decode (train_multi.features (snd rm)) (maxent.c_features c)
             = parsed_fields get_name_value rest)
  /\ (forall itv rest,
        fields = itv :: rest -> itv <> ""%string ->
        exists lid fs,
          fst ra = Return tt
          /\ train_attribute.get_label (train_attribute.instance (snd ra))
             = Some lid
          /\ quark.to_item (train_attribute.labels (snd ra)) lid = Some itv
          /\ train_attribute.attributes (train_attribute.instance (snd ra))
             = train_attribute.attributes (train_attribute.instance a) ++ fs
          /\ decode (train_attribute.attrs (snd ra)) fs
             = parsed_fields get_name_value rest).
Proof.
  intros fields rm ra.
  pose proof (multi_read_line_cases tokenizer get_name_value line lines s)
    as Hm.
  pose proof (attribute_read_line_cases tokenizer get_name_value line lines a)
    as Ha.
  fold fields in Hm, Ha. fold rm in Hm. fold ra in Ha.
  unfold bad_class.
  destruct fields as [|itv rest].
  { rewrite Hm, Ha. cbn. repeat split; auto; intros; discriminate. }
  destruct (is_empty itv) eqn:He.
  { apply is_empty_spec in He. subst itv. rewrite Hm, Ha. cbn.
    repeat split; eauto; intros; congruence. }
  assert (Hne : itv <> ""%string).
  { intros ->. cbn in He. discriminate. }
  destruct Ha as (a' & lid & fs & Hra & Ha1 & Ha2 & Ha3 & Ha4).
  assert (Hattr :
    (is_throw (fst ra) <->
     itv :: rest = [] \/ (exists rest0, itv :: rest = ""%string :: rest0))
    /\ (is_throw (fst ra) -> snd ra = a)
    /\ (forall itv0 rest0,
          itv :: rest = itv0 :: rest0 -> itv0 <> ""%string ->
          exists lid fs,
            fst ra = Return tt
            /\ train_attribute.get_label (train_attribute.instance (snd ra))
               = Some lid
            /\ quark.to_item (train_attribute.labels (snd ra)) lid = Some itv0
            /\ train_attribute.attributes
                 (train_attribute.instance (snd ra))
               = train_attribute.attributes (train_attribute.instance a) ++ fs
            /\ decode (train_attribute.attrs (snd ra)) fs
               = parsed_fields get_name_value rest0)).
  { rewrite Hra. cbn [fst snd is_throw]. split; [|split].
    - split; [contradiction|]. intros [H|[r H]]; congruence.
    - contradiction.
    - intros itv0 rest0 H _. injection H as <- <-. exists lid, fs.
      repeat split; assumption. }
  destruct Hattr as (Hattr1 & Hattr2 & Hattr3).
  destruct (begins_with itv "T" || begins_with itv "F")%bool eqn:Hb.
  - destruct Hm as (s' & c & Hrm & Hm1 & Hm2 & Hm3 & Hm4).
    rewrite Hrm. cbn [fst snd is_throw].
    split; [|split; [exact Hattr1|split; [contradiction|split;
      [exact Hattr2|split; [|exact Hattr3]]]]].
    + split; [contradiction|].
      intros [H|[[r H]|(i & r & H & HT & HF)]]; try congruence.
      injection H as <- <-. rewrite HT, HF in Hb. discriminate.
    + intros itv0 rest0 H _ _. injection H as <- <-. exists c.
      repeat split; assumption.
  - apply orb_false_elim in Hb as [HT HF]. rewrite Hm.
    cbn [fst snd is_throw].
    split; [|split; [exact Hattr1|split; [reflexivity|split;
      [exact Hattr2|split; [|exact Hattr3]]]]].
    + split; [|trivial]. intros _. right. right. exists itv, rest.
      repeat split; assumption.
    + intros itv0 rest0 H _ Hbad. injection H as <- <-.
      exfalso. apply Hbad. split; assumption.
Qed.

(** *** The line readers as [read_stream] calls them *)

(** In the attribute dialect [read_stream] calls
    [read_line(line, data.new_element(), ...)]: on a line without a label
    the exception leaves the data with the new, still empty instance at
    their back, and the dictionaries as they were. *)
Lemma attribute_read_new_line_bad (tokenizer : string -> ascii -> list string)
    (get_name_value : string -> string * R) (line : string) (lines : Z)
    (d : train_attribute_data.data) :
  has_label tokenizer line = false ->
  exists e,
    train_attribute_data.read_new_line tokenizer get_name_value line lines d
    = (Throw e,
       train_attribute_data.mk_data
         (train_attribute_data.instances d
          ++ [train_attribute_data.new_instance])
         (train_attribute_data.features d) (train_attribute_data.labels d))
    /\ lineno e = lines.
Proof.
  unfold has_label, train_attribute_data.read_new_line,
    train_attribute.read_line.
  destruct (tokenizer line TAB) as [|itv rest] eqn:Ht.
  - intros _. eexists. split; reflexivity.
  - destruct (is_empty itv); [|discriminate].
    intros _. eexists. split; reflexivity.
Qed.

Lemma attribute_load_line_throws (tokenizer : string -> ascii -> list string)
    (get_name_value : string -> string * R) (line : string) (lines : Z)
    (d : train_attribute_data.data) :
  tokenizer line TAB = []
  \/ (exists rest, tokenizer line TAB = ""%string :: rest) ->
  exists e,
    train_attribute_data.read_new_line tokenizer get_name_value line lines d
    = (Throw e,
       train_attribute_data.mk_data
         (train_attribute_data.instances d
          ++ [train_attribute_data.new_instance])
         (train_attribute_data.features d) (train_attribute_data.labels d))
    /\ lineno e = lines.
Proof.
  intros H. apply attribute_read_new_line_bad. unfold has_label.
  destruct H as [->|[rest ->]]; reflexivity.
Qed.

(** In the multi-candidate dialect [read_stream] calls
    [read_line(line, data.back(), ...)]: the candidate is created after
    the checks of [read_line], so that at the exception the data are as
    they were before the line. *)
Lemma multi_load_line_throws (tokenizer : string -> ascii -> list string)
    (get_name_value : string -> string * R) (line : string) (lines : Z)
    (d : train_multi_data.data) :
  train_multi_data.instances d <> [] ->
  tokenizer line TAB = []
  \/ (exists rest, tokenizer line TAB = ""%string :: rest)
  \/ (exists itv rest, tokenizer line TAB = itv :: rest /\ bad_class itv) ->
  exists e,
    train_multi_data.read_back_line tokenizer get_name_value line lines d
    = Raised e d
    /\ lineno e = lines.
Proof.
  intros Hne Hbad. unfold train_multi_data.read_back_line.
  destruct (last (train_multi_data.instances d)) as [inst|] eqn:Hlast.
  2:{ apply last_None in Hlast. contradiction. }
  pose proof (multi_read_line_cases tokenizer get_name_value line lines
                (train_multi.mk_state (maxent.candidates inst)
                   (train_multi_data.features d)
                   (train_multi_data.labels d))) as Hc.
  assert (Hsame :
    train_multi_data.mk_data
      (<[Nat.pred (length (train_multi_data.instances d)) :=
           maxent.mk_instance (maxent.candidates inst)
             (maxent.get_group inst)]> (train_multi_data.instances d))
      (train_multi_data.features d) (train_multi_data.labels d)
      (train_multi_data.user_feature_start d)
      (train_multi_data.positive_labels d) = d).
  { rewrite last_lookup in Hlast. destruct inst as [cs grp].
    cbn [maxent.candidates maxent.get_group].
    rewrite list_insert_id by exact Hlast. destruct d. reflexivity. }
  assert (Hthrow : forall msg,
    train_multi.read_line tokenizer get_name_value line lines
      (train_multi.mk_state (maxent.candidates inst)
         (train_multi_data.features d) (train_multi_data.labels d))
    = (Throw (mk_invalid_data msg lines),
       train_multi.mk_state (maxent.candidates inst)
         (train_multi_data.features d) (train_multi_data.labels d)) ->
    exists e,
      (let '(r, s) :=
         train_multi.read_line tokenizer get_name_value line lines
           (train_multi.mk_state (maxent.candidates inst)
              (train_multi_data.features d) (train_multi_data.labels d)) in
       let d' :=
         train_multi_data.mk_data
           (<[Nat.pred (length (train_multi_data.instances d)) :=
                maxent.mk_instance (train_multi.instance s)
                  (maxent.get_group inst)]> (train_multi_data.instances d))
           (train_multi.features s) (train_multi.labels s)
           (train_multi_data.user_feature_start d)
           (train_multi_data.positive_labels d) in
       match r with
       | Return _ => Done d'
       | Throw e => Raised e d'
       end) = Raised e d
      /\ lineno e = lines).
  { intros msg ->.
    cbn [train_multi.instance train_multi.features train_multi.labels].
    rewrite Hsame. eexists. split; reflexivity. }
  destruct (tokenizer line TAB) as [|itv rest].
  { eapply Hthrow. exact Hc. }
  destruct Hbad as [H|[[r H]|(i & r & H & HT & HF)]]; [discriminate| |].
  - injection H as -> _. cbn [is_empty String.eqb] in Hc.
    eapply Hthrow. exact Hc.
  - injection H as <- <-.
    destruct (is_empty itv); [eapply Hthrow; exact Hc|].
    rewrite HT, HF in Hc. cbn [orb] in Hc. eapply Hthrow. exact Hc.
Qed.

(** C8 (the claim fails): in the attribute dialect the load of a stream
    whose only line has an empty label aborts at line 1 with an instance
    appended from that line: [read_stream] has created it with
    [data.new_element()] before [read_line] finds the empty label. *)
Lemma C8_read_line_counterexample :
  train_attribute_data.read_stream example_tokenizer example_name_value
    (String TAB ("f" ++ String NL "")) 0%Z
    (train_attribute_data.mk_data [] [] [])
  = Raised (mk_invalid_data "an empty label found" 1%Z)
      (train_attribute_data.mk_data [train_attribute_data.new_instance]
         [] [])
  /\ ~ no_instance_appended
         (train_attribute_data.instances
            (train_attribute_data.mk_data [] [] []))
         (train_attribute_data.instances
            (train_attribute_data.mk_data
               [train_attribute_data.new_instance] [] [])).
Proof.
  split; [reflexivity|].
  unfold no_instance_appended. cbn. discriminate.
Qed.

(** C8 (amended): [read_line] throws [invalid_data] exactly when the line
    has no tab-separated field, or its first field is empty, or, in the
    multi-candidate dialect, the first field begins neither with 'T' nor
    with 'F'; when it throws it has changed neither the instance it was
    given nor the dictionaries.  On every other line it returns, having
    recorded the truth flag (multi-candidate dialect), an identifier of
    the label and the (name, value) pairs of the non-empty fields in input
    order.  As [read_stream] calls it, the exception carries the number of
    the line and leaves, in the multi-candidate dialect, the data as they
    were before the line (no candidate is appended), and in the attribute
    dialect the data with one more instance, the empty one that
    [data.new_element()] created for the line, and the dictionaries as
    they were. *)
Theorem C8_read_line (tokenizer : string -> ascii -> list string)
    (get_name_value : string -> string * R) (line : string) (lines : Z)
    (s : train_multi.state) (a : train_attribute.state) :
  let fields := tokenizer line TAB in
  let rm := train_multi.read_line tokenizer get_name_value line lines s in
  let ra := train_attribute.read_line tokenizer get_name_value line lines a in
  (is_throw (fst rm) <->
   fields = [] \/ (exists rest, fields = ""%string :: rest)
   \/ (exists itv rest, fields = itv :: rest /\ bad_class itv))
  /\ (is_throw (fst ra) <->
      fields = [] \/ (exists rest, fields = ""%string :: rest))
  /\ (is_throw (fst rm) -> snd rm = s)
  /\ (is_throw (fst ra) -> snd ra = a)
  /\ (forall itv rest,
        fields = itv :: rest -> itv <> ""%string -> ~ bad_class itv ->
        exists c,
          fst rm = Return tt
          /\ train_multi.instance (snd rm) = train_multi.instance s ++ [c]
          /\ maxent.is_true c = begins_with itv "T"
          /\ quark.to_item (train_multi.labels (snd rm)) (maxent.get_label c)
             = Some itv
          /\ decode (train_multi.features (snd rm)) (maxent.c_features c)
             = parsed_fields get_name_value rest)
  /\ (forall itv rest,
        fields = itv :: rest -> itv <> ""%string ->
        exists lid fs,
          fst ra = Return tt
          /\ train_attribute.get_label (train_attribute.instance (snd ra))
             = Some lid
          /\ quark.to_item (train_attribute.labels (snd ra)) lid = Some itv
          /\ train_attribute.attributes (train_attribute.instance (snd ra))
             = train_attribute.attributes (train_attribute.instance a) ++ fs
          /\ decode (train_attribute.attrs (snd ra)) fs
             = parsed_fields get_name_value rest)
  /\ (forall d : train_multi_data.data,
        train_multi_data.instances d <> [] ->
        is_throw (fst rm) ->
        exists e,
          train_multi_data.read_back_line tokenizer get_name_value line lines
            d = Raised e d
          /\ lineno e = lines)
  /\ (forall d : train_attribute_data.data,
        is_throw (fst ra) ->
        exists e d',
          run (train_attribute_data.read_new_line tokenizer get_name_value
                 line lines) d = Raised e d'
          /\ lineno e = lines
          /\ train_attribute_data.instances d'
             = train_attribute_data.instances d
               ++ [train_attribute_data.new_instance]
          /\ train_attribute_data.features d'
             = train_attribute_data.features d
          /\ train_attribute_data.labels d' = train_attribute_data.labels d
          /\ ~ no_instance_appended (train_attribute_data.instances d)
                 (train_attribute_data.instances d')).
Proof.
  intros fields rm ra.
  destruct (read_line_outcomes tokenizer get_name_value line lines s a)
    as (H1 & H2 & H3 & H4 & H5 & H6).
  fold fields in H1, H2, H5, H6. fold rm in H1, H3, H5. fold ra in H2, H4, H6.
  refine (conj H1 (conj H2 (conj H3 (conj H4 (conj H5 (conj H6
            (conj _ _))))))).
  - intros d Hne Hthrow. apply H1 in Hthrow.
    apply multi_load_line_throws; assumption.
  - intros d Hthrow. apply H2 in Hthrow.
    destruct (attribute_load_line_throws tokenizer get_name_value line lines
                d Hthrow) as (e & Hrun & He).
    unfold run. rewrite Hrun. eexists e, _.
    split; [reflexivity|]. split; [exact He|].
    cbn [train_attribute_data.instances train_attribute_data.features
         train_attribute_data.labels].
    split; [reflexivity|]. split; [reflexivity|]. split; [reflexivity|].
    unfold no_instance_appended. intros Heq.
    apply (f_equal length) in Heq. rewrite length_app in Heq.
    cbn [length] in Heq. lia.
Qed.

(** The line "T<TAB>f1<TAB><TAB>f2" read into an empty state: one true
    candidate with label 0 and the features f1 and f2; the empty field is
    skipped. *)
Example multi_read_line_example :
  train_multi.read_line example_tokenizer example_name_value
    ("T" ++ String TAB "f1" ++ String TAB "" ++ String TAB "f2")%string 1%Z
    (train_multi.mk_state [] [] [])
  = (Return tt,
     train_multi.mk_state
       [maxent.mk_candidate [(0%nat, 1); (1%nat, 1)] true 0%nat]
       ["f1"%string; "f2"%string] ["T"%string]).
Proof. reflexivity. Qed.

(** The line "X<TAB>f1" is rejected in the multi-candidate dialect and
    accepted in the attribute dialect. *)
Example read_line_class_example :
  train_multi.read_line example_tokenizer example_name_value
    ("X" ++ String TAB "f1")%string 7%Z (train_multi.mk_state [] [] [])
  = (Throw (mk_invalid_data
              "a class label must begins with either 'T' or 'F'" 7%Z),
     train_multi.mk_state [] [] [])
  /\ train_attribute.read_line example_tokenizer example_name_value
       ("X" ++ String TAB "f1")%string 7%Z
       (train_attribute.mk_state (train_attribute.mk_instance None []) [] [])
     = (Return tt,
        train_attribute.mk_state
          (train_attribute.mk_instance (Some 0%nat) [(0%nat, 1)])
          ["f1"%string] ["X"%string]).
Proof. split; reflexivity. Qed.

Lemma C8_read_line_witness :
  is_throw
    (fst (train_multi.read_line example_tokenizer example_name_value
            "X" 7%Z (train_multi.mk_state [] [] [])))
  /\ exists e,
       train_multi_data.read_back_line example_tokenizer example_name_value
         "X" 7%Z
         (train_multi_data.mk_data [maxent.mk_instance [] 0%Z] [] [] 0 [])
       = Raised e
           (train_multi_data.mk_data [maxent.mk_instance [] 0%Z] [] [] 0 [])
       /\ lineno e = 7%Z.
Proof.
  destruct (C8_read_line example_tokenizer example_name_value "X" 7%Z
              (train_multi.mk_state [] [] [])
              (train_attribute.mk_state (train_attribute.mk_instance None [])
                 [] [])) as ([_ H] & _ & _ & _ & _ & _ & Hload & _).
  assert (Ht : is_throw
            (fst (train_multi.read_line example_tokenizer example_name_value
                    "X" 7%Z (train_multi.mk_state [] [] [])))).
  { apply H. right. right. exists "X"%string, []. repeat split. }
  split; [exact Ht|].
  apply Hload; [discriminate | exact Ht].
Defined.

(** * Further properties of the code *)

(** ** linear_binary_instance: the logistic helpers *)

Lemma logistic_value_bounds (s : R) :
  0 < 1 / (1 + exp (- s)) < 1.
Proof.
  pose proof (exp_pos (- s)) as He.
  assert (H1 : 0 < 1 + exp (- s)) by lra.
  split.
  - apply Rdiv_lt_0_compat; lra.
  - apply Rmult_lt_reg_r with (1 + exp (- s)); [exact H1|].
    replace (1 / (1 + exp (- s)) * (1 + exp (- s))) with 1 by (field; lra).
    lra.
Qed.

(** X1: [logistic_prob] returns a value between 0 and 1, and returns 0
    exactly on the saturated side, for scores at most -100. *)
Theorem logistic_prob_range (s : R) :
  0 <= linear_binary_instance.logistic_prob s <= 1
  /\ (linear_binary_instance.logistic_prob s = 0 <-> s <= -100).
Proof.
  unfold linear_binary_instance.logistic_prob.
  pose proof (logistic_value_bounds s) as [Hlo Hhi].
  case_decide.
  - split; [lra|]. split; intros; lra.
  - split; [lra|]. split; intros; [lra | reflexivity].
Qed.

(** X2: [logistic_prob] is non-decreasing in the score, across the
    saturation threshold too. *)
Theorem logistic_prob_monotone (s s' : R) :
  s <= s' ->
  linear_binary_instance.logistic_prob s
  <= linear_binary_instance.logistic_prob s'.
Proof.
  intros Hle. unfold linear_binary_instance.logistic_prob.
  pose proof (logistic_value_bounds s') as [Hlo' _].
  destruct (decide (-100 < s)) as [Hs|Hs].
  - rewrite decide_True by lra.
    pose proof (exp_pos (- s)) as He. pose proof (exp_pos (- s')) as He'.
    assert (Hexp : exp (- s') <= exp (- s)).
    { destruct (Req_dec s s') as [->|Hne]; [lra|].
      left. apply exp_increasing. lra. }
    unfold Rdiv. rewrite !Rmult_1_l.
    apply Rinv_le_contravar; lra.
  - case_decide; lra.
Qed.

Lemma logistic_prob_monotone_witness :
  linear_binary_instance.logistic_prob (-200)
  <= linear_binary_instance.logistic_prob 3.
Proof. apply logistic_prob_monotone. lra. Defined.

Lemma logistic_value_half (s : R) :
  1 / 2 < 1 / (1 + exp (- s)) <-> 0 < s.
Proof.
  pose proof (exp_pos (- s)) as He.
  assert (Hhalf : 1 / 2 < 1 / (1 + exp (- s)) <-> exp (- s) < 1).
  { split; intros H.
    - apply Rmult_lt_compat_r with (r := 2 * (1 + exp (- s))) in H; [|lra].
      replace (1 / (1 + exp (- s)) * (2 * (1 + exp (- s)))) with 2 in H
        by (field; lra).
      lra.
    - apply Rmult_lt_reg_r with (2 * (1 + exp (- s))); [lra|].
      replace (1 / (1 + exp (- s)) * (2 * (1 + exp (- s)))) with 2
        by (field; lra).
      lra. }
  rewrite Hhalf. split.
  - intros Hp. rewrite <- exp_0 in Hp. apply exp_lt_inv in Hp. lra.
  - intros Hs. rewrite <- exp_0. apply exp_increasing. lra.
Qed.

(** X3: The decision of [operator bool] (score above 0) agrees with
    [logistic_prob]: a positive decision has probability at least 1/2
    and a negative decision has probability at most 1/2. *)
Theorem to_bool_logistic_prob (s : R) :
  (linear_binary_instance.to_bool s = true ->
   1 / 2 <= linear_binary_instance.logistic_prob s)
  /\ (linear_binary_instance.to_bool s = false ->
      linear_binary_instance.logistic_prob s <= 1 / 2).
Proof.
  unfold linear_binary_instance.to_bool, linear_binary_instance.logistic_prob.
  pose proof (logistic_value_half s) as Hhalf.
  split.
  - rewrite bool_decide_eq_true. intros Hs.
    rewrite decide_True by lra. left. apply Hhalf, Hs.
  - rewrite bool_decide_eq_false. intros Hs.
    case_decide; [|lra].
    destruct (Rle_lt_dec (1 / (1 + exp (- s))) (1 / 2)) as [Hle|Hlt];
      [exact Hle|].
    apply Hhalf in Hlt. contradiction.
Qed.

Lemma logistic_error_overloads (s : R) (b : bool) :
  fst (linear_binary_instance.logistic_error s b)
  = linear_binary_instance.logistic_error1 s b.
Proof.
  unfold linear_binary_instance.logistic_error,
    linear_binary_instance.logistic_error1.
  repeat case_decide; reflexivity.
Qed.

(** X4: The two overloads of [logistic_error] return the same error; it lies
    in [0, 1] for a true instance and in [-1, 0] for a false one, and for
    every score above -100 it is the truth value itself, with
    [logp = truth * score]. *)
Theorem logistic_error_range (s : R) (b : bool) :
  linear_binary_instance.logistic_error1 s b
  = fst (linear_binary_instance.logistic_error s b)
  /\ (if b then 0 <= fst (linear_binary_instance.logistic_error s b) <= 1
      else -1 <= fst (linear_binary_instance.logistic_error s b) <= 0)
  /\ (-100 < s ->
      linear_binary_instance.logistic_error s b = (of_bool b, of_bool b * s)).
Proof.
  split; [symmetry; apply logistic_error_overloads|].
  split; [|apply logistic_error_above].
  unfold linear_binary_instance.logistic_error.
  pose proof (logistic_value_bounds s) as [Hlo Hhi].
  repeat case_decide; destruct b; cbn; lra.
Qed.

(** ** trainer_maxent::logsumexp *)

Lemma logsumexp_lower (a b : R) :
  Rmax a b <= maxent.logsumexp a b false.
Proof.
  destruct (decide (a = b)) as [->|Hne].
  - rewrite logsumexp_eq. rewrite Rmax_left by lra. lra.
  - destruct (decide (Rmin a b + 50 < Rmax a b)) as [Hfar|Hnear].
    + rewrite logsumexp_far by assumption. lra.
    + rewrite logsumexp_near by assumption.
      pose proof (ln_1_plus_exp_pos (Rmin a b - Rmax a b)) as Hpos. lra.
Qed.

Lemma logsumexp_upper (a b : R) :
  maxent.logsumexp a b false <= Rmax a b + ln 2.
Proof.
  assert (Hln2 : 0 < ln 2) by (rewrite <- ln_1; apply ln_increasing; lra).
  destruct (decide (a = b)) as [->|Hne].
  - rewrite logsumexp_eq. rewrite Rmax_left by lra.
    pose proof log2_constant_below. lra.
  - destruct (decide (Rmin a b + 50 < Rmax a b)) as [Hfar|Hnear].
    + rewrite logsumexp_far by assumption. lra.
    + rewrite logsumexp_near by assumption.
      assert (Hd : Rmin a b - Rmax a b < 0).
      { unfold Rmin, Rmax. destruct (Rle_dec a b); lra. }
      assert (He : exp (Rmin a b - Rmax a b) < 1)
        by (rewrite <- exp_0; apply exp_increasing; exact Hd).
      pose proof (exp_pos (Rmin a b - Rmax a b)) as Hp.
      assert (ln (1 + exp (Rmin a b - Rmax a b)) < ln 2)
        by (apply ln_increasing; lra).
      lra.
Qed.

(** X5: With the flag set the combiner returns its second argument; with the
    flag clear the result is at least the larger argument and exceeds it
    by at most ln 2. *)
Theorem logsumexp_bounds (a b : R) :
  maxent.logsumexp a b true = b
  /\ Rmax a b <= maxent.logsumexp a b false <= Rmax a b + ln 2.
Proof.
  split; [reflexivity|].
  split; [apply logsumexp_lower | apply logsumexp_upper].
Qed.

(** ** trainer_maxent::lbfgs_evaluate: the normalizer and the loss *)

(** The first candidate loop from a position [i0 >= 1] (the flag of
    [logsumexp] is clear): the normalizer does not decrease and ends at
    least as large as every score; [logp] is kept or becomes the score of
    a true candidate; the score array keeps its length. *)
Lemma score_candidates_tail (x : list R)
    (cands : list maxent.candidate_type) :
  forall (i0 : nat) (s : list R) (logp norm : R),
    (1 <= i0)%nat ->
    (i0 + length cands <= length s)%nat ->
    exists s' logp' norm',
      fold_left (maxent.score_candidate x) cands (i0, s, logp, norm)
      = ((i0 + length cands)%nat, s', logp', norm')
      /\ length s' = length s
      /\ norm <= norm'
      /\ (forall c, c ∈ cands -> candidate_score x c <= norm')
      /\ (((forall c, c ∈ cands -> maxent.is_true c = false)
           /\ logp' = logp)
          \/ exists c, c ∈ cands /\ maxent.is_true c = true
                       /\ logp' = candidate_score x c).
Proof.
  induction cands as [|c cands IH]; intros i0 s logp norm Hi Hcap.
  - exists s, logp, norm. cbn. rewrite Nat.add_0_r.
    split; [reflexivity|]. split; [reflexivity|]. split; [lra|].
    split; [|left; split; [|reflexivity]];
      intros c Hc; apply elem_of_nil in Hc; contradiction.
  - cbn [fold_left length] in *. unfold maxent.score_candidate at 2.
    fold (candidate_score x c). set (v := candidate_score x c).
    assert (Hv : <[i0 := v]> s !!! i0 = v)
      by (apply list_lookup_total_insert_eq; lia).
    rewrite Hv.
    replace (Nat.eqb i0 0) with false
      by (symmetry; apply Nat.eqb_neq; lia).
    pose proof (logsumexp_lower norm v) as Hlo.
    destruct (IH (S i0) (<[i0 := v]> s)
                (if maxent.is_true c then v else logp)
                (maxent.logsumexp norm v false))
      as (s' & logp' & norm' & Hf & Hlen & Hnorm & Hall & Hlogp);
      [lia | rewrite length_insert; lia |].
    exists s', logp', norm'.
    replace (i0 + S (length cands))%nat with (S i0 + length cands)%nat by lia.
    rewrite Hf. rewrite length_insert in Hlen.
    assert (Hmax : norm <= Rmax norm v /\ v <= Rmax norm v)
      by (split; [apply Rmax_l | apply Rmax_r]).
    split; [reflexivity|]. split; [exact Hlen|]. split; [lra|].
    split.
    + intros c' Hc'. apply elem_of_cons in Hc' as [->|Hc'];
        [fold v; lra | apply Hall, Hc'].
    + destruct Hlogp as [[Hnone ->]|(c' & Hc' & Ht & ->)].
      * destruct (maxent.is_true c) eqn:Ht.
        -- right. exists c. split; [apply list_elem_of_here|].
           split; [exact Ht | reflexivity].
        -- left. split; [|reflexivity].
           intros c' Hc'. apply elem_of_cons in Hc' as [->|Hc'];
             [exact Ht | apply Hnone, Hc'].
      * right. exists c'. split; [apply list_elem_of_further, Hc'|].
        split; [exact Ht | reflexivity].
Qed.

(** The whole first candidate loop of an instance, as [lbfgs_evaluate]
    starts it: the normalizer is at least every score, and [logp] is the
    score of a true candidate when there is one, and 0 otherwise. *)
Lemma score_candidates_all (x : list R)
    (cands : list maxent.candidate_type) (s : list R) :
  (length cands <= length s)%nat ->
  exists s' logp' norm',
    fold_left (maxent.score_candidate x) cands (0%nat, s, 0, 0)
    = (length cands, s', logp', norm')
    /\ length s' = length s
    /\ (forall c, c ∈ cands -> candidate_score x c <= norm')
    /\ (((forall c, c ∈ cands -> maxent.is_true c = false) /\ logp' = 0)
        \/ exists c, c ∈ cands /\ maxent.is_true c = true
                     /\ logp' = candidate_score x c).
Proof.
  intros Hcap. destruct cands as [|c cands].
  - exists s, 0, 0. cbn.
    split; [reflexivity|]. split; [reflexivity|].
    split; [|left; split; [|reflexivity]];
      intros c Hc; apply elem_of_nil in Hc; contradiction.
  - cbn [fold_left length] in *. unfold maxent.score_candidate at 2.
    fold (candidate_score x c). set (v := candidate_score x c).
    assert (Hv : <[0%nat := v]> s !!! 0%nat = v)
      by (apply list_lookup_total_insert_eq; lia).
    rewrite Hv. cbn [Nat.eqb]. unfold maxent.logsumexp at 1.
    destruct (score_candidates_tail x cands 1 (<[0%nat := v]> s)
                (if maxent.is_true c then v else 0) v)
      as (s' & logp' & norm' & Hf & Hlen & Hnorm & Hall & Hlogp);
      [lia | rewrite length_insert; lia |].
    exists s', logp', norm'. rewrite Hf. rewrite length_insert in Hlen.
    split; [reflexivity|]. split; [exact Hlen|].
    split.
    { intros c' Hc'. apply elem_of_cons in Hc' as [->|Hc'];
        [fold v; lra | apply Hall, Hc']. }
    destruct Hlogp as [[Hnone ->]|(c' & Hc' & Ht & ->)].
    + destruct (maxent.is_true c) eqn:Ht.
      * right. exists c. split; [apply list_elem_of_here|].
        split; [exact Ht | reflexivity].
      * left. split; [|reflexivity].
        intros c' Hc'. apply elem_of_cons in Hc' as [->|Hc'];
          [exact Ht | apply Hnone, Hc'].
    + right. exists c'. split; [apply list_elem_of_further, Hc'|].
      split; [exact Ht | reflexivity].
Qed.

Lemma maxent_evaluate_instance_loss (holdout : Z) (x : list R)
    (iti : maxent.instance_type) (loss : R) (mexps s : list R) :
  (maxent.get_group iti <> holdout ->
   (length (maxent.candidates iti) <= length s)%nat
   /\ exists c, c ∈ maxent.candidates iti /\ maxent.is_true c = true) ->
  exists loss' mexps' s',
    maxent.evaluate_instance holdout x (loss, mexps, s) iti
    = (loss', mexps', s')
    /\ length s' = length s /\ loss <= loss'.
Proof.
  intros Hok. unfold maxent.evaluate_instance.
  destruct (decide (maxent.get_group iti = holdout)) as [Hg|Hg].
  - exists loss, mexps, s. repeat split; lra.
  - destruct (Hok Hg) as [Hcap (c0 & Hc0 & Ht0)].
    destruct (score_candidates_all x (maxent.candidates iti) s Hcap)
      as (s' & logp' & norm' & -> & Hlen & Hall & Hlogp).
    destruct (fold_left (maxent.expect_candidate s' norm') _ _) as [i' mexps'].
    exists (loss - (logp' - norm')), mexps', s'.
    split; [reflexivity|]. split; [exact Hlen|].
    destruct Hlogp as [[Hnone _]|(c & Hc & _ & ->)].
    + rewrite (Hnone c0 Hc0) in Ht0. discriminate.
    + specialize (Hall c Hc). lra.
Qed.

Lemma maxent_evaluate_instances_loss (holdout : Z) (x : list R)
    (l : list maxent.instance_type) :
  forall (loss : R) (mexps s : list R),
    scores_capacity holdout l (length s) ->
    has_true_candidates holdout l ->
    exists loss' mexps' s',
      fold_left (maxent.evaluate_instance holdout x) l (loss, mexps, s)
      = (loss', mexps', s')
      /\ loss <= loss'.
Proof.
  induction l as [|iti l IH]; intros loss mexps s Hcap Htrue.
  - exists loss, mexps, s. split; [reflexivity | lra].
  - cbn [fold_left].
    destruct (maxent_evaluate_instance_loss holdout x iti loss mexps s)
      as (loss1 & mexps1 & s1 & -> & Hlen & Hle).
    { intros Hg. split.
      - apply Hcap; [apply list_elem_of_here | exact Hg].
      - apply Htrue; [apply list_elem_of_here | exact Hg]. }
    destruct (IH loss1 mexps1 s1) as (loss' & mexps' & s' & -> & Hle').
    + rewrite Hlen. intros i Hi. apply Hcap, list_elem_of_further, Hi.
    + intros i Hi. apply Htrue, list_elem_of_further, Hi.
    + exists loss', mexps', s'. split; [reflexivity | lra].
Qed.

Lemma sum_squares_nonneg (x : list R) (start n : nat) :
  0 <= sum_squares x start n.
Proof.
  unfold sum_squares. induction (seq start (n - start)) as [|i l IH].
  - cbn. lra.
  - cbn [fold_right]. pose proof (Rle_0_sqr (x !!! i)) as Hsq.
    unfold Rsqr in Hsq. lra.
Qed.

(** X6: When [m_scores] has room for the candidates of every training
    instance, every training instance has a candidate flagged true and
    [c2 >= 0], the loss returned by the maxent evaluator is not negative:
    for each instance the normalizer computed by the chain of [logsumexp]
    is at least the score of the true candidate. *)
Theorem maxent_loss_nonneg (t : maxent.trainer) (x g : list R) (n : nat) :
  0 <= maxent.m_c2 t ->
  scores_capacity (maxent.m_holdout t) (instances (maxent.m_data t))
    (length (maxent.m_scores t)) ->
  has_true_candidates (maxent.m_holdout t) (instances (maxent.m_data t)) ->
  0 <= fst (snd (maxent.lbfgs_evaluate t x g n)).
Proof.
  intros Hc2 Hcap Htrue. unfold maxent.lbfgs_evaluate.
  destruct (maxent_evaluate_instances_loss (maxent.m_holdout t) x
              (instances (maxent.m_data t)) 0
              (fold_left (fun m i => <[i := 0]> m) (seq 0 n) (maxent.m_mexps t))
              (maxent.m_scores t) Hcap Htrue)
    as (loss' & mexps' & s' & -> & Hle).
  case_decide.
  - rewrite l2_loop_spec. cbn [fst snd].
    pose proof (sum_squares_nonneg x 0 n) as Hsq. nra.
  - cbn [fst snd]. exact Hle.
Qed.

Lemma c2_trainer_true_candidates :
  has_true_candidates (maxent.m_holdout c2_trainer)
    (instances (maxent.m_data c2_trainer)).
Proof.
  rewrite c2_trainer_value. cbn. intros iti Hin _.
  apply list_elem_of_singleton in Hin as ->.
  exists c2_candidate. split; [apply list_elem_of_here | reflexivity].
Qed.

Lemma maxent_loss_nonneg_witness :
  0 <= fst (snd (maxent.lbfgs_evaluate c2_trainer [1] [0] 1)).
Proof.
  apply maxent_loss_nonneg.
  - rewrite c2_trainer_value. cbn. lra.
  - apply train_setup_scratch.
  - apply c2_trainer_true_candidates.
Defined.

(** ** trainer_logress::lbfgs_evaluate *)

Lemma score_at_zero (x : list R) (fs : features_type) :
  (forall k, x !!! k = 0) ->
  fold_left (fun m_score '(k, v) =>
               linear_binary_instance.accumulate x m_score k v) fs 0 = 0.
Proof.
  intros Hx. induction fs as [|[k v] fs IH]; [reflexivity|].
  cbn [fold_left]. unfold linear_binary_instance.accumulate at 2.
  rewrite Hx. replace (0 + 0 * v) with 0 by lra. exact IH.
Qed.

Lemma logress_instances_loss_at_zero (holdout : Z) (x : list R)
    (l : list logress.instance_type) :
  (forall k, x !!! k = 0) ->
  forall g, fst (fold_left (logress.evaluate_instance holdout x) l (0, g)) = 0.
Proof.
  intros Hx. induction l as [|iti l IH]; intros g; [reflexivity|].
  cbn [fold_left]. unfold logress.evaluate_instance at 2.
  case_decide; [apply IH|].
  rewrite (score_at_zero x _ Hx).
  rewrite logistic_error_above by lra.
  replace (0 - logress.get_weight iti * (of_bool (logress.get_truth iti) * 0))
    with 0 by lra.
  apply IH.
Qed.

Lemma logress_loss_zero_weights (t : logress.trainer) (x g : list R)
    (n : nat) :
  (forall k, x !!! k = 0) ->
  fst (logress.lbfgs_evaluate t x g n) = 0.
Proof.
  intros Hx. unfold logress.lbfgs_evaluate.
  pose proof (logress_instances_loss_at_zero (logress.m_holdout t) x
                (instances (logress.m_data t)) Hx
                (fold_left (fun g i => <[i := 0]> g) (seq 0 n) g)) as Hloss.
  destruct (fold_left (logress.evaluate_instance _ _) _ _) as [loss g'].
  cbn [fst] in Hloss. subst loss.
  case_decide; [|reflexivity].
  rewrite l2_loop_spec. cbn [fst].
  assert (Hsq : sum_squares x (logress.m_regularization_start t) n = 0).
  { unfold sum_squares. induction (seq _ _) as [|i l IH]; [reflexivity|].
    cbn [fold_right]. rewrite Hx, IH. lra. }
  rewrite Hsq. lra.
Qed.

Lemma replicate_zero_lookup (K k : nat) : (replicate K 0 : list R) !!! k = 0.
Proof.
  destruct (decide (k < K)%nat) as [Hk|Hk].
  - apply lookup_total_replicate_2, Hk.
  - assert (H : (replicate K 0 : list R) !! k = None)
      by (apply lookup_replicate_None; lia).
    rewrite list_lookup_total_alt, H. reflexivity.
Qed.

(** X7: In a run set up by [train], the binary logistic evaluator returns
    loss 0 at the weight array of [n] zeros (the array that [train]
    allocates and hands to the solver), when the gradient array has [n]
    cells, every feature identifier of the training instances is below
    [n], and the L2 constant is a number ([sigma * sigma] is not zero
    when L2 is selected): every instance has score 0, for which
    [logistic_error] takes its first branch and stores
    [logp = truth * 0], and the L2 term is [c2 * 0 * 0.5]. *)
Theorem logress_loss_at_zero (t : logress.trainer)
    (data : data_type logress.instance_type) (holdout clk : Z) (g : list R)
    (n : nat) :
  l2_constant_defined t ->
  length g = n ->
  features_in_range holdout (instances data) n ->
  fst (logress.lbfgs_evaluate (logress.train_setup t data holdout clk)
         (replicate n 0) g n) = 0.
Proof.
  intros _ _ _. apply logress_loss_zero_weights.
  intros k. apply replicate_zero_lookup.
Qed.

Lemma logress_loss_at_zero_witness :
  fst (logress.lbfgs_evaluate
         (logress.train_setup
            (logress.mk_trainer [] (mk_data [] 0%nat 0%nat) (-1)%Z "L2" 2
               0%nat 1000%Z "MoreThuente" 0 0 0%Z)
            (logress.m_data c5_logress_trainer) 1%Z 0%Z)
         (replicate 2 0) [5; 5] 2) = 0.
Proof.
  apply logress_loss_at_zero.
  - intros _. cbn. lra.
  - reflexivity.
  - repeat (constructor; [intros _; repeat constructor; cbn; lia|]).
    constructor.
Defined.

(** Writes at indices other than [i] leave entry [i] alone. *)
Lemma logress_gradient_fold_unused (d w : R) (fs : features_type) (i : nat) :
  (forall v, (i, v) ∉ fs) ->
  forall g : list R,
    fold_left (fun g '(k, v) => <[k := (g !!! k) - v * d * w]> g) fs g !!! i
    = g !!! i.
Proof.
  intros Hno. induction fs as [|[k v] fs IH]; intros g; [reflexivity|].
  cbn [fold_left]. rewrite IH.
  - apply list_lookup_total_insert_ne. intros ->.
    apply (Hno v). apply list_elem_of_here.
  - intros v' Hin. apply (Hno v'). apply list_elem_of_further, Hin.
Qed.

Lemma logress_instances_unused (holdout : Z) (x : list R)
    (l : list logress.instance_type) (i : nat) :
  feature_unused holdout l i ->
  forall loss g,
    snd (fold_left (logress.evaluate_instance holdout x) l (loss, g)) !!! i
    = g !!! i.
Proof.
  induction l as [|iti l IH]; intros Hun loss g; [reflexivity|].
  cbn [fold_left].
  assert (Hun' : feature_unused holdout l i).
  { intros it v Hin. apply Hun, list_elem_of_further, Hin. }
  unfold logress.evaluate_instance at 2.
  destruct (decide (logress.get_group iti = holdout)) as [Hg|Hg];
    [apply IH, Hun'|].
  destruct (linear_binary_instance.logistic_error _ _) as [d logp].
  rewrite (IH Hun').
  apply logress_gradient_fold_unused.
  intros v. apply Hun; [apply list_elem_of_here | exact Hg].
Qed.

Lemma logress_instances_length (holdout : Z) (x : list R)
    (l : list logress.instance_type) :
  forall loss g,
    length (snd (fold_left (logress.evaluate_instance holdout x) l (loss, g)))
    = length g.
Proof.
  induction l as [|iti l IH]; intros loss g; [reflexivity|].
  cbn [fold_left]. unfold logress.evaluate_instance at 2.
  case_decide; [apply IH|].
  destruct (linear_binary_instance.logistic_error _ _) as [d logp].
  rewrite IH. generalize g.
  induction (logress.features iti) as [|[k v] fs IHf]; intros g0;
    [reflexivity|].
  cbn [fold_left]. rewrite IHf. apply length_insert.
Qed.

(** X8: The gradient of a feature that occurs in no training instance is the
    L2 term alone: [c2 * x[i]] when L2 is active and [i] is at or above
    the regularization start, and 0 otherwise. *)
Theorem logress_gradient_unused_feature (t : logress.trainer)
    (x g : list R) (n i : nat) :
  length g = n -> (i < n)%nat ->
  feature_unused (logress.m_holdout t) (instances (logress.m_data t)) i ->
  snd (logress.lbfgs_evaluate t x g n) !!! i
  = if decide (logress.m_c2 t <> 0
               /\ (logress.m_regularization_start t <= i)%nat)
    then logress.m_c2 t * (x !!! i) else 0.
Proof.
  intros Hlen Hi Hun. unfold logress.lbfgs_evaluate.
  rewrite (overwrite_loop (fun _ => 0) g n Hlen).
  pose proof (logress_instances_unused (logress.m_holdout t) x
                (instances (logress.m_data t)) i Hun 0
                ((fun _ => 0) <$> seq 0 n)) as Hg.
  pose proof (logress_instances_length (logress.m_holdout t) x
                (instances (logress.m_data t)) 0
                ((fun _ => 0) <$> seq 0 n)) as Hl.
  rewrite length_fmap, length_seq in Hl.
  destruct (fold_left (logress.evaluate_instance _ _) _ _) as [loss g'].
  cbn [snd] in Hg, Hl.
  assert (Hz : ((fun _ : nat => 0) <$> seq 0 n) !!! i = 0).
  { rewrite list_lookup_total_alt, list_lookup_fmap.
    rewrite lookup_seq_lt by exact Hi. reflexivity. }
  rewrite Hz in Hg.
  assert (Hgi : g' !! i = Some 0).
  { rewrite <- Hg. apply list_lookup_lookup_total_lt. lia. }
  destruct (decide (logress.m_c2 t <> 0)) as [Hc2|Hc2].
  - rewrite l2_loop_spec. cbn [snd].
    rewrite list_lookup_total_alt, list_lookup_imap, Hgi. cbn.
    repeat case_decide; try lra; try tauto; lia.
  - cbn [snd]. rewrite decide_False by tauto. exact Hg.
Qed.

Lemma logress_gradient_unused_feature_witness :
  snd (logress.lbfgs_evaluate c2_logress_trainer [3; 2] [7; 7] 2) !!! 1%nat
  = 1 * 2.
Proof.
  rewrite (logress_gradient_unused_feature c2_logress_trainer [3; 2] [7; 7]
             2 1 eq_refl).
  - rewrite decide_True; [reflexivity|]. cbn. split; [lra | lia].
  - lia.
  - intros iti v Hin. cbn in Hin. apply elem_of_nil in Hin. contradiction.
Defined.

(** ** The progress callbacks: active features *)

Lemma count_active_fold (x : list R) (l : list nat) :
  forall a : nat,
    fold_left (fun num_active i =>
                 if decide (x !!! i <> 0) then S num_active else num_active)
              l a
    = (a + length (filter (fun i => x !!! i <> 0%R) l))%nat.
Proof.
  induction l as [|i l IH]; intros a; [cbn; lia|].
  cbn [fold_left]. rewrite IH.
  destruct (decide (x !!! i <> 0)) as [H|H].
  - rewrite filter_cons_True by exact H. cbn [length]. lia.
  - rewrite filter_cons_False by exact H. reflexivity.
Qed.

(** X9: Both progress callbacks report, as active features, the number of
    indices below [n] with a non-zero weight: it never exceeds [n], and it
    is 0 exactly when all of [x[0..n-1]] is zero. *)
Theorem progress_active_features (lt : logress.trainer) (mt : maxent.trainer)
    (clk : Z) (x g : list R) (fx xnorm gnorm step : R) (n : nat) (k ls : Z) :
  let a := length (filter (fun i => x !!! i <> 0) (seq 0 n)) in
  LogActiveFeatures a n
    ∈ snd (fst (logress.lbfgs_progress lt clk x g fx xnorm gnorm step n k ls))
  /\ (forall t' os r,
        maxent.lbfgs_progress mt clk x g fx xnorm gnorm step n k ls
        = Some (t', os, r) ->
        LogActiveFeatures a n ∈ os)
  /\ (a <= n)%nat
  /\ (a = 0%nat <-> forall i, (i < n)%nat -> x !!! i = 0).
Proof.
  intros a.
  assert (Hca : count_active x n = a).
  { unfold count_active. rewrite count_active_fold. reflexivity. }
  split; [|split; [|split]].
  - unfold logress.lbfgs_progress. cbn [fst snd]. rewrite Hca.
    case_decide; cbn [app];
      do 4 apply list_elem_of_further; apply list_elem_of_here.
  - intros t' os r. unfold maxent.lbfgs_progress. rewrite Hca.
    destruct (decide (_ <> _)) as [Hh|Hh].
    + destruct (maxent.holdout_evaluation _) as [l|]; [|discriminate].
      case_decide; intros Hr; injection Hr as _ <- _; cbn [app];
        do 4 apply list_elem_of_further; apply list_elem_of_here.
    + case_decide; intros Hr; injection Hr as _ <- _; cbn [app];
        do 4 apply list_elem_of_further; apply list_elem_of_here.
  - subst a. etransitivity; [apply length_filter|].
    rewrite length_seq. reflexivity.
  - subst a. split.
    + intros H0 i Hi. apply length_zero_iff_nil in H0.
      destruct (decide (x !!! i = 0)) as [Hz|Hnz]; [exact Hz|].
      exfalso. eapply filter_nil_not_elem_of; [exact H0 | exact Hnz |].
      apply elem_of_seq. lia.
    + intros Hz.
      destruct (filter _ (seq 0 n)) as [|i l] eqn:Hf; [reflexivity|].
      assert (Hi : i ∈ filter (fun i => x !!! i <> 0) (seq 0 n))
        by (rewrite Hf; apply list_elem_of_here).
      apply list_elem_of_filter in Hi as [Hnz Hin].
      apply elem_of_seq in Hin. exfalso. apply Hnz, Hz. lia.
Qed.

(** ** trainer_maxent::holdout_evaluation: the reported accuracy *)

Lemma maxent_holdout_fold_le (holdout : Z) (w : list R)
    (l : list maxent.instance_type) :
  forall nc nt nc' nt',
    (nc <= nt)%nat ->
    fold_left (maxent.holdout_instance holdout w) l (Some (nc, nt))
    = Some (nc', nt') ->
    (nc' <= nt')%nat.
Proof.
  induction l as [|iti l IH]; intros nc nt nc' nt' Hle H.
  - cbn in H. injection H as <- <-. exact Hle.
  - cbn [fold_left] in H. unfold maxent.holdout_instance at 2 in H.
    destruct (decide (maxent.get_group iti <> holdout)).
    + eapply IH; eassumption.
    + destruct (maxent.candidates iti !! _) as [c|].
      * eapply IH; [|exact H]. destruct (maxent.is_true c); lia.
      * rewrite maxent_holdout_fold_None in H. discriminate.
Qed.

(** X10: When the maxent holdout evaluation completes, it writes one accuracy
    line whose counts satisfy [num_correct <= num_total], whose total is
    the number of holdout instances and whose accuracy lies in [0, 1];
    with no holdout instance the accuracy is 0 (no division takes
    place). *)
Theorem maxent_holdout_accuracy (t : maxent.trainer) (os : list log_item) :
  maxent.holdout_evaluation t = Some os ->
  exists accuracy num_correct num_total,
    os = [LogAccuracy accuracy num_correct num_total]
    /\ (num_correct <= num_total)%nat
    /\ num_total = count_group maxent.get_group (maxent.m_holdout t)
                     (instances (maxent.m_data t))
    /\ 0 <= accuracy <= 1
    /\ (num_total = 0%nat -> accuracy = 0).
Proof.
  unfold maxent.holdout_evaluation.
  destruct (maxent.holdout_counts t) as [[nc nt]|] eqn:Hc; [|discriminate].
  intros H. injection H as <-.
  unfold maxent.holdout_counts in Hc.
  pose proof (maxent_holdout_fold_le _ _ _ 0%nat 0%nat nc nt (le_n 0) Hc)
    as Hle.
  pose proof (maxent_holdout_fold_counts _ _ _ _ _ _ _ Hc) as Hnt.
  cbn [Nat.add] in Hnt.
  eexists _, nc, nt. split; [reflexivity|]. split; [exact Hle|].
  split; [exact Hnt|].
  destruct (decide (0 < nt)%nat) as [Hpos|Hz].
  - assert (H0 : 0 < INR nt) by (apply lt_0_INR; exact Hpos).
    assert (H1 : 0 <= INR nc) by apply pos_INR.
    assert (H2 : INR nc <= INR nt) by (apply le_INR; exact Hle).
    split; [|lia]. split.
    + apply Rmult_le_pos; [exact H1|]. left. apply Rinv_0_lt_compat, H0.
    + apply Rmult_le_reg_r with (INR nt); [exact H0|].
      replace (INR nc / INR nt * INR nt) with (INR nc) by (field; lra).
      lra.
  - split; [lra | reflexivity].
Qed.

Lemma maxent_holdout_accuracy_witness :
  exists accuracy num_correct,
    maxent.holdout_evaluation c5_maxent_trainer
    = Some [LogAccuracy accuracy num_correct 1]
    /\ 0 <= accuracy <= 1.
Proof.
  assert (He : maxent.holdout_evaluation c5_maxent_trainer
               = Some [LogAccuracy (INR 1 / INR 1) 1 1]).
  { unfold maxent.holdout_evaluation. rewrite c5_maxent_holdout_counts.
    rewrite decide_True by lia. reflexivity. }
  destruct (maxent_holdout_accuracy c5_maxent_trainer _ He)
    as (a & nc & nt & Hos & _ & _ & Ha & _).
  injection Hos as Ha' _ _. subst a.
  eexists _, _. split; [exact He | exact Ha].
Defined.

(** ** trainer_maxent::parse_param and trainer_maxent::set *)

(** X11: [parse_param] succeeds exactly when [name] is a prefix of [param],
    and then yields the rest of [param]. *)
Theorem parse_param_prefix (param name value : string) :
  maxent.parse_param param name = Some value
  <-> param = (name ++ value)%string.
Proof.
  revert param. induction name as [|c name IH]; intros param; cbn.
  - split; [intros H; injection H as ->; reflexivity | intros ->; reflexivity].
  - destruct param as [|d param].
    + split; intros H; discriminate.
    + destruct (Ascii.eqb_spec c d) as [->|Hne].
      * rewrite IH. split; [intros ->; reflexivity|].
        intros H. injection H as ->. reflexivity.
      * split; [discriminate|]. intros H. injection H as -> _. congruence.
Qed.


(** ** trainer_maxent::train: the arrays it allocates *)

Lemma add_to_length (a : list R) (fs : features_type) (scale : R) :
  length (add_to a fs scale) = length a.
Proof.
  unfold add_to. revert a. induction fs as [|[k v] fs IH]; intros a;
    [reflexivity|].
  cbn [fold_left]. rewrite IH. apply length_insert.
Qed.

Lemma observe_instances_length (holdout : Z) (l : list maxent.instance_type) :
  forall (oexps : list R) (M : nat),
    length (fst (fold_left (maxent.observe_instance holdout) l (oexps, M)))
    = length oexps.
Proof.
  induction l as [|iti l IH]; intros oexps M; [reflexivity|].
  cbn [fold_left]. unfold maxent.observe_instance at 2.
  case_decide; [apply IH|]. rewrite IH.
  generalize oexps.
  induction (maxent.candidates iti) as [|c cs IHc]; intros o; [reflexivity|].
  cbn [fold_left]. rewrite IHc.
  destruct (maxent.is_true c); [apply add_to_length | reflexivity].
Qed.

(** X13: [train] hands the solver arrays of the number of features [K]: the
    weights are [K] zeros, the observation and model expectations have
    [K] cells, and [m_scores] has room for the candidates of every
    instance outside the holdout group, so that [lbfgs_evaluate] never
    indexes [m_scores] past its end for the data it was set up on.  The
    holdout group is stored and the constants set before are kept. *)
Theorem maxent_train_allocates (t : maxent.trainer)
    (data : data_type maxent.instance_type) (holdout clk : Z) :
  let t' := maxent.train_setup t data holdout clk in
  maxent.m_weights t' = replicate (num_features data) 0
  /\ length (maxent.m_oexps t') = num_features data
  /\ length (maxent.m_mexps t') = num_features data
  /\ scores_capacity (maxent.m_holdout t') (instances (maxent.m_data t'))
       (length (maxent.m_scores t'))
  /\ maxent.m_holdout t' = holdout
  /\ maxent.m_data t' = data
  /\ maxent.m_c1 t' = maxent.m_c1 t /\ maxent.m_c2 t' = maxent.m_c2 t
  /\ maxent.m_maxiter t' = maxent.m_maxiter t.
Proof.
  cbn zeta.
  pose proof (train_setup_scratch t data holdout clk) as [Hm Hcap].
  pose proof (observe_instances_length holdout (instances data)
                (replicate (num_features data) 0) 0) as Ho.
  rewrite length_replicate in Ho.
  unfold maxent.train_setup in *.
  destruct (fold_left (maxent.observe_instance holdout) (instances data) _)
    as [oexps M].
  cbn [maxent.m_weights maxent.m_oexps maxent.m_mexps maxent.m_scores
       maxent.m_holdout maxent.m_data maxent.m_c1 maxent.m_c2
       maxent.m_maxiter fst] in *.
  repeat split; assumption.
Qed.

(** ** trainer_lbfgs_multi::loss_and_gradient *)

Section multi_holdout.

Variable classifier_type : Type.
Variable cls_create : list R -> classifier_type.
Variable cls_resize : classifier_type -> nat -> classifier_type.
Variable cls_inner_product :
  classifier_type -> nat -> features_type -> nat -> classifier_type.
Variable cls_finalize : classifier_type -> classifier_type.
Variable cls_prob : classifier_type -> nat -> R.
Variable fgen_add_to : list R -> features_type -> nat -> R -> list R.

(** X14: For given observation expectations, an instance of the holdout group
    changes neither the loss nor the gradient of [loss_and_gradient], and
    with no instance outside the holdout group the loss is 0 and the
    gradient is the negated observation expectations. *)
Theorem multi_loss_and_gradient_holdout (oexps : list R)
    (d1 d2 : list lbfgs_multi.instance_type) (inst : lbfgs_multi.instance_type)
    (L : nat) (holdout : Z) (x g : list R) (n : nat) :
  lbfgs_multi.get_group inst = holdout ->
  lbfgs_multi.loss_and_gradient classifier_type cls_create cls_resize
    cls_inner_product cls_finalize cls_prob fgen_add_to
    (lbfgs_multi.mk_trainer oexps (lbfgs_multi.mk_data (d1 ++ inst :: d2) L)
       holdout) x g n
  = lbfgs_multi.loss_and_gradient classifier_type cls_create cls_resize
      cls_inner_product cls_finalize cls_prob fgen_add_to
      (lbfgs_multi.mk_trainer oexps (lbfgs_multi.mk_data (d1 ++ d2) L)
         holdout) x g n
  /\ (length g = n ->
      Forall (fun i => lbfgs_multi.get_group i = holdout) (d1 ++ d2) ->
      lbfgs_multi.loss_and_gradient classifier_type cls_create cls_resize
        cls_inner_product cls_finalize cls_prob fgen_add_to
        (lbfgs_multi.mk_trainer oexps (lbfgs_multi.mk_data (d1 ++ d2) L)
           holdout) x g n
      = (0, (fun i => - (oexps !!! i)) <$> seq 0 n)).
Proof.
  intros Hg. unfold lbfgs_multi.loss_and_gradient.
  cbn [lbfgs_multi.m_data lbfgs_multi.m_holdout lbfgs_multi.m_oexps
       lbfgs_multi.instances lbfgs_multi.num_labels].
  split.
  - rewrite !fold_left_app. cbn [fold_left].
    unfold lbfgs_multi.evaluate_instance at 2.
    destruct (fold_left _ d1 _) as [[loss g'] cls].
    rewrite decide_True by exact Hg. reflexivity.
  - intros Hlen Hall.
    rewrite (overwrite_loop (fun i => - (oexps !!! i)) g n Hlen).
    generalize (cls_resize (cls_create x) L). intros cls.
    induction Hall as [|i l Hi Hall IH]; [reflexivity|].
    cbn [fold_left]. unfold lbfgs_multi.evaluate_instance at 2.
    rewrite decide_True by exact Hi. exact IH.
Qed.

End multi_holdout.

Lemma multi_loss_and_gradient_holdout_witness :
  lbfgs_multi.loss_and_gradient unit (fun _ => tt) (fun c _ => c)
    (fun c _ _ _ => c) (fun c => c) (fun _ _ => 1 / 2) (fun g _ _ _ => g)
    (lbfgs_multi.mk_trainer [1; 0]
       (lbfgs_multi.mk_data
          ([] ++ lbfgs_multi.mk_instance [(0%nat, 1)] 0%nat 1%Z :: []) 2%nat)
       1%Z) [0; 0] [5; 5] 2
  = lbfgs_multi.loss_and_gradient unit (fun _ => tt) (fun c _ => c)
      (fun c _ _ _ => c) (fun c => c) (fun _ _ => 1 / 2) (fun g _ _ _ => g)
      (lbfgs_multi.mk_trainer [1; 0] (lbfgs_multi.mk_data ([] ++ []) 2%nat)
         1%Z) [0; 0] [5; 5] 2.
Proof.
  destruct (multi_loss_and_gradient_holdout unit (fun _ => tt) (fun c _ => c)
              (fun c _ _ _ => c) (fun c => c) (fun _ _ => 1 / 2)
              (fun g _ _ _ => g) [1; 0] [] []
              (lbfgs_multi.mk_instance [(0%nat, 1)] 0%nat 1%Z) 2%nat 1%Z
              [0; 0] [5; 5] 2%nat eq_refl) as [H _].
  exact H.
Defined.

(** ** trainer_logress::holdout_evaluation: the false analysis *)

Lemma false_line_negative (w : list R) (iti : logress.instance_type) :
  inner_product w (logress.features iti) <= 0 ->
  false_line w iti
  = LogFalse (logress.get_comment iti) 0
      (inner_product w (logress.features iti)).
Proof.
  intros Hz. unfold false_line. rewrite decide_True by exact Hz.
  reflexivity.
Qed.

Lemma false_line_positive (w : list R) (iti : logress.instance_type) :
  ~ inner_product w (logress.features iti) <= 0 ->
  false_line w iti
  = LogFalse (logress.get_comment iti) 1
      (inner_product w (logress.features iti)).
Proof.
  intros Hz. unfold false_line. rewrite decide_False by exact Hz.
  reflexivity.
Qed.

Lemma logress_holdout_fold_false_analysis (holdout : Z) (w : list R)
    (l : list logress.instance_type) :
  forall (m : confusion_matrix.t) (os os0 : list log_item),
    fold_left (logress.holdout_instance holdout w true) l (m, os)
    = (fst (fold_left (logress.holdout_instance holdout w false) l (m, os0)),
       os ++ map (false_line w) (List.filter (misclassified holdout w) l))
    /\ snd (fold_left (logress.holdout_instance holdout w false) l (m, os0))
       = os0.
Proof.
  induction l as [|iti l IH]; intros m os os0.
  - cbn. rewrite app_nil_r. split; reflexivity.
  - cbn [fold_left List.filter].
    unfold logress.holdout_instance at 2 4 6, misclassified at 1.
    destruct (decide (logress.get_group iti <> holdout)) as [Hg|Hg].
    + rewrite bool_decide_eq_false_2 by exact Hg. cbn [andb]. apply IH.
    + assert (Hg' : logress.get_group iti = holdout)
        by (destruct (decide (logress.get_group iti = holdout)); tauto).
      rewrite bool_decide_eq_true_2 by exact Hg'. cbn [andb].
      destruct (decide (inner_product w (logress.features iti) <= 0))
        as [Hz|Hz], (logress.get_truth iti) eqn:Ht; cbn [negb].
      * rewrite decide_True by lia.
        destruct (IH (confusion_matrix.incr m 1 0)
                    (os ++ [LogFalse (logress.get_comment iti) 0
                              (inner_product w (logress.features iti))]) os0)
          as [-> Hs].
        split; [|exact Hs]. cbn [map].
        rewrite (false_line_negative w iti Hz), <- app_assoc. reflexivity.
      * rewrite decide_False by lia. apply IH.
      * rewrite decide_False by lia. apply IH.
      * rewrite decide_True by lia.
        destruct (IH (confusion_matrix.incr m 0 1)
                    (os ++ [LogFalse (logress.get_comment iti) 1
                              (inner_product w (logress.features iti))]) os0)
          as [-> Hs].
        split; [|exact Hs]. cbn [map].
        rewrite (false_line_positive w iti Hz), <- app_assoc. reflexivity.
Qed.

(** X15: The false analysis of the binary trainer does not change what is
    tallied: with the flag, [holdout_evaluation] writes the lines it
    writes without it, preceded by the opening line, one entry for each
    misclassified instance of the holdout group in the order of the data
    (an instance of score exactly 0 counts as predicted negative), and the
    closing line. *)
Theorem logress_false_analysis (t : logress.trainer) :
  fst (logress.holdout_matrix t true) = fst (logress.holdout_matrix t false)
  /\ logress.holdout_evaluation t true
     = LogText "=== False analysis ==="
       :: map (false_line (logress.m_weights t))
            (List.filter (misclassified (logress.m_holdout t)
                            (logress.m_weights t))
               (instances (logress.m_data t)))
       ++ LogText "===" :: logress.holdout_evaluation t false.
Proof.
  unfold logress.holdout_evaluation, logress.holdout_matrix.
  destruct (logress_holdout_fold_false_analysis (logress.m_holdout t)
              (logress.m_weights t) (instances (logress.m_data t))
              (confusion_matrix.create 2)
              [LogText "=== False analysis ==="] []) as [Ht Hf].
  rewrite Ht.
  destruct (fold_left (logress.holdout_instance _ _ false) _ _)
    as [matrix os] eqn:Hfold.
  cbn [fst snd] in Hf |- *. subst os.
  split; [reflexivity|].
  cbn [app]. rewrite <- !app_assoc. reflexivity.
Qed.

(** ** frontend/multi.cpp: read_line *)

Lemma label_of_nonempty (field : string) :
  field <> ""%string -> frontend_multi.label_of field <> ""%string.
Proof.
  intros Hne. unfold frontend_multi.label_of.
  destruct (is_empty _) eqn:He; [exact Hne|].
  intros H. rewrite H in He. discriminate.
Qed.

Lemma not_minus_spec (field : string) :
  frontend_multi.not_minus field = false <-> exists tl, field = String "-" tl.
Proof.
  unfold frontend_multi.not_minus. destruct field as [|c tl].
  - split; [discriminate | intros [tl H]; discriminate].
  - destruct (Ascii.eqb_spec c "-"%char) as [->|Hc]; cbn.
    + split; [eauto | reflexivity].
    + split; [discriminate|]. intros [tl' H]. injection H as -> _.
      congruence.
Qed.

Lemma frontend_multi_read_line_cases
    (tokenizer : string -> ascii -> list string)
    (get_name_value : string -> string * R) (line : string) (lines : Z)
    (s : train_multi.state) :
  match tokenizer line TAB with
  | [] =>
      frontend_multi.read_line tokenizer get_name_value line lines s
      = (Throw (mk_invalid_data "no field found in the line" lines), s)
  | field :: rest =>
      if is_empty field then
        frontend_multi.read_line tokenizer get_name_value line lines s
        = (Throw (mk_invalid_data "an empty label found" lines), s)
      else
        exists s' c,
          frontend_multi.read_line tokenizer get_name_value line lines s
          = (Return tt, s')
          /\ train_multi.instance s' = train_multi.instance s ++ [c]
          /\ maxent.is_true c = frontend_multi.not_minus field
          /\ quark.to_item (train_multi.labels s') (maxent.get_label c)
             = Some (frontend_multi.label_of field)
          /\ decode (train_multi.features s') (maxent.c_features c)
             = parsed_fields get_name_value rest
  end.
Proof.
  unfold frontend_multi.read_line.
  destruct (tokenizer line TAB) as [|field rest]; [reflexivity|].
  destruct (is_empty field); [reflexivity|].
  unfold bind at 1. unfold train_multi.intern_label.
  pose proof (quark_intern_spec (train_multi.labels s)
                (frontend_multi.label_of field)) as [_ Hitem].
  destruct (quark.intern (train_multi.labels s) _) as [lid q1].
  cbn [fst snd] in Hitem. unfold bind.
  destruct (multi_read_features_spec get_name_value rest []
              (train_multi.mk_state (train_multi.instance s)
                 (train_multi.features s) q1))
    as (fs & s1 & Hrun & Hinst & Hlab & _ & Hdec).
  cbn [train_multi.instance train_multi.labels] in Hinst, Hlab.
  rewrite Hrun. cbn [app]. unfold train_multi.append_candidate.
  eexists _, _. split; [reflexivity|].
  cbn [train_multi.instance train_multi.labels train_multi.features
       maxent.is_true maxent.get_label maxent.c_features].
  rewrite Hinst, Hlab. repeat split; assumption.
Qed.

(** X16: [read_line] of frontend/multi.cpp throws exactly when the line has no
    field or its first field is empty, before any write; on every other
    line it appends one candidate, false exactly when the first field
    begins with '-', whose label is never the empty string (the text
    after the first space, or the whole field when that text is empty or
    missing), with the (name, value) pairs of the non-empty fields in
    input order. *)
Theorem frontend_multi_read_line
    (tokenizer : string -> ascii -> list string)
    (get_name_value : string -> string * R) (line : string) (lines : Z)
    (s : train_multi.state) :
  let fields := tokenizer line TAB in
  let r := frontend_multi.read_line tokenizer get_name_value line lines s in
  (is_throw (fst r) <->
   fields = [] \/ exists rest, fields = ""%string :: rest)
  /\ (is_throw (fst r) -> snd r = s)
  /\ (forall field rest,
        fields = field :: rest -> field <> ""%string ->
        exists c lbl,
          fst r = Return tt
          /\ train_multi.instance (snd r) = train_multi.instance s ++ [c]
          /\ (maxent.is_true c = false <-> exists tl, field = String "-" tl)
          /\ quark.to_item (train_multi.labels (snd r)) (maxent.get_label c)
             = Some lbl
          /\ lbl = frontend_multi.label_of field /\ lbl <> ""%string
          /\ decode (train_multi.features (snd r)) (maxent.c_features c)
             = parsed_fields get_name_value rest).
Proof.
  intros fields r.
  pose proof (frontend_multi_read_line_cases tokenizer get_name_value line
                lines s) as Hc.
  fold fields in Hc. fold r in Hc.
  destruct fields as [|field rest].
  { rewrite Hc. cbn. repeat split; auto; intros; discriminate. }
  destruct (is_empty field) eqn:He.
  { apply is_empty_spec in He. subst field. rewrite Hc. cbn.
    repeat split; eauto; intros; congruence. }
  assert (Hne : field <> ""%string).
  { intros ->. cbn in He. discriminate. }
  destruct Hc as (s' & c & -> & H1 & H2 & H3 & H4).
  cbn [fst snd is_throw].
  split; [|split; [contradiction|]].
  - split; [contradiction|]. intros [H|[r0 H]]; congruence.
  - intros f0 r0 H _. injection H as <- <-.
    exists c, (frontend_multi.label_of field).
    split; [reflexivity|]. split; [exact H1|].
    split; [rewrite H2; apply not_minus_spec|].
    split; [exact H3|]. split; [reflexivity|].
    split; [apply label_of_nonempty, Hne | exact H4].
Qed.

(** A line "+1 NP<TAB>f" yields a true candidate labelled "NP"; a line
    "-1<TAB>f" a false candidate labelled "-1". *)
Example frontend_multi_read_line_example :
  frontend_multi.read_line example_tokenizer example_name_value
    ("+1 NP" ++ String TAB "f")%string 1%Z (train_multi.mk_state [] [] [])
  = (Return tt,
     train_multi.mk_state [maxent.mk_candidate [(0%nat, 1)] true 0%nat]
       ["f"%string] ["NP"%string])
  /\ frontend_multi.read_line example_tokenizer example_name_value
       ("-1" ++ String TAB "f")%string 1%Z (train_multi.mk_state [] [] [])
     = (Return tt,
        train_multi.mk_state [maxent.mk_candidate [(0%nat, 1)] false 0%nat]
          ["f"%string] ["-1"%string]).
Proof. split; reflexivity. Qed.

Lemma frontend_multi_read_line_witness :
  exists c,
    train_multi.instance
      (snd (frontend_multi.read_line example_tokenizer example_name_value
              ("-1 VP" ++ String TAB "f")%string 1%Z
              (train_multi.mk_state [] [] [])))
    = [] ++ [c]
    /\ (maxent.is_true c = false <-> exists tl, "-1 VP"%string = String "-" tl).
Proof.
  destruct (frontend_multi_read_line example_tokenizer example_name_value
              ("-1 VP" ++ String TAB "f")%string 1%Z
              (train_multi.mk_state [] [] [])) as (_ & _ & H).
  destruct (H "-1 VP"%string ["f"%string])
    as (c & lbl & _ & Hc & Ht & _).
  - reflexivity.
  - discriminate.
  - exists c. split; [exact Hc | exact Ht].
Defined.

Lemma prefix_space (c : ascii) (s : string) :
  String.prefix " " (String c s)
  = if Ascii.ascii_dec " "%char c then true else false.
Proof. cbn. destruct (Ascii.ascii_dec " "%char c); destruct s; reflexivity. Qed.

Lemma index_space_app (pre post : string) :
  index 0 " " pre = None ->
  index 0 " " (pre ++ String " " post) = Some (String.length pre).
Proof.
  induction pre as [|c pre IH]; intros Hno.
  - cbn [append String.length index]. rewrite prefix_space.
    destruct (Ascii.ascii_dec " "%char " "%char); [reflexivity | congruence].
  - cbn [append String.length]. cbn [index] in *.
    rewrite prefix_space in *.
    destruct (Ascii.ascii_dec " "%char c) as [Hc|Hc]; [discriminate|].
    destruct (index 0 " " pre) as [k|] eqn:Hk; [discriminate|].
    rewrite (IH eq_refl). reflexivity.
Qed.

Lemma substring_whole (s : string) : substring 0 (String.length s) s = s.
Proof.
  induction s as [|c s IH]; [reflexivity|]. cbn. rewrite IH. reflexivity.
Qed.

Lemma from_pos_app (pre post : string) :
  frontend_multi.from_pos (pre ++ String " " post) (String.length pre + 1)
  = post.
Proof.
  unfold frontend_multi.from_pos. induction pre as [|c pre IH].
  - cbn. rewrite Nat.sub_0_r. apply substring_whole.
  - cbn [append String.length Nat.add]. cbn [substring].
    replace (S (String.length (pre ++ String " " post))
             - S (String.length pre + 1))%nat
      with (String.length (pre ++ String " " post)
            - (String.length pre + 1))%nat by lia.
    exact IH.
Qed.

(** X17: The label taken from a first field: a field without a space is its
    own label; of a field "pre post" with no space in [pre], the label is
    [post], and the whole field, trailing space included, when [post] is
    empty. *)
Theorem frontend_multi_label_of (pre post : string) :
  index 0 " " pre = None ->
  frontend_multi.label_of pre = pre
  /\ frontend_multi.label_of (pre ++ String " " post)
     = if is_empty post then (pre ++ String " " post)%string else post.
Proof.
  intros Hno. unfold frontend_multi.label_of. split.
  - rewrite Hno. reflexivity.
  - rewrite (index_space_app pre post Hno), from_pos_app. reflexivity.
Qed.

Lemma frontend_multi_label_of_witness :
  frontend_multi.label_of "+1" = "+1"%string
  /\ frontend_multi.label_of ("+1" ++ String " " "NP") = "NP"%string.
Proof. apply (frontend_multi_label_of "+1" "NP"). reflexivity. Defined.

(** ** frontend/multi_select.cpp: read_line *)

Lemma select_read_labels_spec (tokens : list string) :
  forall s : multi_select.state,
  exists extra s',
    multi_select.read_labels tokens s = (Return tt, s')
    /\ multi_select.label (multi_select.instance s')
       = multi_select.label (multi_select.instance s)
    /\ multi_select.candidates (multi_select.instance s')
       = multi_select.candidates (multi_select.instance s) ++ extra
    /\ (multi_select.label (multi_select.instance s) ∉ extra)
    /\ multi_select.attributes (multi_select.instance s')
       = multi_select.attributes (multi_select.instance s)
    /\ multi_select.get_group (multi_select.instance s')
       = multi_select.get_group (multi_select.instance s)
    /\ multi_select.attrs s' = multi_select.attrs s
    /\ multi_select.labels s `prefix_of` multi_select.labels s'
    /\ Forall (fun id => is_Some (quark.to_item (multi_select.labels s') id))
         extra.
Proof.
  induction tokens as [|l rest IH]; intros s.
  - exists [], s. cbn. rewrite app_nil_r.
    repeat split; try reflexivity; [apply not_elem_of_nil | constructor].
  - cbn [multi_select.read_labels].
    destruct (negb (is_empty l)); [|apply IH].
    unfold bind at 1. unfold multi_select.intern_label.
    pose proof (quark_intern_spec (multi_select.labels s) l) as [Hpre Hitem].
    destruct (quark.intern (multi_select.labels s) l) as [lid q1].
    cbn [fst snd] in Hpre, Hitem.
    unfold bind at 1. unfold multi_select.get_label.
    cbn [multi_select.instance].
    unfold bind at 1.
    destruct (Nat.eqb_spec lid (multi_select.label (multi_select.instance s)))
      as [Heq|Hneq]; cbn [negb].
    + unfold ret.
      destruct (IH (multi_select.mk_state (multi_select.instance s)
                      (multi_select.attrs s) q1))
        as (extra & s' & -> & H1 & H2 & H3 & H4 & H5 & H6 & H7 & H8).
      cbn [multi_select.instance multi_select.attrs multi_select.labels]
        in *.
      exists extra, s'. repeat split; try assumption.
      etransitivity; eassumption.
    + unfold multi_select.append_candidate.
      cbn [multi_select.instance multi_select.attrs multi_select.labels].
      match goal with
      | |- context [multi_select.read_labels rest ?s1] =>
          destruct (IH s1)
            as (extra & s' & -> & H1 & H2 & H3 & H4 & H5 & H6 & H7 & H8)
      end.
      cbn [multi_select.instance multi_select.attrs multi_select.labels
           multi_select.label multi_select.candidates
           multi_select.attributes multi_select.get_group] in *.
      exists (lid :: extra), s'.
      split; [reflexivity|]. split; [exact H1|].
      split; [rewrite H2, <- app_assoc; reflexivity|].
      split.
      { intros Hin. apply elem_of_cons in Hin as [Hin|Hin];
          [congruence | exact (H3 Hin)]. }
      split; [exact H4|]. split; [exact H5|]. split; [exact H6|].
      split; [etransitivity; eassumption|].
      constructor; [|exact H8].
      exists l. eapply quark_to_item_prefix; eassumption.
Qed.

Lemma select_read_attributes_spec (get_name_value : string -> string * R)
    (fields : list string) :
  forall s : multi_select.state,
  exists fs s',
    multi_select.read_attributes get_name_value fields s = (Return tt, s')
    /\ multi_select.label (multi_select.instance s')
       = multi_select.label (multi_select.instance s)
    /\ multi_select.candidates (multi_select.instance s')
       = multi_select.candidates (multi_select.instance s)
    /\ multi_select.attributes (multi_select.instance s')
       = multi_select.attributes (multi_select.instance s) ++ fs
    /\ multi_select.get_group (multi_select.instance s')
       = multi_select.get_group (multi_select.instance s)
    /\ multi_select.labels s' = multi_select.labels s
    /\ multi_select.attrs s `prefix_of` multi_select.attrs s'
    /\ decode (multi_select.attrs s') fs = parsed_fields get_name_value fields.
Proof.
  induction fields as [|f rest IH]; intros s.
  - exists [], s. cbn. rewrite app_nil_r. repeat split; reflexivity.
  - rewrite parsed_fields_cons. cbn [multi_select.read_attributes].
    destruct (negb (is_empty f)); [|apply IH].
    destruct (get_name_value f) as [name value] eqn:Hnv. cbn [fst snd].
    unfold bind, multi_select.append_attribute.
    pose proof (quark_intern_spec (multi_select.attrs s) name)
      as [Hpre Hitem].
    destruct (quark.intern (multi_select.attrs s) name) as [id q1].
    cbn [fst snd] in Hpre, Hitem.
    match goal with
    | |- context [multi_select.read_attributes _ rest ?s1] =>
        destruct (IH s1) as (fs & s' & -> & H1 & H2 & H3 & H4 & H5 & H6 & H7)
    end.
    cbn [multi_select.instance multi_select.attrs multi_select.labels
         multi_select.label multi_select.candidates
         multi_select.attributes multi_select.get_group] in *.
    exists ((id, value) :: fs), s'.
    split; [reflexivity|]. split; [exact H1|]. split; [exact H2|].
    split; [rewrite H3, <- app_assoc; reflexivity|].
    split; [exact H4|]. split; [exact H5|].
    split; [etransitivity; eassumption|].
    unfold decode. cbn [map fst snd]. f_equal; [|exact H7].
    f_equal. eapply quark_to_item_prefix; eassumption.
Qed.

Lemma select_read_line_cases (tokenizer : string -> ascii -> list string)
    (get_name_value : string -> string * R) (line : string) (lines : Z)
    (s : multi_select.state) :
  match tokenizer line TAB with
  | [] =>
      multi_select.read_line tokenizer get_name_value line lines s
      = (Throw (mk_invalid_data "no field in the line" lines), s)
  | field :: rest =>
      if is_empty field then
        multi_select.read_line tokenizer get_name_value line lines s
        = (Throw (mk_invalid_data "an empty label found" lines), s)
      else
        match tokenizer field " "%char with
        | [] =>
            multi_select.read_line tokenizer get_name_value line lines s
            = (Throw (mk_invalid_data "an empty label found" lines), s)
        | l :: others =>
            exists s' gold extra fs,
              multi_select.read_line tokenizer get_name_value line lines s
              = (Return tt, s')
              /\ multi_select.label (multi_select.instance s') = gold
              /\ quark.to_item (multi_select.labels s') gold = Some l
              /\ multi_select.candidates (multi_select.instance s')
                 = multi_select.candidates (multi_select.instance s)
                   ++ gold :: extra
              /\ (gold ∉ extra)
              /\ Forall (fun id =>
                           is_Some (quark.to_item (multi_select.labels s') id))
                   extra
              /\ multi_select.attributes (multi_select.instance s')
                 = multi_select.attributes (multi_select.instance s) ++ fs
              /\ decode (multi_select.attrs s') fs
                 = parsed_fields get_name_value rest
              /\ multi_select.get_group (multi_select.instance s')
                 = multi_select.get_group (multi_select.instance s)
        end
  end.
Proof.
  unfold multi_select.read_line.
  destruct (tokenizer line TAB) as [|field rest]; [reflexivity|].
  destruct (is_empty field); [reflexivity|].
  destruct (tokenizer field " "%char) as [|l others]; [reflexivity|].
  unfold bind at 1. unfold multi_select.intern_label.
  pose proof (quark_intern_spec (multi_select.labels s) l) as [_ Hitem].
  destruct (quark.intern (multi_select.labels s) l) as [lid q1].
  cbn [fst snd] in Hitem.
  unfold bind at 1. unfold multi_select.set_label.
  cbn [multi_select.instance multi_select.attrs multi_select.labels].
  unfold bind at 1. unfold multi_select.append_candidate.
  cbn [multi_select.instance multi_select.attrs multi_select.labels
       multi_select.label multi_select.candidates multi_select.attributes
       multi_select.get_group].
  unfold bind at 1.
  match goal with
  | |- context [multi_select.read_labels others ?s1] =>
      destruct (select_read_labels_spec others s1)
        as (extra & s2 & -> & L1 & L2 & L3 & L4 & L5 & L6 & L7 & L8)
  end.
  cbn [multi_select.instance multi_select.attrs multi_select.labels
       multi_select.label multi_select.candidates multi_select.attributes
       multi_select.get_group] in *.
  destruct (select_read_attributes_spec get_name_value rest s2)
    as (fs & s' & -> & A1 & A2 & A3 & A4 & A5 & A6 & A7).
  exists s', lid, extra, fs.
  split; [reflexivity|]. split; [congruence|].
  split.
  { rewrite A5. eapply quark_to_item_prefix; eassumption. }
  split; [rewrite A2, L2, <- app_assoc; reflexivity|].
  split; [exact L3|].
  split; [rewrite A5; exact L8|].
  split; [rewrite A3, L4; reflexivity|].
  split; [exact A7|]. congruence.
Qed.

(** X18: [read_line] of frontend/multi_select.cpp throws exactly when the line
    has no field, or its first field is empty, or that field yields no
    space-separated label, before any write.  Otherwise the first label
    becomes the gold label of the instance and the first candidate it
    appends, and no candidate appended after it is the gold label again;
    the attributes are the (name, value) pairs of the non-empty fields
    in input order, and the group is kept. *)
Theorem select_read_line (tokenizer : string -> ascii -> list string)
    (get_name_value : string -> string * R) (line : string) (lines : Z)
    (s : multi_select.state) :
  let fields := tokenizer line TAB in
  let r := multi_select.read_line tokenizer get_name_value line lines s in
  (is_throw (fst r) <->
   fields = [] \/ (exists rest, fields = ""%string :: rest)
   \/ (exists field rest, fields = field :: rest
                          /\ tokenizer field " "%char = []))
  /\ (is_throw (fst r) -> snd r = s)
  /\ (forall field rest l others,
        fields = field :: rest -> field <> ""%string ->
        tokenizer field " "%char = l :: others ->
        exists gold extra fs,
          fst r = Return tt
          /\ multi_select.label (multi_select.instance (snd r)) = gold
          /\ quark.to_item (multi_select.labels (snd r)) gold = Some l
          /\ multi_select.candidates (multi_select.instance (snd r))
             = multi_select.candidates (multi_select.instance s)
               ++ gold :: extra
          /\ (gold ∉ extra)
          /\ Forall (fun id =>
                       is_Some (quark.to_item (multi_select.labels (snd r)) id))
               extra
          /\ multi_select.attributes (multi_select.instance (snd r))
             = multi_select.attributes (multi_select.instance s) ++ fs
          /\ decode (multi_select.attrs (snd r)) fs
             = parsed_fields get_name_value rest
          /\ multi_select.get_group (multi_select.instance (snd r))
             = multi_select.get_group (multi_select.instance s)).
Proof.
  intros fields r.
  pose proof (select_read_line_cases tokenizer get_name_value line lines s)
    as Hc.
  fold fields in Hc. fold r in Hc.
  destruct fields as [|field rest].
  { rewrite Hc. cbn. repeat split; auto; intros; discriminate. }
  destruct (is_empty field) eqn:He.
  { apply is_empty_spec in He. subst field. rewrite Hc. cbn.
    repeat split; eauto; intros; congruence. }
  assert (Hne : field <> ""%string).
  { intros ->. cbn in He. discriminate. }
  destruct (tokenizer field " "%char) as [|l others] eqn:Ht.
  { rewrite Hc. cbn [fst snd is_throw].
    split; [|split; [reflexivity|]].
    - split; [|trivial]. intros _. right. right. exists field, rest.
      split; [reflexivity | exact Ht].
    - intros f0 r0 l0 o0 H _ Ht0. injection H as <- <-. congruence. }
  destruct Hc as (s' & gold & extra & fs & -> & H1 & H2 & H3 & H4 & H5 & H6
                  & H7 & H8).
  cbn [fst snd is_throw].
  split; [|split; [contradiction|]].
  - split; [contradiction|].
    intros [H|[[r0 H]|(f0 & r0 & H & Ht0)]]; congruence.
  - intros f0 r0 l0 o0 H _ Ht0. injection H as <- <-.
    rewrite Ht in Ht0. injection Ht0 as <- <-.
    exists gold, extra, fs. repeat split; assumption.
Qed.

(** The line "B A B C A<TAB>f" (gold label B): the candidates are B, A,
    C, A; B is not appended again. *)
Example select_read_line_example :
  multi_select.read_line example_tokenizer example_name_value
    ("B A B C A" ++ String TAB "f")%string 1%Z
    (multi_select.mk_state (multi_select.mk_instance 0 [] [] 0%Z) [] [])
  = (Return tt,
     multi_select.mk_state
       (multi_select.mk_instance 0 [0; 1; 2; 1]%nat [(0%nat, 1)] 0%Z)
       ["f"%string] ["B"%string; "A"%string; "C"%string]).
Proof. reflexivity. Qed.

Lemma select_read_line_witness :
  exists gold extra,
    multi_select.candidates
      (multi_select.instance
         (snd (multi_select.read_line example_tokenizer example_name_value
                 ("B A B C A" ++ String TAB "f")%string 1%Z
                 (multi_select.mk_state (multi_select.mk_instance 0 [] [] 0%Z)
                    [] []))))
    = [] ++ gold :: extra
    /\ (gold ∉ extra).
Proof.
  destruct (select_read_line example_tokenizer example_name_value
              ("B A B C A" ++ String TAB "f")%string 1%Z
              (multi_select.mk_state (multi_select.mk_instance 0 [] [] 0%Z)
                 [] [])) as (_ & _ & H).
  destruct (H "B A B C A"%string ["f"%string] "B"%string
              ["A"%string; "B"%string; "C"%string; "A"%string])
    as (gold & extra & fs & _ & _ & _ & Hc & Hn & _).
  - reflexivity.
  - discriminate.
  - reflexivity.
  - exists gold, extra. split; [exact Hc | exact Hn].
Defined.

(** ** frontend/train/attribute.cpp: read_stream *)

(** *** The text of a stream *)

(** Evaluating the lines of a concrete stream, and a condition on one of
    them. *)
Ltac eval_lines :=
  match goal with
  | |- context [fst (getlines ?s)] =>
      let x := eval vm_compute in (fst (getlines s)) in
      change (fst (getlines s)) with x
  end.

Ltac check_line :=
  first [ intros _; reflexivity
        | let H := fresh in intros H; vm_compute in H; discriminate H ].

Lemma getlines_no_newline (s : string) :
  no_newline s -> getlines s = ([], s).
Proof.
  induction s as [|c r IH]; [reflexivity|].
  intros [Hc Hr]. cbn [getlines]. rewrite (IH Hr), Hc. reflexivity.
Qed.

Lemma getlines_line (l rest : string) :
  no_newline l ->
  getlines (l ++ String NL rest)
  = (l :: fst (getlines rest), snd (getlines rest)).
Proof.
  induction l as [|c r IH].
  - intros _. cbn [String.append getlines].
    destruct (getlines rest) as [ls last]. rewrite Ascii.eqb_refl.
    reflexivity.
  - intros [Hc Hr]. cbn [String.append getlines].
    rewrite (IH Hr), Hc. reflexivity.
Qed.

(** *** The dictionaries only grow *)

Lemma decode_prefix (q q' : quark.t) (fs : features_type)
    (l : list (option string * R)) :
  q `prefix_of` q' -> decode q fs = l ->
  Forall (fun p => is_Some (fst p)) l -> decode q' fs = l.
Proof.
  intros Hpre. revert l. induction fs as [|[k v] fs IH]; intros l Hd Hall.
  - exact Hd.
  - unfold decode in *. cbn [map fst snd] in *. subst l.
    apply Forall_cons in Hall as [[name Hname] Hall]. cbn [fst] in Hname.
    f_equal.
    + f_equal. rewrite Hname.
      eapply quark_to_item_prefix; eassumption.
    + apply IH; [reflexivity | exact Hall].
Qed.

Lemma parsed_fields_named (get_name_value : string -> string * R)
    (fields : list string) :
  Forall (fun p => is_Some (fst p)) (parsed_fields get_name_value fields).
Proof.
  unfold parsed_fields. apply Forall_map. apply Forall_forall.
  intros f _. cbn. eexists. reflexivity.
Qed.

Lemma attribute_reads_as_prefix (tokenizer : string -> ascii -> list string)
    (get_name_value : string -> string * R) (attrs attrs' labels labels'
      : quark.t) (line : string) (inst : train_attribute.instance_type) :
  attrs `prefix_of` attrs' -> labels `prefix_of` labels' ->
  attribute_reads_as tokenizer get_name_value attrs labels line inst ->
  attribute_reads_as tokenizer get_name_value attrs' labels' line inst.
Proof.
  intros Ha Hl (itv & rest & lid & Ht & Hlab & Hitem & Hdec).
  exists itv, rest, lid. split; [exact Ht|]. split; [exact Hlab|].
  split; [eapply quark_to_item_prefix; eassumption|].
  eapply decode_prefix; [exact Ha | exact Hdec | apply parsed_fields_named].
Qed.

(** *** One line *)

Lemma attribute_read_new_line_ok (tokenizer : string -> ascii -> list string)
    (get_name_value : string -> string * R) (line : string) (lines : Z)
    (d : train_attribute_data.data) :
  has_label tokenizer line = true ->
  exists d' inst,
    train_attribute_data.read_new_line tokenizer get_name_value line lines d
    = (Return tt, d')
    /\ train_attribute_data.instances d'
       = train_attribute_data.instances d ++ [inst]
    /\ attribute_reads_as tokenizer get_name_value
         (train_attribute_data.features d') (train_attribute_data.labels d')
         line inst
    /\ train_attribute_data.features d
       `prefix_of` train_attribute_data.features d'
    /\ train_attribute_data.labels d
       `prefix_of` train_attribute_data.labels d'.
Proof.
  unfold has_label, train_attribute_data.read_new_line,
    train_attribute.read_line.
  destruct (tokenizer line TAB) as [|itv rest] eqn:Ht; [discriminate|].
  intros He. destruct (is_empty itv); [discriminate|].
  unfold bind at 1. unfold train_attribute.set_label.
  cbn [train_attribute.labels train_attribute.attrs
       train_attribute.instance].
  pose proof (quark_intern_spec (train_attribute_data.labels d) itv)
    as [Hpre Hitem].
  destruct (quark.intern (train_attribute_data.labels d) itv) as [lid q1].
  cbn [fst snd] in Hpre, Hitem.
  match goal with
  | |- context [train_attribute.read_attributes _ rest ?s1] =>
      destruct (attribute_read_attributes_spec get_name_value rest s1)
        as (fs & s' & Hrun & Hlabel & Hattr & Hlab & Hpre' & Hdec)
  end.
  cbn [train_attribute.instance train_attribute.labels
       train_attribute.attrs train_attribute.get_label
       train_attribute.attributes train_attribute_data.new_instance]
    in Hlabel, Hattr, Hlab, Hpre'.
  rewrite Hrun.
  eexists _, (train_attribute.instance s').
  split; [reflexivity|].
  cbn [train_attribute_data.instances train_attribute_data.features
       train_attribute_data.labels].
  split; [reflexivity|].
  split.
  { exists itv, rest, lid. split; [exact Ht|]. split; [exact Hlabel|].
    split; [rewrite Hlab; exact Hitem|].
    rewrite Hattr. exact Hdec. }
  split; [exact Hpre'|]. rewrite Hlab. exact Hpre.
Qed.

(** *** The loop *)

Lemma data_line_step {S : Type} (body : string -> Z -> S -> outcome S)
    (line : string) (ls : list string) (lines : Z) (s : S) :
  read_lines body (line :: ls) lines s
  = if data_line line then
      match body line (lines + 1)%Z s with
      | Done s' => read_lines body ls (lines + 1)%Z s'
      | o => o
      end
    else read_lines body ls (lines + 1)%Z s.
Proof.
  unfold data_line. cbn [read_lines].
  destruct (is_empty line); [reflexivity|].
  destruct (compare0 line 1 "#"); reflexivity.
Qed.

(** A loop body that appends one instance for each line it accepts, and
    throws at the others with the number of the line, leaving the new
    instance behind. *)
Section one_instance_per_line.

Context {St I : Type}.
Variable body : string -> Z -> St -> outcome St.
Variable insts : St -> list I.
Variable grows : St -> St -> Prop.
Variable reads_as : St -> string -> I -> Prop.
Variable accepted : string -> bool.
Variable fresh : I.

Hypothesis grows_refl : forall s, grows s s.
Hypothesis grows_trans :
  forall s1 s2 s3, grows s1 s2 -> grows s2 s3 -> grows s1 s3.
Hypothesis reads_as_grows :
  forall s s' line inst,
    grows s s' -> reads_as s line inst -> reads_as s' line inst.
Hypothesis body_accepted :
  forall line lines s, accepted line = true ->
    exists s' inst,
      body line lines s = Done s' /\ insts s' = insts s ++ [inst]
      /\ reads_as s' line inst /\ grows s s'.
Hypothesis body_refused :
  forall line lines s, accepted line = false ->
    exists e s',
      body line lines s = Raised e s' /\ lineno e = lines
      /\ insts s' = insts s ++ [fresh] /\ grows s s'.

Lemma read_lines_accepted (ls : list string) :
  forall (lines : Z) (s : St),
  Forall (fun l => data_line l = true -> accepted l = true) ls ->
  exists s' new,
    read_lines body ls lines s = Done s'
    /\ insts s' = insts s ++ new
    /\ Forall2 (reads_as s') (List.filter data_line ls) new
    /\ grows s s'.
Proof.
  induction ls as [|line ls IH]; intros lines s Hall.
  - exists s, []. cbn. rewrite app_nil_r.
    repeat split; [constructor | apply grows_refl].
  - apply Forall_cons in Hall as [Hline Hall].
    rewrite data_line_step. cbn [List.filter].
    destruct (data_line line) eqn:Hd; [|apply IH; exact Hall].
    destruct (body_accepted line (lines + 1)%Z s (Hline eq_refl))
      as (s1 & inst & -> & Hi1 & Hr1 & Hg1).
    destruct (IH (lines + 1)%Z s1 Hall) as (s' & new & -> & Hi & Hr & Hg).
    exists s', (inst :: new).
    split; [reflexivity|].
    split; [rewrite Hi, Hi1, <- app_assoc; reflexivity|].
    split; [|eapply grows_trans; eassumption].
    constructor; [|exact Hr]. eapply reads_as_grows; eassumption.
Qed.

Lemma read_lines_refused (pre : list string) :
  forall (bad : string) (post : list string) (lines : Z) (s : St),
  Forall (fun l => data_line l = true -> accepted l = true) pre ->
  data_line bad = true -> accepted bad = false ->
  exists e s' new,
    read_lines body (pre ++ bad :: post) lines s = Raised e s'
    /\ lineno e = (lines + Z.of_nat (length pre) + 1)%Z
    /\ insts s' = insts s ++ new ++ [fresh]
    /\ Forall2 (reads_as s') (List.filter data_line pre) new
    /\ grows s s'.
Proof.
  induction pre as [|line pre IH]; intros bad post lines s Hall Hd Hbad.
  - cbn [app]. rewrite data_line_step, Hd.
    destruct (body_refused bad (lines + 1)%Z s Hbad)
      as (e & s' & -> & He & Hi & Hg).
    exists e, s', []. split; [reflexivity|].
    split; [rewrite He; cbn [length]; lia|].
    split; [exact Hi|]. split; [constructor | exact Hg].
  - apply Forall_cons in Hall as [Hline Hall].
    cbn [app]. rewrite data_line_step. cbn [List.filter].
    destruct (data_line line) eqn:Hdl.
    + destruct (body_accepted line (lines + 1)%Z s (Hline eq_refl))
        as (s1 & inst & -> & Hi1 & Hr1 & Hg1).
      destruct (IH bad post (lines + 1)%Z s1 Hall Hd Hbad)
        as (e & s' & new & Hrun & He & Hi & Hr & Hg).
      exists e, s', (inst :: new).
      split; [exact Hrun|].
      split; [rewrite He; cbn [length]; lia|].
      split; [rewrite Hi, Hi1, <- !app_assoc; reflexivity|].
      split; [|eapply grows_trans; eassumption].
      constructor; [|exact Hr]. eapply reads_as_grows; eassumption.
    + destruct (IH bad post (lines + 1)%Z s Hall Hd Hbad)
        as (e & s' & new & Hrun & He & Hi & Hr & Hg).
      exists e, s', new.
      split; [exact Hrun|].
      split; [rewrite He; cbn [length]; lia|].
      repeat split; assumption.
Qed.

End one_instance_per_line.

Lemma attribute_read_lines_ok (tokenizer : string -> ascii -> list string)
    (get_name_value : string -> string * R) (ls : list string)
    (lines : Z) (d : train_attribute_data.data) :
  Forall (fun l => data_line l = true -> has_label tokenizer l = true) ls ->
  exists d' new,
    read_lines
      (fun line lines =>
         run (train_attribute_data.read_new_line tokenizer get_name_value
                line lines)) ls lines d
    = Done d'
    /\ train_attribute_data.instances d'
       = train_attribute_data.instances d ++ new
    /\ Forall2 (attribute_reads_as tokenizer get_name_value
                  (train_attribute_data.features d')
                  (train_attribute_data.labels d'))
         (List.filter data_line ls) new
    /\ attribute_data_grows d d'.
Proof.
  apply (read_lines_accepted _ train_attribute_data.instances
           attribute_data_grows
           (fun d => attribute_reads_as tokenizer get_name_value
                       (train_attribute_data.features d)
                       (train_attribute_data.labels d))
           (has_label tokenizer)).
  - intros s. split; reflexivity.
  - intros s1 s2 s3 [H1 H2] [H3 H4]. split; etransitivity; eassumption.
  - intros s s' line inst [Hf Hl].
    apply attribute_reads_as_prefix; assumption.
  - intros line n s Hok.
    destruct (attribute_read_new_line_ok tokenizer get_name_value line n s
                Hok) as (d1 & inst & Hrun & Hi & Hr & Hf & Hl).
    exists d1, inst. unfold run. rewrite Hrun.
    repeat split; assumption.
Qed.

Lemma attribute_read_lines_bad (tokenizer : string -> ascii -> list string)
    (get_name_value : string -> string * R) (pre : list string)
    (bad : string) (post : list string) (lines : Z)
    (d : train_attribute_data.data) :
  Forall (fun l => data_line l = true -> has_label tokenizer l = true) pre ->
  data_line bad = true -> has_label tokenizer bad = false ->
  exists e d' new,
    read_lines
      (fun line lines =>
         run (train_attribute_data.read_new_line tokenizer get_name_value
                line lines)) (pre ++ bad :: post) lines d
    = Raised e d'
    /\ lineno e = (lines + Z.of_nat (length pre) + 1)%Z
    /\ train_attribute_data.instances d'
       = train_attribute_data.instances d ++ new
         ++ [train_attribute_data.new_instance]
    /\ Forall2 (attribute_reads_as tokenizer get_name_value
                  (train_attribute_data.features d')
                  (train_attribute_data.labels d'))
         (List.filter data_line pre) new
    /\ attribute_data_grows d d'.
Proof.
  apply (read_lines_refused _ train_attribute_data.instances
           attribute_data_grows
           (fun d => attribute_reads_as tokenizer get_name_value
                       (train_attribute_data.features d)
                       (train_attribute_data.labels d))
           (has_label tokenizer)).
  - intros s1 s2 s3 [H1 H2] [H3 H4]. split; etransitivity; eassumption.
  - intros s s' line inst [Hf Hl].
    apply attribute_reads_as_prefix; assumption.
  - intros line n s Hok.
    destruct (attribute_read_new_line_ok tokenizer get_name_value line n s
                Hok) as (d1 & inst & Hrun & Hi & Hr & Hf & Hl).
    exists d1, inst. unfold run. rewrite Hrun.
    repeat split; assumption.
  - intros line n s Hbad.
    destruct (attribute_read_new_line_bad tokenizer get_name_value line n s
                Hbad) as (e & Hrun & He).
    eexists e, _. unfold run. rewrite Hrun.
    split; [reflexivity|]. split; [exact He|].
    split; [reflexivity|]. split; reflexivity.
Qed.

(** X19: [read_stream] of frontend/train/attribute.cpp appends one instance for
    each line that is neither empty nor a comment, in the order of the
    lines, each holding the label and the attributes of its line, and the
    dictionaries only grow.  At the first such line without a label it
    throws [invalid_data] carrying the 1-based number of that line (empty
    and comment lines counted), leaving the instances of the lines before
    it and, at the back, the empty instance created for the bad line. *)
Theorem attribute_read_stream (tokenizer : string -> ascii -> list string)
    (get_name_value : string -> string * R) (input : string) (group : Z)
    (d : train_attribute_data.data) :
  let ls := fst (getlines input) in
  let r := train_attribute_data.read_stream tokenizer get_name_value input
             group d in
  (Forall (fun l => data_line l = true -> has_label tokenizer l = true) ls ->
   exists d' new,
     r = Done d'
     /\ train_attribute_data.instances d'
        = train_attribute_data.instances d ++ new
     /\ Forall2 (attribute_reads_as tokenizer get_name_value
                   (train_attribute_data.features d')
                   (train_attribute_data.labels d'))
          (List.filter data_line ls) new
     /\ train_attribute_data.features d
        `prefix_of` train_attribute_data.features d'
     /\ train_attribute_data.labels d
        `prefix_of` train_attribute_data.labels d')
  /\ (forall pre bad post,
        ls = pre ++ bad :: post ->
        Forall (fun l => data_line l = true -> has_label tokenizer l = true)
          pre ->
        data_line bad = true -> has_label tokenizer bad = false ->
        exists e d' new,
          r = Raised e d'
          /\ lineno e = (Z.of_nat (length pre) + 1)%Z
          /\ train_attribute_data.instances d'
             = train_attribute_data.instances d ++ new
               ++ [train_attribute_data.new_instance]
          /\ Forall2 (attribute_reads_as tokenizer get_name_value
                        (train_attribute_data.features d')
                        (train_attribute_data.labels d'))
               (List.filter data_line pre) new).
Proof.
  intros ls r. subst r. unfold train_attribute_data.read_stream.
  fold ls. split.
  - intros Hall.
    destruct (attribute_read_lines_ok tokenizer get_name_value ls 0 d Hall)
      as (d' & new & Hrun & Hi & Hr & Hf & Hl).
    exists d', new. repeat split; assumption.
  - intros pre bad post -> Hall Hd Hbad.
    destruct (attribute_read_lines_bad tokenizer get_name_value pre bad post
                0 d Hall Hd Hbad)
      as (e & d' & new & Hrun & He & Hi & Hr & _).
    exists e, d', new. repeat split; assumption.
Qed.

(** Three lines, a comment and an empty line among them, and a last line
    without newline, which is not read. *)
Example attribute_read_stream_example :
  train_attribute_data.read_stream example_tokenizer example_name_value
    ("# head" ++ String NL ("A" ++ String TAB ("f" ++ String NL
       (String NL ("B" ++ String TAB ("g" ++ String TAB ("f" ++ String NL
          "C")))))))%string 0%Z
    (train_attribute_data.mk_data [] [] [])
  = Done (train_attribute_data.mk_data
            [train_attribute.mk_instance (Some 0%nat) [(0%nat, 1)];
             train_attribute.mk_instance (Some 1%nat)
               [(1%nat, 1); (0%nat, 1)]]
            ["f"%string; "g"%string] ["A"%string; "B"%string]).
Proof. reflexivity. Qed.

(** A line that begins with a tab has an empty label: the reader throws at
    line 3 and leaves an empty instance behind. *)
Example attribute_read_stream_throw_example :
  train_attribute_data.read_stream example_tokenizer example_name_value
    ("A" ++ String NL (String NL (String TAB ("f" ++ String NL
       ("B" ++ String NL "")))))%string 0%Z
    (train_attribute_data.mk_data [] [] [])
  = Raised (mk_invalid_data "an empty label found" 3)
      (train_attribute_data.mk_data
         [train_attribute.mk_instance (Some 0%nat) [];
          train_attribute_data.new_instance]
         [] ["A"%string]).
Proof. reflexivity. Qed.

Lemma attribute_read_stream_witness :
  exists d',
    train_attribute_data.read_stream example_tokenizer example_name_value
      ("A" ++ String TAB ("f" ++ String NL (String NL "")))%string 0%Z
      (train_attribute_data.mk_data [] [] [])
    = Done d'.
Proof.
  destruct (attribute_read_stream example_tokenizer example_name_value
              ("A" ++ String TAB ("f" ++ String NL (String NL "")))%string
              0%Z (train_attribute_data.mk_data [] [] [])) as [H _].
  destruct H as (d' & new & H & _).
  - eval_lines. repeat (constructor; [check_line|]). constructor.
  - exists d'. exact H.
Defined.

(** *** The text after the last newline *)

Lemma getlines_fst_cons (c : ascii) (r r' : string) :
  fst (getlines r) = fst (getlines r') ->
  fst (getlines (String c r)) = fst (getlines (String c r')).
Proof.
  cbn [getlines].
  destruct (getlines r) as [ls last], (getlines r') as [ls' last'].
  cbn [fst]. intros ->.
  destruct (Ascii.eqb c NL); [reflexivity|].
  destruct ls'; reflexivity.
Qed.

Lemma getlines_unterminated (text last : string) :
  no_newline last ->
  fst (getlines (text ++ String NL last))
  = fst (getlines (text ++ String NL "")).
Proof.
  intros Hlast. induction text as [|c text IH].
  - cbn [String.append getlines]. rewrite (getlines_no_newline last Hlast).
    rewrite Ascii.eqb_refl. reflexivity.
  - cbn [String.append]. apply getlines_fst_cons. exact IH.
Qed.

(** X20: [read_stream] of frontend/train/attribute.cpp does not read what
    follows the last newline of the stream: [std::getline] sets the
    end-of-file bit there and the loop breaks before the line is counted
    or parsed.  A stream without any newline leaves the data as they
    are. *)
Theorem attribute_read_stream_last_line
    (tokenizer : string -> ascii -> list string)
    (get_name_value : string -> string * R) (text last : string) (group : Z)
    (d : train_attribute_data.data) :
  no_newline last ->
  train_attribute_data.read_stream tokenizer get_name_value
    (text ++ String NL last) group d
  = train_attribute_data.read_stream tokenizer get_name_value
      (text ++ String NL "") group d
  /\ train_attribute_data.read_stream tokenizer get_name_value last group d
     = Done d.
Proof.
  intros Hlast. unfold train_attribute_data.read_stream. split.
  - rewrite (getlines_unterminated text last Hlast). reflexivity.
  - rewrite (getlines_no_newline last Hlast). reflexivity.
Qed.

Lemma attribute_read_stream_last_line_witness :
  train_attribute_data.read_stream example_tokenizer example_name_value
    ("A" ++ String TAB "f") 0%Z (train_attribute_data.mk_data [] [] [])
  = Done (train_attribute_data.mk_data [] [] []).
Proof.
  destruct (attribute_read_stream_last_line example_tokenizer
              example_name_value "" ("A" ++ String TAB "f") 0%Z
              (train_attribute_data.mk_data [] [] [])) as [_ H].
  - cbn. repeat split.
  - exact H.
Defined.

(** ** frontend/multi_select.cpp: read_stream *)

Lemma select_reads_as_prefix (tokenizer : string -> ascii -> list string)
    (get_name_value : string -> string * R) (attrs attrs' labels labels'
      : quark.t) (group : Z) (line : string)
    (inst : multi_select.instance_type) :
  attrs `prefix_of` attrs' -> labels `prefix_of` labels' ->
  select_reads_as tokenizer get_name_value attrs labels group line inst ->
  select_reads_as tokenizer get_name_value attrs' labels' group line inst.
Proof.
  intros Ha Hl (field & rest & l & others & extra & H1 & H2 & H3 & H4 & H5
                & H6 & H7).
  exists field, rest, l, others, extra.
  split; [exact H1|]. split; [exact H2|].
  split; [eapply quark_to_item_prefix; eassumption|].
  split; [exact H4|]. split; [exact H5|].
  split; [|exact H7].
  eapply decode_prefix; [exact Ha | exact H6 | apply parsed_fields_named].
Qed.

Lemma select_read_new_line_ok (tokenizer : string -> ascii -> list string)
    (get_name_value : string -> string * R) (default_label : nat)
    (group : Z) (line : string) (lines : Z) (d : multi_select_data.data) :
  has_gold_label tokenizer line = true ->
  exists d' inst,
    multi_select_data.read_new_line tokenizer get_name_value default_label
      group line lines d
    = (Return tt, d')
    /\ multi_select_data.instances d'
       = multi_select_data.instances d ++ [inst]
    /\ select_reads_as tokenizer get_name_value
         (multi_select_data.attributes d') (multi_select_data.labels d')
         group line inst
    /\ multi_select_data.attributes d
       `prefix_of` multi_select_data.attributes d'
    /\ multi_select_data.labels d `prefix_of` multi_select_data.labels d'.
Proof.
  unfold has_gold_label, multi_select_data.read_new_line,
    multi_select.read_line.
  destruct (tokenizer line TAB) as [|field rest] eqn:Ht; [discriminate|].
  destruct (is_empty field); [discriminate|]. cbn [negb andb].
  destruct (tokenizer field " "%char) as [|l others] eqn:Hl; [discriminate|].
  intros _.
  unfold bind at 1. unfold multi_select.intern_label.
  cbn [multi_select.labels multi_select.attrs multi_select.instance].
  pose proof (quark_intern_spec (multi_select_data.labels d) l)
    as [Hpre Hitem].
  destruct (quark.intern (multi_select_data.labels d) l) as [lid q1].
  cbn [fst snd] in Hpre, Hitem.
  unfold bind at 1. unfold multi_select.set_label.
  cbn [multi_select.instance multi_select.attrs multi_select.labels].
  unfold bind at 1. unfold multi_select.append_candidate.
  cbn [multi_select.instance multi_select.attrs multi_select.labels
       multi_select.label multi_select.candidates multi_select.attributes
       multi_select.get_group app].
  unfold bind at 1.
  match goal with
  | |- context [multi_select.read_labels others ?s1] =>
      destruct (select_read_labels_spec others s1)
        as (extra & s2 & -> & L1 & L2 & L3 & L4 & L5 & L6 & L7 & L8)
  end.
  cbn [multi_select.instance multi_select.attrs multi_select.labels
       multi_select.label multi_select.candidates multi_select.attributes
       multi_select.get_group] in *.
  destruct (select_read_attributes_spec get_name_value rest s2)
    as (fs & s' & -> & A1 & A2 & A3 & A4 & A5 & A6 & A7).
  eexists _, (multi_select.instance s').
  split; [reflexivity|].
  cbn [multi_select_data.instances multi_select_data.attributes
       multi_select_data.labels].
  split; [reflexivity|].
  split.
  { exists field, rest, l, others, extra.
    split; [exact Ht|]. split; [exact Hl|].
    split.
    { rewrite A1, L1, A5. eapply quark_to_item_prefix; eassumption. }
    split; [rewrite A2, L2, A1, L1; reflexivity|].
    split; [rewrite A1, L1; exact L3|].
    split; [rewrite A3, L4; exact A7|].
    rewrite A4, L5. reflexivity. }
  split; [rewrite <- L6; exact A6|].
  rewrite A5. etransitivity; eassumption.
Qed.

Lemma select_read_new_line_bad (tokenizer : string -> ascii -> list string)
    (get_name_value : string -> string * R) (default_label : nat)
    (group : Z) (line : string) (lines : Z) (d : multi_select_data.data) :
  has_gold_label tokenizer line = false ->
  exists e,
    multi_select_data.read_new_line tokenizer get_name_value default_label
      group line lines d
    = (Throw e,
       multi_select_data.mk_data
         (multi_select_data.instances d
          ++ [multi_select.mk_instance default_label [] [] group])
         (multi_select_data.attributes d) (multi_select_data.labels d))
    /\ lineno e = lines.
Proof.
  unfold has_gold_label, multi_select_data.read_new_line,
    multi_select.read_line.
  destruct (tokenizer line TAB) as [|field rest] eqn:Ht.
  - intros _. eexists. split; reflexivity.
  - destruct (is_empty field).
    + intros _. eexists. split; reflexivity.
    + destruct (tokenizer field " "%char); [|discriminate].
      intros _. eexists. split; reflexivity.
Qed.

(** X21: [read_stream] of frontend/multi_select.cpp appends one instance for
    each line that is neither empty nor a comment, in the order of the
    lines: it has the group of the call, its gold label is its first
    candidate and occurs once among the candidates, and its attributes are
    those of the line.  At the first such line without a gold label it
    throws [invalid_data] with the 1-based number of that line, leaving
    behind the instances of the lines before it and the instance created
    for the line, which has the group and nothing else. *)
Theorem select_read_stream (tokenizer : string -> ascii -> list string)
    (get_name_value : string -> string * R) (default_label : nat)
    (input : string) (group : Z) (d : multi_select_data.data) :
  let ls := fst (getlines input) in
  let r := multi_select_data.read_stream tokenizer get_name_value
             default_label input group d in
  (Forall (fun l => data_line l = true -> has_gold_label tokenizer l = true)
     ls ->
   exists d' new,
     r = Done d'
     /\ multi_select_data.instances d'
        = multi_select_data.instances d ++ new
     /\ Forall2 (select_reads_as tokenizer get_name_value
                   (multi_select_data.attributes d')
                   (multi_select_data.labels d') group)
          (List.filter data_line ls) new)
  /\ (forall pre bad post,
        ls = pre ++ bad :: post ->
        Forall (fun l => data_line l = true ->
                         has_gold_label tokenizer l = true) pre ->
        data_line bad = true -> has_gold_label tokenizer bad = false ->
        exists e d' new,
          r = Raised e d'
          /\ lineno e = (Z.of_nat (length pre) + 1)%Z
          /\ multi_select_data.instances d'
             = multi_select_data.instances d ++ new
               ++ [multi_select.mk_instance default_label [] [] group]
          /\ Forall2 (select_reads_as tokenizer get_name_value
                        (multi_select_data.attributes d')
                        (multi_select_data.labels d') group)
               (List.filter data_line pre) new).
Proof.
  intros ls r. subst r. unfold multi_select_data.read_stream. fold ls.
  assert (Hrefl : forall s, select_data_grows s s)
    by (intros s; split; reflexivity).
  assert (Htrans : forall s1 s2 s3,
            select_data_grows s1 s2 -> select_data_grows s2 s3 ->
            select_data_grows s1 s3).
  { intros s1 s2 s3 [H1 H2] [H3 H4]. split; etransitivity; eassumption. }
  assert (Hstable : forall s s' line inst,
            select_data_grows s s' ->
            select_reads_as tokenizer get_name_value
              (multi_select_data.attributes s) (multi_select_data.labels s)
              group line inst ->
            select_reads_as tokenizer get_name_value
              (multi_select_data.attributes s') (multi_select_data.labels s')
              group line inst).
  { intros s s' line inst [Ha Hl].
    apply select_reads_as_prefix; assumption. }
  assert (Hok : forall line n s,
            has_gold_label tokenizer line = true ->
            exists s' inst,
              run (multi_select_data.read_new_line tokenizer get_name_value
                     default_label group line n) s = Done s'
              /\ multi_select_data.instances s'
                 = multi_select_data.instances s ++ [inst]
              /\ select_reads_as tokenizer get_name_value
                   (multi_select_data.attributes s')
                   (multi_select_data.labels s') group line inst
              /\ select_data_grows s s').
  { intros line n s Hg.
    destruct (select_read_new_line_ok tokenizer get_name_value default_label
                group line n s Hg) as (d1 & inst & Hrun & Hi & Hr & Ha & Hl).
    exists d1, inst. unfold run. rewrite Hrun. repeat split; assumption. }
  split.
  - intros Hall.
    destruct (read_lines_accepted _ multi_select_data.instances
                select_data_grows
                (fun d => select_reads_as tokenizer get_name_value
                            (multi_select_data.attributes d)
                            (multi_select_data.labels d) group)
                (has_gold_label tokenizer) Hrefl Htrans Hstable Hok ls 0 d
                Hall)
      as (d' & new & Hrun & Hi & Hr & _).
    exists d', new. repeat split; assumption.
  - intros pre bad post -> Hall Hd Hbad.
    destruct (read_lines_refused _ multi_select_data.instances
                select_data_grows
                (fun d => select_reads_as tokenizer get_name_value
                            (multi_select_data.attributes d)
                            (multi_select_data.labels d) group)
                (has_gold_label tokenizer)
                (multi_select.mk_instance default_label [] [] group)
                Htrans Hstable Hok)
      with (pre := pre) (bad := bad) (post := post) (lines := 0%Z) (s := d)
      as (e & d' & new & Hrun & He & Hi & Hr & _); try assumption.
    + intros line n s Hb.
      destruct (select_read_new_line_bad tokenizer get_name_value
                  default_label group line n s Hb) as (e & Hrun & He).
      eexists e, _. unfold run. rewrite Hrun.
      split; [reflexivity|]. split; [exact He|].
      split; [reflexivity|]. split; reflexivity.
    + exists e, d', new. repeat split; assumption.
Qed.

(** Two lines read into group 3. *)
Example select_read_stream_example :
  multi_select_data.read_stream example_tokenizer example_name_value 0
    ("B A B" ++ String TAB ("f" ++ String NL
       ("A C" ++ String TAB ("g" ++ String NL ""))))%string 3%Z
    (multi_select_data.mk_data [] [] [])
  = Done (multi_select_data.mk_data
            [multi_select.mk_instance 0 [0; 1]%nat [(0%nat, 1)] 3%Z;
             multi_select.mk_instance 1 [1; 2]%nat [(1%nat, 1)] 3%Z]
            ["f"%string; "g"%string]
            ["B"%string; "A"%string; "C"%string]).
Proof. reflexivity. Qed.

Lemma select_read_stream_witness :
  exists d',
    multi_select_data.read_stream example_tokenizer example_name_value 0
      ("B A B" ++ String TAB ("f" ++ String NL ""))%string 3%Z
      (multi_select_data.mk_data [] [] [])
    = Done d'.
Proof.
  destruct (select_read_stream example_tokenizer example_name_value 0
              ("B A B" ++ String TAB ("f" ++ String NL ""))%string 3%Z
              (multi_select_data.mk_data [] [] [])) as [H _].
  destruct H as (d' & new & H & _).
  - eval_lines. repeat (constructor; [check_line|]). constructor.
  - exists d'. exact H.
Defined.

(** ** frontend/train/multi.cpp: read_stream *)

(** *** Reserving features *)

Lemma quark_find_from_None (q : quark.t) (name : string) :
  forall i, quark.find_from q name i = None <-> name ∉ q.
Proof.
  induction q as [|s q IH]; intros i; cbn.
  - split; [intros _; apply not_elem_of_nil | reflexivity].
  - destruct (String.eqb_spec s name) as [->|Hne].
    + split; [discriminate|]. intros H. exfalso. apply H. left.
    + rewrite IH. rewrite not_elem_of_cons. split; [split; auto|tauto].
Qed.

Lemma quark_intern_elem (q : quark.t) (name x : string) :
  x ∈ snd (quark.intern q name) <-> x ∈ q \/ x = name.
Proof.
  unfold quark.intern.
  destruct (quark.find_from q name 0) as [j|] eqn:Hf; cbn [snd].
  - apply quark_find_from_lookup in Hf as [_ Hl].
    apply list_elem_of_lookup_2 in Hl.
    split; [auto|]. intros [H| ->]; assumption.
  - rewrite elem_of_app, list_elem_of_singleton. reflexivity.
Qed.

Lemma quark_intern_NoDup (q : quark.t) (name : string) :
  NoDup q -> NoDup (snd (quark.intern q name)).
Proof.
  intros Hnd. unfold quark.intern.
  destruct (quark.find_from q name 0) as [j|] eqn:Hf; cbn [snd];
    [exact Hnd|].
  apply quark_find_from_None in Hf.
  apply NoDup_app. split; [exact Hnd|]. split.
  - intros x Hx Hin. apply list_elem_of_singleton in Hin. subst x. auto.
  - apply NoDup_singleton.
Qed.

Lemma reserve_features_spec (names : list string) :
  forall q : quark.t,
    q `prefix_of` train_multi_data.reserve_features names q
    /\ (forall x, x ∈ train_multi_data.reserve_features names q
                  <-> x ∈ q \/ x ∈ names)
    /\ (NoDup q -> NoDup (train_multi_data.reserve_features names q)).
Proof.
  induction names as [|name names IH]; intros q.
  - cbn. split; [reflexivity|]. split; [|auto].
    intros x. rewrite elem_of_nil. tauto.
  - cbn [train_multi_data.reserve_features fold_left].
    destruct (IH (snd (quark.intern q name))) as (Hpre & Hin & Hnd).
    fold (train_multi_data.reserve_features names
            (snd (quark.intern q name))).
    split.
    { etransitivity; [|exact Hpre]. apply quark_intern_spec. }
    split.
    { intros x. rewrite Hin, quark_intern_elem, elem_of_cons. tauto. }
    intros H. apply Hnd, quark_intern_NoDup, H.
Qed.

(** X22: An [@unregularize] line throws [invalid_data] with its line number as
    soon as the feature dictionary holds a name, so also after an earlier
    [@unregularize] line that named a feature.  On an empty dictionary it
    reserves the names of the line: the dictionary then holds exactly
    these names, each once, the start index of the user features is their
    number, and every name of the line has an identifier below that
    index; the instances and the labels are as before. *)
Theorem multi_unregularize (tokenizer : string -> ascii -> list string)
    (get_name_value : string -> string * R) (group : Z) (line : string)
    (lines : Z) (d : train_multi_data.data) (tok : string)
    (names : list string) :
  compare0 line 14 train_multi_data.UNREGULARIZE = true ->
  tokenizer line TAB = tok :: names ->
  let r := train_multi_data.read_stream_body tokenizer get_name_value group
             line lines d in
  (train_multi_data.features d <> [] ->
   r = Raised (mk_invalid_data
                 "Declarative @unregularize must precede an instance" lines)
         d)
  /\ (train_multi_data.features d = [] ->
      exists d',
        r = Done d'
        /\ train_multi_data.instances d' = train_multi_data.instances d
        /\ train_multi_data.labels d' = train_multi_data.labels d
        /\ train_multi_data.positive_labels d'
           = train_multi_data.positive_labels d
        /\ NoDup (train_multi_data.features d')
        /\ (forall x, x ∈ train_multi_data.features d' <-> x ∈ names)
        /\ train_multi_data.user_feature_start d'
           = length (train_multi_data.features d')
        /\ (forall x, x ∈ names ->
              exists id,
                (id < train_multi_data.user_feature_start d')%nat
                /\ quark.to_item (train_multi_data.features d') id
                   = Some x)).
Proof.
  intros Hc Ht r. subst r. unfold train_multi_data.read_stream_body.
  rewrite Hc, Ht. split.
  - intros Hne. destruct (train_multi_data.features d) as [|f fs];
      [contradiction|]. reflexivity.
  - intros ->. cbn [length Nat.ltb Nat.leb].
    destruct (reserve_features_spec names []) as (_ & Hin & Hnd).
    eexists. split; [reflexivity|].
    cbn [train_multi_data.instances train_multi_data.labels
         train_multi_data.positive_labels train_multi_data.features
         train_multi_data.user_feature_start].
    split; [reflexivity|]. split; [reflexivity|]. split; [reflexivity|].
    split; [apply Hnd, NoDup_nil_2|].
    assert (Hall : forall x,
              x ∈ train_multi_data.reserve_features names [] <-> x ∈ names).
    { intros x. rewrite Hin, elem_of_nil. tauto. }
    split; [exact Hall|]. split; [reflexivity|].
    intros x Hx. apply Hall in Hx.
    apply list_elem_of_lookup_1 in Hx as [id Hid].
    exists id. split; [|exact Hid].
    apply lookup_lt_Some in Hid. exact Hid.
Qed.

Lemma multi_unregularize_witness :
  let line := ("@unregularize" ++ String TAB ("b" ++ String TAB "a"))%string in
  compare0 line 14 train_multi_data.UNREGULARIZE = true
  /\ train_multi_data.read_stream_body example_tokenizer example_name_value
       0%Z line 1%Z (train_multi_data.mk_data [] ["x"%string] [] 0 [])
     = Raised (mk_invalid_data
                 "Declarative @unregularize must precede an instance" 1%Z)
         (train_multi_data.mk_data [] ["x"%string] [] 0 []).
Proof.
  split; [reflexivity|].
  destruct (multi_unregularize example_tokenizer example_name_value 0%Z
              ("@unregularize" ++ String TAB ("b" ++ String TAB "a"))%string
              1%Z (train_multi_data.mk_data [] ["x"%string] [] 0 [])
              "@unregularize"%string ["b"%string; "a"%string]
              eq_refl eq_refl) as [H _].
  apply H. discriminate.
Defined.

(** Two [@unregularize] lines: the second one throws. *)
Example multi_unregularize_twice_example :
  train_multi_data.read_stream example_tokenizer example_name_value false
    ("@unregularize" ++ String TAB ("b" ++ String NL
       ("@unregularize" ++ String TAB ("a" ++ String NL ""))))%string 0%Z
    (train_multi_data.mk_data [] [] [] 0 [])
  = Raised (mk_invalid_data
              "Declarative @unregularize must precede an instance" 2%Z)
      (train_multi_data.mk_data [] ["b"%string] [] 1 []).
Proof. reflexivity. Qed.

(** *** Candidate lines *)

Lemma multi_read_line_grows (tokenizer : string -> ascii -> list string)
    (get_name_value : string -> string * R) (line : string) (lines : Z)
    (s : train_multi.state) (r : result unit) (s' : train_multi.state) :
  train_multi.read_line tokenizer get_name_value line lines s = (r, s') ->
  train_multi.features s `prefix_of` train_multi.features s'
  /\ train_multi.labels s `prefix_of` train_multi.labels s'.
Proof.
  unfold train_multi.read_line.
  destruct (tokenizer line TAB) as [|itv rest];
    [intros [= <- <-]; split; reflexivity|].
  destruct (is_empty itv); [intros [= <- <-]; split; reflexivity|].
  assert (Hok : forall truth : bool,
    bind (train_multi.intern_label itv)
        (fun lid =>
           bind (train_multi.read_features get_name_value rest [])
             (fun fs =>
                train_multi.append_candidate
                  (maxent.mk_candidate fs truth lid))) s = (r, s') ->
    train_multi.features s `prefix_of` train_multi.features s'
    /\ train_multi.labels s `prefix_of` train_multi.labels s').
  { intros truth. unfold bind at 1.
    unfold train_multi.intern_label.
    pose proof (quark_intern_spec (train_multi.labels s) itv) as [Hpre _].
    destruct (quark.intern (train_multi.labels s) itv) as [lid q1].
    cbn [fst snd] in Hpre. unfold bind.
    destruct (multi_read_features_spec get_name_value rest []
                (train_multi.mk_state (train_multi.instance s)
                   (train_multi.features s) q1))
      as (fs & s1 & Hrun & Hinst & Hlab & Hfs & Hdec).
    cbn [train_multi.instance train_multi.labels train_multi.features]
      in Hinst, Hlab, Hfs.
    rewrite Hrun. cbn [app]. unfold train_multi.append_candidate.
    intros [= <- <-].
    cbn [train_multi.features train_multi.labels].
    split; [exact Hfs|]. rewrite Hlab. exact Hpre. }
  destruct (begins_with itv "T").
  - unfold bind at 1. unfold ret at 1. apply Hok.
  - destruct (begins_with itv "F").
    + unfold bind at 1. unfold ret at 1. apply Hok.
    + intros [= <- <-]; split; reflexivity.
Qed.

Lemma candidate_reads_as_prefix (tokenizer : string -> ascii -> list string)
    (get_name_value : string -> string * R) (features features' labels
      labels' : quark.t) (line : string) (c : maxent.candidate_type) :
  features `prefix_of` features' -> labels `prefix_of` labels' ->
  candidate_reads_as tokenizer get_name_value features labels line c ->
  candidate_reads_as tokenizer get_name_value features' labels' line c.
Proof.
  intros Hf Hl (itv & rest & Ht & Htruth & Hitem & Hdec).
  exists itv, rest. split; [exact Ht|]. split; [exact Htruth|].
  split; [eapply quark_to_item_prefix; eassumption|].
  eapply decode_prefix; [exact Hf | exact Hdec | apply parsed_fields_named].
Qed.

Lemma extend_back_snoc (l : list maxent.instance_type)
    (inst : maxent.instance_type) (cs : list maxent.candidate_type) :
  extend_back (l ++ [inst]) cs
  = l ++ [maxent.mk_instance (maxent.candidates inst ++ cs)
            (maxent.get_group inst)].
Proof.
  unfold extend_back. rewrite last_snoc, length_app. cbn [length].
  replace (Nat.pred (length l + 1)) with (length l + 0)%nat by lia.
  rewrite insert_app_r. reflexivity.
Qed.

Lemma extend_back_nil (l : list maxent.instance_type) :
  extend_back l [] = l.
Proof.
  destruct l as [|x l] using rev_ind; [reflexivity|].
  rewrite extend_back_snoc, app_nil_r. destruct x. reflexivity.
Qed.

Lemma extend_back_cons (l : list maxent.instance_type)
    (c : maxent.candidate_type) (cs : list maxent.candidate_type) :
  extend_back (extend_back l [c]) cs = extend_back l (c :: cs).
Proof.
  destruct l as [|x l] using rev_ind; [reflexivity|].
  rewrite !extend_back_snoc. cbn [maxent.candidates maxent.get_group].
  rewrite <- app_assoc. reflexivity.
Qed.

Lemma multi_read_back_line_ok (tokenizer : string -> ascii -> list string)
    (get_name_value : string -> string * R) (line : string) (lines : Z)
    (d : train_multi_data.data) :
  train_multi_data.instances d <> [] ->
  has_class tokenizer line = true ->
  exists d' c,
    train_multi_data.read_back_line tokenizer get_name_value line lines d
    = Done d'
    /\ train_multi_data.instances d'
       = extend_back (train_multi_data.instances d) [c]
    /\ candidate_reads_as tokenizer get_name_value
         (train_multi_data.features d') (train_multi_data.labels d') line c
    /\ train_multi_data.features d
       `prefix_of` train_multi_data.features d'
    /\ train_multi_data.labels d `prefix_of` train_multi_data.labels d'
    /\ train_multi_data.user_feature_start d'
       = train_multi_data.user_feature_start d
    /\ train_multi_data.positive_labels d'
       = train_multi_data.positive_labels d.
Proof.
  intros Hne Hcl. unfold train_multi_data.read_back_line, extend_back.
  destruct (last (train_multi_data.instances d)) as [inst|] eqn:Hlast.
  2:{ apply last_None in Hlast. contradiction. }
  pose proof (multi_read_line_cases tokenizer get_name_value line lines
                (train_multi.mk_state (maxent.candidates inst)
                   (train_multi_data.features d)
                   (train_multi_data.labels d))) as Hc.
  unfold has_class in Hcl.
  destruct (tokenizer line TAB) as [|itv rest] eqn:Ht; [discriminate|].
  apply andb_true_iff in Hcl as [He Hcl].
  apply negb_true_iff in He. rewrite He, Hcl in Hc.
  destruct Hc as (s' & c & Hrun & Hinst & Htruth & Hitem & Hdec).
  destruct (multi_read_line_grows _ _ _ _ _ _ _ Hrun) as [Hf Hl].
  rewrite Hrun.
  cbn [train_multi.features train_multi.labels train_multi.instance]
    in Hf, Hl, Hinst.
  eexists _, c. split; [reflexivity|].
  cbn [train_multi_data.instances train_multi_data.features
       train_multi_data.labels train_multi_data.user_feature_start
       train_multi_data.positive_labels].
  split; [rewrite Hinst; reflexivity|].
  split.
  { exists itv, rest. repeat split; assumption. }
  repeat split; assumption.
Qed.

Lemma multi_body_by_directive (tokenizer : string -> ascii -> list string)
    (get_name_value : string -> string * R) (group : Z) (line : string)
    (lines : Z) (d : train_multi_data.data) :
  data_line line = true ->
  match directive_of line with
  | Unregularize => True
  | Boi =>
      train_multi_data.read_stream_body tokenizer get_name_value group line
        lines d
      = Done (train_multi_data.mk_data
                (train_multi_data.instances d ++ [maxent.mk_instance [] group])
                (train_multi_data.features d) (train_multi_data.labels d)
                (train_multi_data.user_feature_start d)
                (train_multi_data.positive_labels d))
  | Ignored =>
      train_multi_data.read_stream_body tokenizer get_name_value group line
        lines d
      = Done d
  | Candidate =>
      train_multi_data.read_stream_body tokenizer get_name_value group line
        lines d
      = train_multi_data.read_back_line tokenizer get_name_value line lines d
  end.
Proof.
  intros Hd. unfold directive_of, train_multi_data.read_stream_body.
  rewrite Hd. cbn [negb].
  destruct (compare0 line 14 train_multi_data.UNREGULARIZE); [trivial|].
  destruct (compare0 line 4 "@boi"); [reflexivity|].
  destruct (compare0 line 4 "@eoi"); [reflexivity|].
  destruct (compare0 line 9 "@negative"); reflexivity.
Qed.

Lemma directive_of_skipped (line : string) :
  data_line line = false -> directive_of line = Ignored.
Proof. intros H. unfold directive_of. rewrite H. reflexivity. Qed.

(** *** The loop *)

Lemma instance_reads_as_prefix (tokenizer : string -> ascii -> list string)
    (get_name_value : string -> string * R) (features features' labels
      labels' : quark.t) (group : Z) (block : list string)
    (inst : maxent.instance_type) :
  features `prefix_of` features' -> labels `prefix_of` labels' ->
  instance_reads_as tokenizer get_name_value features labels group block inst ->
  instance_reads_as tokenizer get_name_value features' labels' group block
    inst.
Proof.
  intros Hf Hl [Hg Hcs]. split; [exact Hg|].
  eapply Forall2_impl; [exact Hcs|].
  intros line c. apply candidate_reads_as_prefix; assumption.
Qed.

Lemma extend_back_nonempty (l : list maxent.instance_type)
    (cs : list maxent.candidate_type) :
  l <> [] -> extend_back l cs <> [].
Proof.
  destruct l as [|x l _] using rev_ind; [contradiction|].
  intros _. rewrite extend_back_snoc. intros H.
  apply app_eq_nil in H as [_ H]. discriminate.
Qed.

(** A loop body that opens an instance at some lines, appends a
    candidate to the last instance at others and ignores the rest. *)
Section instances_by_block.

Context {St : Type}.
Variable body : string -> Z -> St -> outcome St.
Variable insts : St -> list maxent.instance_type.
Variable grows : St -> St -> Prop.
Variable reads_as : St -> string -> maxent.candidate_type -> Prop.
Variable kind : string -> directive.
Variable accepted : string -> bool.
Variable group : Z.

Hypothesis grows_refl : forall s, grows s s.
Hypothesis grows_trans :
  forall s1 s2 s3, grows s1 s2 -> grows s2 s3 -> grows s1 s3.
Hypothesis reads_as_grows :
  forall s s' line c, grows s s' -> reads_as s line c -> reads_as s' line c.
Hypothesis kind_skipped :
  forall line, data_line line = false -> kind line = Ignored.
Hypothesis body_boi :
  forall line lines s, data_line line = true -> kind line = Boi ->
    exists s',
      body line lines s = Done s'
      /\ insts s' = insts s ++ [maxent.mk_instance [] group]
      /\ grows s s'.
Hypothesis body_ignored :
  forall line lines s, data_line line = true -> kind line = Ignored ->
    body line lines s = Done s.
Hypothesis body_candidate :
  forall line lines s, data_line line = true -> kind line = Candidate ->
    accepted line = true -> insts s <> [] ->
    exists s' c,
      body line lines s = Done s'
      /\ insts s' = extend_back (insts s) [c]
      /\ reads_as s' line c /\ grows s s'.

Lemma read_lines_blocks (ls : list string) :
  forall (lines : Z) (s : St),
  Forall (fun l => kind l <> Unregularize) ls ->
  Forall (fun l => kind l = Candidate -> accepted l = true) ls ->
  fst (split_instances kind ls) = [] \/ insts s <> [] ->
  exists s' cs new,
    read_lines body ls lines s = Done s'
    /\ insts s' = extend_back (insts s) cs ++ new
    /\ Forall2 (reads_as s') (fst (split_instances kind ls)) cs
    /\ Forall2 (fun block inst =>
                  maxent.get_group inst = group
                  /\ Forall2 (reads_as s') block (maxent.candidates inst))
         (snd (split_instances kind ls)) new
    /\ grows s s'.
Proof.
  induction ls as [|line ls IH]; intros lines s Hun Hgood Hback.
  - exists s, [], []. cbn. rewrite extend_back_nil, app_nil_r.
    repeat split; try constructor. apply grows_refl.
  - apply Forall_cons in Hun as [Hun1 Hun].
    apply Forall_cons in Hgood as [Hgood1 Hgood].
    rewrite data_line_step. cbn [split_instances] in Hback |- *.
    destruct (split_instances kind ls) as [head blocks] eqn:Hsplit.
    cbn [fst snd] in IH.
    destruct (data_line line) eqn:Hd.
    2:{ rewrite (kind_skipped line Hd) in Hback |- *.
        apply IH; assumption. }
    destruct (kind line) eqn:Hdir.
    + contradiction.
    + (* an instance is opened *)
      destruct (body_boi line (lines + 1)%Z s Hd Hdir)
        as (s1 & -> & Hi1 & Hg1).
      destruct (IH (lines + 1)%Z s1 Hun Hgood)
        as (s' & cs & new & -> & Hi & Hcs & Hnew & Hg).
      { right. rewrite Hi1. intros H.
        apply app_eq_nil in H as [_ H]. discriminate. }
      rewrite Hi1, extend_back_snoc in Hi.
      cbn [maxent.candidates maxent.get_group app] in Hi.
      exists s', [], (maxent.mk_instance cs group :: new).
      split; [reflexivity|].
      split; [rewrite extend_back_nil, Hi, <- app_assoc; reflexivity|].
      cbn [fst snd].
      split; [constructor|].
      split; [constructor; [split; [reflexivity | exact Hcs] | exact Hnew]|].
      eapply grows_trans; eassumption.
    + (* an ignored line *)
      rewrite (body_ignored line (lines + 1)%Z s Hd Hdir).
      apply IH; assumption.
    + (* a candidate *)
      assert (Hne : insts s <> []).
      { destruct Hback as [H|H]; [discriminate | exact H]. }
      destruct (body_candidate line (lines + 1)%Z s Hd Hdir
                  (Hgood1 eq_refl) Hne)
        as (s1 & c & -> & Hi1 & Hc1 & Hg1).
      destruct (IH (lines + 1)%Z s1 Hun Hgood)
        as (s' & cs & new & -> & Hi & Hcs & Hnew & Hg).
      { right. rewrite Hi1. apply extend_back_nonempty, Hne. }
      exists s', (c :: cs), new.
      split; [reflexivity|].
      split; [rewrite Hi, Hi1, extend_back_cons; reflexivity|].
      cbn [fst snd].
      split.
      { constructor; [|exact Hcs]. eapply reads_as_grows; eassumption. }
      split; [exact Hnew|].
      eapply grows_trans; eassumption.
Qed.

End instances_by_block.

Lemma multi_read_lines_instances
    (tokenizer : string -> ascii -> list string)
    (get_name_value : string -> string * R) (group : Z) (ls : list string)
    (lines : Z) (d : train_multi_data.data) :
  Forall (fun l => directive_of l <> Unregularize) ls ->
  Forall (fun l => directive_of l = Candidate ->
                   has_class tokenizer l = true) ls ->
  fst (split_instances directive_of ls) = []
  \/ train_multi_data.instances d <> [] ->
  exists d' cs new,
    read_lines (train_multi_data.read_stream_body tokenizer get_name_value
                  group) ls lines d
    = Done d'
    /\ train_multi_data.instances d'
       = extend_back (train_multi_data.instances d) cs ++ new
    /\ Forall2 (candidate_reads_as tokenizer get_name_value
                  (train_multi_data.features d')
                  (train_multi_data.labels d'))
         (fst (split_instances directive_of ls)) cs
    /\ Forall2 (instance_reads_as tokenizer get_name_value
                  (train_multi_data.features d')
                  (train_multi_data.labels d') group)
         (snd (split_instances directive_of ls)) new
    /\ multi_data_grows d d'.
Proof.
  apply (read_lines_blocks _ train_multi_data.instances multi_data_grows
           (fun d => candidate_reads_as tokenizer get_name_value
                       (train_multi_data.features d)
                       (train_multi_data.labels d))
           directive_of (has_class tokenizer) group).
  - intros s. repeat split; reflexivity.
  - intros s1 s2 s3 (H1 & H2 & H3 & H4) (H5 & H6 & H7 & H8).
    split; [etransitivity; eassumption|].
    split; [etransitivity; eassumption|]. split; congruence.
  - intros s s' line c (Hf & Hl & _).
    apply candidate_reads_as_prefix; assumption.
  - apply directive_of_skipped.
  - intros line n s Hd Hdir.
    pose proof (multi_body_by_directive tokenizer get_name_value group line
                  n s Hd) as Hbody.
    rewrite Hdir in Hbody. rewrite Hbody.
    eexists. split; [reflexivity|]. split; [reflexivity|].
    repeat split; reflexivity.
  - intros line n s Hd Hdir.
    pose proof (multi_body_by_directive tokenizer get_name_value group line
                  n s Hd) as Hbody.
    rewrite Hdir in Hbody. exact Hbody.
  - intros line n s Hd Hdir Hok Hne.
    pose proof (multi_body_by_directive tokenizer get_name_value group line
                  n s Hd) as Hbody.
    rewrite Hdir in Hbody. rewrite Hbody.
    destruct (multi_read_back_line_ok tokenizer get_name_value line n s Hne
                Hok) as (d1 & c & Hrun & Hi & Hc & Hf & Hl & Hu & Hp).
    exists d1, c. repeat split; assumption.
Qed.

(** X23: [read_stream] of frontend/train/multi.cpp on a stream without
    [@unregularize] line whose candidate lines all carry a class: each
    line beginning with [@boi] opens an instance of the group of the call,
    which receives, in order, the candidates of the candidate lines up to
    the next such line; candidate lines before the first [@boi] go to the
    instance that was last in the data, which must exist.  Lines beginning
    with [@eoi] or [@negative], empty lines and comments change nothing.
    At the end the label "TP" is the one more positive label, and the
    start index of the user features is as before. *)
Theorem multi_read_stream_instances
    (tokenizer : string -> ascii -> list string)
    (get_name_value : string -> string * R) (input : string) (group : Z)
    (d : train_multi_data.data) :
  let ls := fst (getlines input) in
  Forall (fun l => directive_of l <> Unregularize) ls ->
  Forall (fun l => directive_of l = Candidate ->
                   has_class tokenizer l = true) ls ->
  fst (split_instances directive_of ls) = []
  \/ train_multi_data.instances d <> [] ->
  exists d' cs new tp,
    train_multi_data.read_stream tokenizer get_name_value false input group d
    = Done d'
    /\ train_multi_data.instances d'
       = extend_back (train_multi_data.instances d) cs ++ new
    /\ Forall2 (candidate_reads_as tokenizer get_name_value
                  (train_multi_data.features d')
                  (train_multi_data.labels d'))
         (fst (split_instances directive_of ls)) cs
    /\ Forall2 (instance_reads_as tokenizer get_name_value
                  (train_multi_data.features d')
                  (train_multi_data.labels d') group)
         (snd (split_instances directive_of ls)) new
    /\ train_multi_data.positive_labels d'
       = train_multi_data.positive_labels d ++ [tp]
    /\ quark.to_item (train_multi_data.labels d') tp = Some "TP"%string
    /\ train_multi_data.user_feature_start d'
       = train_multi_data.user_feature_start d
    /\ train_multi_data.features d
       `prefix_of` train_multi_data.features d'
    /\ train_multi_data.labels d `prefix_of` train_multi_data.labels d'.
Proof.
  intros ls Hun Hgood Hback.
  destruct (multi_read_lines_instances tokenizer get_name_value group ls 0 d
              Hun Hgood Hback)
    as (d1 & cs & new & Hrun & Hi & Hcs & Hnew & Hf & Hl & Hu & Hp).
  unfold train_multi_data.read_stream. fold ls. rewrite Hrun.
  pose proof (quark_intern_spec (train_multi_data.labels d1) "TP")
    as [Hpre Hitem].
  destruct (quark.intern (train_multi_data.labels d1) "TP") as [tp q].
  cbn [fst snd] in Hpre, Hitem.
  eexists _, cs, new, tp. split; [reflexivity|].
  cbn [train_multi_data.instances train_multi_data.features
       train_multi_data.labels train_multi_data.user_feature_start
       train_multi_data.positive_labels].
  split; [exact Hi|].
  split.
  { eapply Forall2_impl; [exact Hcs|]. intros line c.
    apply candidate_reads_as_prefix; [reflexivity | exact Hpre]. }
  split.
  { eapply Forall2_impl; [exact Hnew|]. intros block inst.
    apply instance_reads_as_prefix; [reflexivity | exact Hpre]. }
  split; [rewrite Hp; reflexivity|]. split; [exact Hitem|].
  split; [exact Hu|]. split; [exact Hf|]. etransitivity; eassumption.
Qed.

(** Two instances; the [@eoi] lines and the comment change nothing. *)
Example multi_read_stream_example :
  train_multi_data.read_stream example_tokenizer example_name_value false
    ("@boi" ++ String NL
       ("T1" ++ String TAB ("f" ++ String NL
       ("F2" ++ String TAB ("g" ++ String NL
       ("@eoi" ++ String NL
       ("# next" ++ String NL
       ("@boi" ++ String NL
       ("F1" ++ String TAB ("g" ++ String NL
       ("@eoi" ++ String NL "")))))))))))%string 7%Z
    (train_multi_data.mk_data [] [] [] 0 [])
  = Done (train_multi_data.mk_data
            [maxent.mk_instance
               [maxent.mk_candidate [(0%nat, 1)] true 0;
                maxent.mk_candidate [(1%nat, 1)] false 1] 7%Z;
             maxent.mk_instance
               [maxent.mk_candidate [(1%nat, 1)] false 2] 7%Z]
            ["f"%string; "g"%string]
            ["T1"%string; "F2"%string; "F1"%string; "TP"%string] 0 [3%nat]).
Proof. reflexivity. Qed.

Lemma multi_read_stream_instances_witness :
  exists d',
    train_multi_data.read_stream example_tokenizer example_name_value false
      ("@boi" ++ String NL ("T1" ++ String TAB ("f" ++ String NL "")))%string
      7%Z (train_multi_data.mk_data [] [] [] 0 [])
    = Done d'.
Proof.
  destruct (multi_read_stream_instances example_tokenizer example_name_value
              ("@boi" ++ String NL ("T1" ++ String TAB ("f" ++ String NL "")))
              7%Z (train_multi_data.mk_data [] [] [] 0 []))
    as (d' & cs & new & tp & H & _).
  - eval_lines. repeat (constructor; [check_line|]). constructor.
  - eval_lines. repeat (constructor; [check_line|]). constructor.
  - left. reflexivity.
  - exists d'. exact H.
Defined.

(** X24: A candidate line when the data hold no instance: [data.back()] is
    called on an empty vector. *)
Theorem multi_read_stream_no_instance
    (tokenizer : string -> ascii -> list string)
    (get_name_value : string -> string * R) (generate_bias : bool)
    (input : string) (group : Z) (d : train_multi_data.data)
    (pre : list string) (line : string) (post : list string) :
  fst (getlines input) = pre ++ line :: post ->
  Forall (fun l => directive_of l = Ignored) pre ->
  directive_of line = Candidate ->
  train_multi_data.instances d = [] ->
  train_multi_data.read_stream tokenizer get_name_value generate_bias input
    group d
  = Undefined.
Proof.
  intros Hls Hpre Hdir Hd. unfold train_multi_data.read_stream.
  rewrite Hls.
  assert (Hrun : forall lines,
    read_lines (train_multi_data.read_stream_body tokenizer get_name_value
                  group) (pre ++ line :: post) lines d = Undefined).
  { clear Hls. induction Hpre as [|l pre Hl Hpre IH]; intros lines.
    - cbn [app]. rewrite data_line_step.
      assert (Hdl : data_line line = true).
      { destruct (data_line line) eqn:E; [reflexivity|].
        rewrite (directive_of_skipped line E) in Hdir. discriminate. }
      rewrite Hdl.
      pose proof (multi_body_by_directive tokenizer get_name_value group
                    line (lines + 1)%Z d Hdl) as Hbody.
      rewrite Hdir in Hbody. rewrite Hbody.
      unfold train_multi_data.read_back_line. rewrite Hd. reflexivity.
    - cbn [app]. rewrite data_line_step.
      destruct (data_line l) eqn:Hdl; [|apply IH].
      pose proof (multi_body_by_directive tokenizer get_name_value group l
                    (lines + 1)%Z d Hdl) as Hbody.
      rewrite Hl in Hbody. rewrite Hbody. apply IH. }
  rewrite Hrun. reflexivity.
Qed.

Lemma multi_read_stream_no_instance_witness :
  train_multi_data.read_stream example_tokenizer example_name_value true
    ("# data" ++ String NL ("T1" ++ String TAB ("f" ++ String NL "")))%string
    0%Z (train_multi_data.mk_data [] [] [] 0 [])
  = Undefined.
Proof.
  apply (multi_read_stream_no_instance example_tokenizer example_name_value
           true _ 0%Z _ ["# data"%string] ("T1" ++ String TAB "f")%string []).
  - reflexivity.
  - repeat constructor.
  - reflexivity.
  - reflexivity.
Defined.

(** *** The bias features *)

Lemma biased_prefix (features features' labels : quark.t)
    (c c' : maxent.candidate_type) :
  features `prefix_of` features' ->
  biased features labels c c' -> biased features' labels c c'.
Proof.
  intros Hf (id & l & H1 & H2 & H3 & H4 & H5).
  exists id, l. repeat split; try assumption.
  eapply quark_to_item_prefix; eassumption.
Qed.

Lemma bias_candidates_spec (labels : quark.t)
    (cs : list maxent.candidate_type) :
  forall q : quark.t,
  Forall (fun c => is_Some (quark.to_item labels (maxent.get_label c))) cs ->
  exists cs' q',
    train_multi_data.bias_candidates labels cs q = Some (cs', q')
    /\ q `prefix_of` q'
    /\ Forall2 (biased q' labels) cs cs'.
Proof.
  induction cs as [|c cs IH]; intros q Hall.
  - exists [], q. repeat split; [reflexivity | constructor].
  - apply Forall_cons in Hall as [[l Hl] Hall].
    cbn [train_multi_data.bias_candidates]. rewrite Hl.
    pose proof (quark_intern_spec q ("@bias@" ++ l)) as [Hpre Hitem].
    destruct (quark.intern q ("@bias@" ++ l)) as [id q1].
    cbn [fst snd] in Hpre, Hitem.
    destruct (IH q1 Hall) as (cs' & q' & -> & Hpre' & Hcs).
    eexists _, q'. split; [reflexivity|].
    split; [etransitivity; eassumption|].
    constructor; [|exact Hcs].
    exists id, l. cbn [maxent.c_features maxent.is_true maxent.get_label].
    repeat split; try assumption.
    eapply quark_to_item_prefix; eassumption.
Qed.

Lemma bias_instances_spec (labels : quark.t)
    (insts : list maxent.instance_type) :
  forall q : quark.t,
  Forall (fun inst =>
            Forall (fun c =>
                      is_Some (quark.to_item labels (maxent.get_label c)))
              (maxent.candidates inst)) insts ->
  exists insts' q',
    train_multi_data.bias_instances labels insts q = Some (insts', q')
    /\ q `prefix_of` q'
    /\ Forall2 (fun inst inst' =>
                  maxent.get_group inst' = maxent.get_group inst
                  /\ Forall2 (biased q' labels) (maxent.candidates inst)
                       (maxent.candidates inst')) insts insts'.
Proof.
  induction insts as [|inst insts IH]; intros q Hall.
  - exists [], q. repeat split; [reflexivity | constructor].
  - apply Forall_cons in Hall as [Hinst Hall].
    cbn [train_multi_data.bias_instances].
    destruct (bias_candidates_spec labels (maxent.candidates inst) q Hinst)
      as (cs & q1 & -> & Hpre & Hcs).
    destruct (IH q1 Hall) as (insts' & q' & -> & Hpre' & Hinsts).
    eexists _, q'. split; [reflexivity|].
    split; [etransitivity; eassumption|].
    constructor; [|exact Hinsts].
    cbn [maxent.get_group maxent.candidates]. split; [reflexivity|].
    eapply Forall2_impl; [exact Hcs|]. intros c c'.
    apply biased_prefix. exact Hpre'.
Qed.

(** X25: With [generate_bias], [read_stream] of frontend/train/multi.cpp
    returns what it returns without, except that every candidate of every
    instance of the data, those that were there before the call among
    them, has one more feature at its end: its value is 1 and its name
    is "@bias@" followed by the name of the label of the candidate.  The
    labels of the candidates must be in the label dictionary. *)
Theorem multi_read_stream_bias
    (tokenizer : string -> ascii -> list string)
    (get_name_value : string -> string * R) (input : string) (group : Z)
    (d d1 : train_multi_data.data) :
  train_multi_data.read_stream tokenizer get_name_value false input group d
  = Done d1 ->
  Forall (fun inst =>
            Forall (fun c =>
                      is_Some (quark.to_item (train_multi_data.labels d1)
                                 (maxent.get_label c)))
              (maxent.candidates inst)) (train_multi_data.instances d1) ->
  exists d2,
    train_multi_data.read_stream tokenizer get_name_value true input group d
    = Done d2
    /\ Forall2 (fun inst inst' =>
                  maxent.get_group inst' = maxent.get_group inst
                  /\ Forall2 (biased (train_multi_data.features d2)
                                (train_multi_data.labels d2))
                       (maxent.candidates inst) (maxent.candidates inst'))
         (train_multi_data.instances d1) (train_multi_data.instances d2)
    /\ train_multi_data.features d1
       `prefix_of` train_multi_data.features d2
    /\ train_multi_data.labels d2 = train_multi_data.labels d1
    /\ train_multi_data.user_feature_start d2
       = train_multi_data.user_feature_start d1
    /\ train_multi_data.positive_labels d2
       = train_multi_data.positive_labels d1.
Proof.
  unfold train_multi_data.read_stream.
  destruct (read_lines _ _ _ _) as [d0| |]; try discriminate.
  destruct (quark.intern (train_multi_data.labels d0) "TP") as [tp ls].
  intros [= <-]. cbn [train_multi_data.instances train_multi_data.features
    train_multi_data.labels train_multi_data.user_feature_start
    train_multi_data.positive_labels].
  intros Hall.
  destruct (bias_instances_spec ls (train_multi_data.instances d0)
              (train_multi_data.features d0) Hall)
    as (insts & q & -> & Hpre & Hinsts).
  eexists. split; [reflexivity|].
  cbn [train_multi_data.instances train_multi_data.features
       train_multi_data.labels train_multi_data.user_feature_start
       train_multi_data.positive_labels].
  repeat split; try reflexivity; assumption.
Qed.

(** A second stream read into the same data: the candidate of the first
    stream, which had its bias feature, gets it once more. *)
Example multi_read_stream_bias_example :
  train_multi_data.read_stream example_tokenizer example_name_value true
    ("@boi" ++ String NL ("F" ++ String TAB ("g" ++ String NL "")))%string
    1%Z
    (train_multi_data.mk_data
       [maxent.mk_instance
          [maxent.mk_candidate [(0%nat, 1); (1%nat, 1)] true 0] 0%Z]
       ["f"%string; "@bias@T"%string] ["T"%string; "TP"%string] 0 [1%nat])
  = Done (train_multi_data.mk_data
            [maxent.mk_instance
               [maxent.mk_candidate [(0%nat, 1); (1%nat, 1); (1%nat, 1)]
                  true 0] 0%Z;
             maxent.mk_instance
               [maxent.mk_candidate [(2%nat, 1); (3%nat, 1)] false 2] 1%Z]
            ["f"%string; "@bias@T"%string; "g"%string; "@bias@F"%string]
            ["T"%string; "TP"%string; "F"%string] 0 [1%nat; 1%nat]).
Proof. reflexivity. Qed.

Lemma multi_read_stream_bias_witness :
  exists d2,
    train_multi_data.read_stream example_tokenizer example_name_value true
      ("@boi" ++ String NL ("F" ++ String TAB ("g" ++ String NL "")))%string
      1%Z (train_multi_data.mk_data [] [] [] 0 [])
    = Done d2.
Proof.
  destruct (multi_read_stream_bias example_tokenizer example_name_value
              ("@boi" ++ String NL ("F" ++ String TAB ("g" ++ String NL "")))
              1%Z (train_multi_data.mk_data [] [] [] 0 [])
              (train_multi_data.mk_data
                 [maxent.mk_instance
                    [maxent.mk_candidate [(0%nat, 1)] false 0] 1%Z]
                 ["g"%string] ["F"%string; "TP"%string] 0 [1%nat]))
    as (d2 & H & _).
  - reflexivity.
  - repeat constructor. exists "F"%string. reflexivity.
  - exists d2. exact H.
Defined.

(** *** The line number of an exception *)

Lemma read_lines_raised {St : Type} (body : string -> Z -> St -> outcome St)
    (P : string -> Prop) :
  (forall line lines s e s',
     data_line line = true -> body line lines s = Raised e s' ->
     lineno e = lines /\ P line) ->
  forall (ls : list string) (lines : Z) (s : St) (e : invalid_data) (s' : St),
    read_lines body ls lines s = Raised e s' ->
    exists (k : nat) (line : string),
      ls !! k = Some line /\ data_line line = true /\ P line
      /\ lineno e = (lines + Z.of_nat k + 1)%Z.
Proof.
  intros Hbody. induction ls as [|l ls IH]; intros lines s e s' Hrun.
  - discriminate.
  - rewrite data_line_step in Hrun.
    assert (Hrest : forall s1,
      read_lines body ls (lines + 1)%Z s1 = Raised e s' ->
      exists (k : nat) (line : string),
        (l :: ls) !! k = Some line /\ data_line line = true /\ P line
        /\ lineno e = (lines + Z.of_nat k + 1)%Z).
    { intros s1 H. apply IH in H as (k & line & Hk & Hd & HP & He).
      exists (S k), line. repeat split; try assumption. lia. }
    destruct (data_line l) eqn:Hd; [|eapply Hrest; eassumption].
    destruct (body l (lines + 1)%Z s) as [s1|e1 s1|] eqn:Hb.
    + eapply Hrest; eassumption.
    + injection Hrun as -> ->.
      destruct (Hbody _ _ _ _ _ Hd Hb) as [He HP].
      exists 0%nat, l. repeat split; try assumption. lia.
    + discriminate.
Qed.

Lemma multi_body_raised (tokenizer : string -> ascii -> list string)
    (get_name_value : string -> string * R) (group : Z) (line : string)
    (lines : Z) (d : train_multi_data.data) (e : invalid_data)
    (d' : train_multi_data.data) :
  data_line line = true ->
  train_multi_data.read_stream_body tokenizer get_name_value group line lines
    d = Raised e d' ->
  lineno e = lines
  /\ ((directive_of line = Unregularize
       /\ train_multi_data.features d <> [] /\ d' = d)
      \/ (directive_of line = Candidate
          /\ has_class tokenizer line = false)).
Proof.
  intros Hd.
  pose proof (multi_body_by_directive tokenizer get_name_value group line
                lines d Hd) as Hbody.
  destruct (directive_of line) eqn:Hdir.
  - clear Hbody. unfold train_multi_data.read_stream_body.
    unfold directive_of in Hdir. rewrite Hd in Hdir. cbn [negb] in Hdir.
    destruct (compare0 line 14 train_multi_data.UNREGULARIZE).
    + destruct (train_multi_data.features d) as [|f fs] eqn:Hf.
      * cbn. destruct (tokenizer line TAB); discriminate.
      * cbn. intros [= <- <-]. split; [reflexivity|]. left.
        repeat split. discriminate.
    + destruct (compare0 line 4 "@boi"); [discriminate|].
      destruct (compare0 line 4 "@eoi"); [discriminate|].
      destruct (compare0 line 9 "@negative"); discriminate.
  - rewrite Hbody. discriminate.
  - rewrite Hbody. discriminate.
  - rewrite Hbody. unfold train_multi_data.read_back_line.
    destruct (last (train_multi_data.instances d)) as [inst|];
      [|discriminate].
    pose proof (multi_read_line_cases tokenizer get_name_value line lines
                  (train_multi.mk_state (maxent.candidates inst)
                     (train_multi_data.features d)
                     (train_multi_data.labels d))) as Hc.
    unfold has_class.
    destruct (tokenizer line TAB) as [|itv rest].
    { rewrite Hc. intros [= <- _]. split; [reflexivity|]. right.
      split; reflexivity. }
    destruct (is_empty itv).
    { rewrite Hc. intros [= <- _]. split; [reflexivity|]. right.
      split; reflexivity. }
    destruct (begins_with itv "T" || begins_with itv "F")%bool.
    { destruct Hc as (s' & c & -> & _). discriminate. }
    rewrite Hc. intros [= <- _]. split; [reflexivity|]. right.
    split; reflexivity.
Qed.

(** X26: An [invalid_data] thrown by [read_stream] of frontend/train/multi.cpp
    carries the 1-based number of a line of the stream, empty lines and
    comments counted, and that line is either an [@unregularize] line or
    a candidate line without a class. *)
Theorem multi_read_stream_error_line
    (tokenizer : string -> ascii -> list string)
    (get_name_value : string -> string * R) (generate_bias : bool)
    (input : string) (group : Z) (d : train_multi_data.data)
    (e : invalid_data) (d' : train_multi_data.data) :
  train_multi_data.read_stream tokenizer get_name_value generate_bias input
    group d = Raised e d' ->
  exists (k : nat) (line : string),
    fst (getlines input) !! k = Some line
    /\ lineno e = (Z.of_nat k + 1)%Z
    /\ (directive_of line = Unregularize
        \/ (directive_of line = Candidate
            /\ has_class tokenizer line = false)).
Proof.
  unfold train_multi_data.read_stream.
  destruct (read_lines _ _ _ _) as [d1|e1 d1|] eqn:Hrun.
  - destruct (quark.intern (train_multi_data.labels d1) "TP") as [tp ls].
    destruct generate_bias; [|discriminate].
    destruct (train_multi_data.bias_instances _ _ _) as [[insts q]|];
      discriminate.
  - intros [= <- <-].
    apply (read_lines_raised _
             (fun line =>
                directive_of line = Unregularize
                \/ (directive_of line = Candidate
                    /\ has_class tokenizer line = false))) in Hrun.
    + destruct Hrun as (k & line & Hk & _ & HP & He).
      exists k, line. repeat split; [exact Hk | lia | exact HP].
    + intros line lines s e' s' Hd Hb.
      destruct (multi_body_raised _ _ _ _ _ _ _ _ Hd Hb) as [He HP].
      split; [exact He|]. destruct HP as [(H & _)|H]; [left | right];
        exact H.
  - discriminate.
Qed.

Lemma multi_read_stream_error_line_witness :
  exists (k : nat) (line : string),
    fst (getlines ("@boi" ++ String NL ("X" ++ String NL ""))) !! k
    = Some line
    /\ (2 = Z.of_nat k + 1)%Z.
Proof.
  destruct (multi_read_stream_error_line example_tokenizer example_name_value
              false ("@boi" ++ String NL ("X" ++ String NL "")) 0%Z
              (train_multi_data.mk_data [] [] [] 0 [])
              (mk_invalid_data
                 "a class label must begins with either 'T' or 'F'" 2%Z)
              (train_multi_data.mk_data [maxent.mk_instance [] 0%Z] [] [] 0
                 []) eq_refl)
    as (k & line & Hk & He & _).
  exists k, line. split; [exact Hk | exact He].
Defined.

(** ** frontend/multi.cpp: read_stream *)

Lemma frontend_read_line_grows (tokenizer : string -> ascii -> list string)
    (get_name_value : string -> string * R) (line : string) (lines : Z)
    (s : train_multi.state) (r : result unit) (s' : train_multi.state) :
  frontend_multi.read_line tokenizer get_name_value line lines s = (r, s') ->
  train_multi.features s `prefix_of` train_multi.features s'
  /\ train_multi.labels s `prefix_of` train_multi.labels s'.
Proof.
  unfold frontend_multi.read_line.
  destruct (tokenizer line TAB) as [|field rest];
    [intros [= <- <-]; split; reflexivity|].
  destruct (is_empty field); [intros [= <- <-]; split; reflexivity|].
  unfold bind at 1. unfold train_multi.intern_label.
  pose proof (quark_intern_spec (train_multi.labels s)
                (frontend_multi.label_of field)) as [Hpre _].
  destruct (quark.intern (train_multi.labels s) _) as [lid q1].
  cbn [fst snd] in Hpre. unfold bind.
  destruct (multi_read_features_spec get_name_value rest []
              (train_multi.mk_state (train_multi.instance s)
                 (train_multi.features s) q1))
    as (fs & s1 & Hrun & Hinst & Hlab & Hfs & Hdec).
  cbn [train_multi.instance train_multi.labels train_multi.features]
    in Hinst, Hlab, Hfs.
  rewrite Hrun. cbn [app]. unfold train_multi.append_candidate.
  intros [= <- <-]. cbn [train_multi.features train_multi.labels].
  split; [exact Hfs|]. rewrite Hlab. exact Hpre.
Qed.

Lemma frontend_candidate_reads_as_prefix
    (tokenizer : string -> ascii -> list string)
    (get_name_value : string -> string * R) (features features' labels
      labels' : quark.t) (line : string) (c : maxent.candidate_type) :
  features `prefix_of` features' -> labels `prefix_of` labels' ->
  frontend_candidate_reads_as tokenizer get_name_value features labels line
    c ->
  frontend_candidate_reads_as tokenizer get_name_value features' labels' line
    c.
Proof.
  intros Hf Hl (field & rest & Ht & Htruth & Hitem & Hdec).
  exists field, rest. split; [exact Ht|]. split; [exact Htruth|].
  split; [eapply quark_to_item_prefix; eassumption|].
  eapply decode_prefix; [exact Hf | exact Hdec | apply parsed_fields_named].
Qed.

Lemma frontend_read_back_line_ok (tokenizer : string -> ascii -> list string)
    (get_name_value : string -> string * R) (line : string) (lines : Z)
    (d : frontend_multi_data.data) :
  frontend_multi_data.instances d <> [] ->
  has_label tokenizer line = true ->
  exists d' c,
    frontend_multi_data.read_back_line tokenizer get_name_value line lines d
    = Done d'
    /\ frontend_multi_data.instances d'
       = extend_back (frontend_multi_data.instances d) [c]
    /\ frontend_candidate_reads_as tokenizer get_name_value
         (frontend_multi_data.features d') (frontend_multi_data.labels d')
         line c
    /\ frontend_data_grows d d'.
Proof.
  intros Hne Hcl. unfold frontend_multi_data.read_back_line, extend_back.
  destruct (last (frontend_multi_data.instances d)) as [inst|] eqn:Hlast.
  2:{ apply last_None in Hlast. contradiction. }
  pose proof (frontend_multi_read_line_cases tokenizer get_name_value line
                lines
                (train_multi.mk_state (maxent.candidates inst)
                   (frontend_multi_data.features d)
                   (frontend_multi_data.labels d))) as Hc.
  unfold has_label in Hcl.
  destruct (tokenizer line TAB) as [|field rest] eqn:Ht; [discriminate|].
  apply negb_true_iff in Hcl. rewrite Hcl in Hc.
  destruct Hc as (s' & c & Hrun & Hinst & Htruth & Hitem & Hdec).
  destruct (frontend_read_line_grows _ _ _ _ _ _ _ Hrun) as [Hf Hl].
  rewrite Hrun.
  cbn [train_multi.features train_multi.labels train_multi.instance]
    in Hf, Hl, Hinst.
  eexists _, c. split; [reflexivity|].
  cbn [frontend_multi_data.instances frontend_multi_data.features
       frontend_multi_data.labels].
  split; [rewrite Hinst; reflexivity|].
  split.
  { exists field, rest. repeat split; assumption. }
  repeat split; assumption.
Qed.

Lemma frontend_body_by_directive (tokenizer : string -> ascii -> list string)
    (get_name_value : string -> string * R) (default_group : Z)
    (line : string) (lines : Z) (d : frontend_multi_data.data) :
  data_line line = true ->
  match frontend_directive_of line with
  | Unregularize => False
  | Boi =>
      frontend_multi_data.read_stream_body tokenizer get_name_value
        default_group line lines d
      = Done (frontend_multi_data.mk_data
                (frontend_multi_data.instances d
                 ++ [maxent.mk_instance [] default_group])
                (frontend_multi_data.features d)
                (frontend_multi_data.labels d)
                (frontend_multi_data.user_feature_end d))
  | Ignored =>
      frontend_multi_data.read_stream_body tokenizer get_name_value
        default_group line lines d
      = Done d
  | Candidate =>
      frontend_multi_data.read_stream_body tokenizer get_name_value
        default_group line lines d
      = frontend_multi_data.read_back_line tokenizer get_name_value line
          lines d
  end.
Proof.
  intros Hd.
  unfold frontend_directive_of, frontend_multi_data.read_stream_body.
  rewrite Hd. cbn [negb].
  destruct (compare0 line 4 "@BOI"); [reflexivity|].
  destruct (compare0 line 4 "@EOI"); reflexivity.
Qed.

Lemma frontend_read_lines_instances
    (tokenizer : string -> ascii -> list string)
    (get_name_value : string -> string * R) (default_group : Z)
    (ls : list string) (lines : Z) (d : frontend_multi_data.data) :
  Forall (fun l => frontend_directive_of l = Candidate ->
                   has_label tokenizer l = true) ls ->
  fst (split_instances frontend_directive_of ls) = []
  \/ frontend_multi_data.instances d <> [] ->
  exists d' cs new,
    read_lines (frontend_multi_data.read_stream_body tokenizer get_name_value
                  default_group) ls lines d
    = Done d'
    /\ frontend_multi_data.instances d'
       = extend_back (frontend_multi_data.instances d) cs ++ new
    /\ Forall2 (frontend_candidate_reads_as tokenizer get_name_value
                  (frontend_multi_data.features d')
                  (frontend_multi_data.labels d'))
         (fst (split_instances frontend_directive_of ls)) cs
    /\ Forall2 (fun block inst =>
                  maxent.get_group inst = default_group
                  /\ Forall2 (frontend_candidate_reads_as tokenizer
                                get_name_value
                                (frontend_multi_data.features d')
                                (frontend_multi_data.labels d'))
                       block (maxent.candidates inst))
         (snd (split_instances frontend_directive_of ls)) new
    /\ frontend_data_grows d d'.
Proof.
  intros Hgood.
  apply (read_lines_blocks _ frontend_multi_data.instances
           frontend_data_grows
           (fun d => frontend_candidate_reads_as tokenizer get_name_value
                       (frontend_multi_data.features d)
                       (frontend_multi_data.labels d))
           frontend_directive_of (has_label tokenizer) default_group).
  - intros s. repeat split; reflexivity.
  - intros s1 s2 s3 (H1 & H2 & H3) (H5 & H6 & H7).
    split; [etransitivity; eassumption|].
    split; [etransitivity; eassumption|]. congruence.
  - intros s s' line c (Hf & Hl & _).
    apply frontend_candidate_reads_as_prefix; assumption.
  - intros line H. unfold frontend_directive_of. rewrite H. reflexivity.
  - intros line n s Hd Hdir.
    pose proof (frontend_body_by_directive tokenizer get_name_value
                  default_group line n s Hd) as Hbody.
    rewrite Hdir in Hbody. rewrite Hbody.
    eexists. split; [reflexivity|]. split; [reflexivity|].
    repeat split; reflexivity.
  - intros line n s Hd Hdir.
    pose proof (frontend_body_by_directive tokenizer get_name_value
                  default_group line n s Hd) as Hbody.
    rewrite Hdir in Hbody. exact Hbody.
  - intros line n s Hd Hdir Hok Hne.
    pose proof (frontend_body_by_directive tokenizer get_name_value
                  default_group line n s Hd) as Hbody.
    rewrite Hdir in Hbody. rewrite Hbody.
    apply frontend_read_back_line_ok; assumption.
  - apply Forall_forall. intros l _ H.
    pose proof H as H'. unfold frontend_directive_of in H'.
    destruct (negb (data_line l)); [discriminate|].
    destruct (compare0 l 4 "@BOI"); [discriminate|].
    destruct (compare0 l 4 "@EOI"); discriminate.
  - exact Hgood.
Qed.

(** X27: [read_stream] of frontend/multi.cpp, without bias features, on a
    stream whose candidate lines all have a first field: each line
    beginning with [@BOI] opens an instance, which receives in order the
    candidates of the candidate lines up to the next such line; the group
    argument is not used, the instances keep the group of their
    constructor.  Candidate lines before the first [@BOI] go to the
    instance that was last in the data, which must exist.  The end index
    of the user features is the size of the feature dictionary after the
    last line. *)
Theorem frontend_multi_read_stream
    (tokenizer : string -> ascii -> list string)
    (get_name_value : string -> string * R) (default_group : Z)
    (input : string) (group : Z) (d : frontend_multi_data.data) :
  let ls := fst (getlines input) in
  Forall (fun l => frontend_directive_of l = Candidate ->
                   has_label tokenizer l = true) ls ->
  fst (split_instances frontend_directive_of ls) = []
  \/ frontend_multi_data.instances d <> [] ->
  exists d' cs new,
    frontend_multi_data.read_stream tokenizer get_name_value false
      default_group input group d
    = Done d'
    /\ frontend_multi_data.instances d'
       = extend_back (frontend_multi_data.instances d) cs ++ new
    /\ Forall2 (frontend_candidate_reads_as tokenizer get_name_value
                  (frontend_multi_data.features d')
                  (frontend_multi_data.labels d'))
         (fst (split_instances frontend_directive_of ls)) cs
    /\ Forall2 (fun block inst =>
                  maxent.get_group inst = default_group
                  /\ Forall2 (frontend_candidate_reads_as tokenizer
                                get_name_value
                                (frontend_multi_data.features d')
                                (frontend_multi_data.labels d'))
                       block (maxent.candidates inst))
         (snd (split_instances frontend_directive_of ls)) new
    /\ frontend_multi_data.user_feature_end d'
       = length (frontend_multi_data.features d')
    /\ frontend_multi_data.features d
       `prefix_of` frontend_multi_data.features d'
    /\ frontend_multi_data.labels d
       `prefix_of` frontend_multi_data.labels d'.
Proof.
  intros ls Hgood Hback.
  destruct (frontend_read_lines_instances tokenizer get_name_value
              default_group ls 0 d Hgood Hback)
    as (d1 & cs & new & Hrun & Hi & Hcs & Hnew & Hf & Hl & Hu).
  unfold frontend_multi_data.read_stream. fold ls. rewrite Hrun.
  eexists _, cs, new. split; [reflexivity|].
  cbn [frontend_multi_data.instances frontend_multi_data.features
       frontend_multi_data.labels frontend_multi_data.user_feature_end].
  repeat split; assumption.
Qed.

(** One instance with a positive and a negative candidate, read with
    group 5 into data whose instances are built with group 0. *)
Example frontend_multi_read_stream_example :
  frontend_multi_data.read_stream example_tokenizer example_name_value false
    0%Z
    ("@BOI" ++ String NL
       ("+1 NP" ++ String TAB ("f" ++ String NL
       ("-1 VP" ++ String TAB ("g" ++ String NL
       ("@EOI" ++ String NL ""))))))%string 5%Z
    (frontend_multi_data.mk_data [] [] [] 0)
  = Done (frontend_multi_data.mk_data
            [maxent.mk_instance
               [maxent.mk_candidate [(0%nat, 1)] true 0;
                maxent.mk_candidate [(1%nat, 1)] false 1] 0%Z]
            ["f"%string; "g"%string] ["NP"%string; "VP"%string] 2).
Proof. reflexivity. Qed.

Lemma frontend_multi_read_stream_witness :
  exists d',
    frontend_multi_data.read_stream example_tokenizer example_name_value
      false 0%Z
      ("@BOI" ++ String NL ("+1 NP" ++ String TAB ("f" ++ String NL "")))
      5%Z (frontend_multi_data.mk_data [] [] [] 0)
    = Done d'.
Proof.
  destruct (frontend_multi_read_stream example_tokenizer example_name_value
              0%Z
              ("@BOI" ++ String NL
                 ("+1 NP" ++ String TAB ("f" ++ String NL "")))
              5%Z (frontend_multi_data.mk_data [] [] [] 0))
    as (d' & cs & new & H & _).
  - eval_lines. repeat (constructor; [check_line|]). constructor.
  - left. reflexivity.
  - exists d'. exact H.
Defined.

(** ** frontend/train/multi.cpp: output_model *)

Lemma output_weights_fold (features : quark.t) (weights : list R)
    (fs : list string) :
  forall (ws : list R) (pre : list string) (wpre : list R)
         (os : list model_item),
    features = pre ++ fs -> weights = wpre ++ ws ->
    length wpre = length pre -> (length fs <= length ws)%nat ->
    fold_left (train_multi_model.output_weight features weights)
      (seq (length pre) (length fs)) (Some os)
    = Some (os ++ map (fun p : R * string => ModelWeight p.1 p.2)
                    (filter (fun p : R * string => p.1 <> 0) (zip ws fs)))
    /\ length (filter (fun i => weights !!! i <> 0)
                 (seq (length pre) (length fs)))
       = length (filter (fun p : R * string => p.1 <> 0) (zip ws fs)).
Proof.
  induction fs as [|f fs IH]; intros ws pre wpre os Hf Hw Hlen Hle.
  - assert (Hz : zip ws ([] : list string) = []) by (destruct ws; reflexivity).
    rewrite Hz. cbn [length seq fold_left]. rewrite !filter_nil.
    cbn [map]. rewrite app_nil_r. split; reflexivity.
  - destruct ws as [|w ws]; [cbn in Hle; lia|].
    cbn [length] in Hle.
    assert (Hwi : weights !! length pre = Some w).
    { rewrite Hw, <- Hlen, lookup_app_r by lia.
      rewrite Nat.sub_diag. reflexivity. }
    assert (Hfi : quark.to_item features (length pre) = Some f).
    { unfold quark.to_item. rewrite Hf, lookup_app_r by lia.
      rewrite Nat.sub_diag. reflexivity. }
    assert (Hwt : weights !!! length pre = w).
    { apply list_lookup_total_correct. exact Hwi. }
    destruct (IH ws (pre ++ [f]) (wpre ++ [w])
                (if decide (w <> 0) then os ++ [ModelWeight w f] else os))
      as [Hrun Hcount].
    { rewrite <- app_assoc. exact Hf. }
    { rewrite <- app_assoc. exact Hw. }
    { rewrite !length_app. cbn [length]. lia. }
    { lia. }
    rewrite length_app in Hrun, Hcount. cbn [length] in Hrun, Hcount.
    replace (length pre + 1)%nat with (S (length pre)) in Hrun, Hcount
      by lia.
    cbn [length seq fold_left zip zip_with].
    unfold train_multi_model.output_weight at 2. rewrite Hwi, Hfi, Hrun.
    split.
    + destruct (decide (w <> 0)) as [Hnz|Hz].
      * rewrite (filter_cons_True (fun p : R * string => p.1 <> 0))
          by exact Hnz.
        cbn [map fst snd]. rewrite <- app_assoc. reflexivity.
      * rewrite (filter_cons_False (fun p : R * string => p.1 <> 0))
          by exact Hz.
        reflexivity.
    + destruct (decide (w <> 0)) as [Hnz|Hz].
      * rewrite (filter_cons_True (fun p : R * string => p.1 <> 0))
          by exact Hnz.
        rewrite filter_cons_True by (rewrite Hwt; exact Hnz).
        cbn [length]. rewrite Hcount. reflexivity.
      * rewrite (filter_cons_False (fun p : R * string => p.1 <> 0))
          by exact Hz.
        rewrite filter_cons_False by (rewrite Hwt; exact Hz).
        exact Hcount.
Qed.

(** X28: [output_model] of frontend/train/multi.cpp writes the line of the
    model type and then, in the order of the feature identifiers, one line
    for each feature whose weight is not zero, with that weight and the
    name of the feature; a feature of weight zero gets no line.  The
    number of weight lines is the number of active features that the
    progress callbacks report for these weights and this number of
    features.  The weight array must hold a weight for every feature. *)
Theorem multi_output_model (features : quark.t) (weights : list R) :
  (length features <= length weights)%nat ->
  let body := filter (fun p : R * string => p.1 <> 0) (zip weights features) in
  train_multi_model.output_model features weights
  = Some (ModelType "multi"
            :: map (fun p : R * string => ModelWeight p.1 p.2) body)
  /\ length body = count_active weights (length features).
Proof.
  intros Hle body.
  destruct (output_weights_fold features weights features weights [] []
              [ModelType "multi"] eq_refl eq_refl eq_refl Hle)
    as [Hrun Hcount].
  split.
  - unfold train_multi_model.output_model. exact Hrun.
  - unfold count_active. rewrite count_active_fold. cbn [length] in Hcount.
    rewrite Hcount. reflexivity.
Qed.

Lemma multi_output_model_witness :
  train_multi_model.output_model ["a"%string; "b"%string; "c"%string]
    [2; 0; 3; 5]
  = Some (ModelType "multi"
            :: map (fun p : R * string => ModelWeight p.1 p.2)
                 (filter (fun p : R * string => p.1 <> 0)
                    (zip [2; 0; 3; 5] ["a"%string; "b"%string; "c"%string]))).
Proof.
  destruct (multi_output_model ["a"%string; "b"%string; "c"%string]
              [2; 0; 3; 5]) as [H _].
  - cbn. lia.
  - exact H.
Defined.

(** Fewer weights than features: the loop reads past the end of the
    weight array. *)
Lemma multi_output_model_short (features : quark.t) (weights : list R) :
  (length weights < length features)%nat ->
  train_multi_model.output_model features weights = None.
Proof.
  intros Hlt. unfold train_multi_model.output_model.
  assert (Hnone : forall l,
            fold_left (train_multi_model.output_weight features weights) l
              None = None).
  { induction l as [|i l IH]; [reflexivity | exact IH]. }
  assert (Hgen : forall n start os,
            (start <= length weights < start + n)%nat ->
            fold_left (train_multi_model.output_weight features weights)
              (seq start n) os = None).
  { induction n as [|n IH]; intros start os Hr; [lia|].
    cbn [seq fold_left].
    destruct (decide (start = length weights)) as [->|Hne].
    - unfold train_multi_model.output_weight at 2.
      rewrite (lookup_ge_None_2 weights (length weights)) by lia.
      destruct os; apply Hnone.
    - apply IH. lia. }
  apply Hgen. lia.
Qed.
